(** * Visual-test harness of axiom-gui: orchestration and result bookkeeping

    A shallow embedding of the five scripts under [visual-tests/scripts]:
    [webdriver_visual_test.py], [direct_render_test.py],
    [visual_validator.py], [simple_visual_test.py] and
    [axiom_render_test.py].

    Every method of a tester class becomes a computation in a small
    state-and-exception monad.  The collaborators the scripts talk to
    (Selenium, the axiom bindings, [subprocess], the clock, the file
    system) are not part of the repository: they are an environment
    record of functions indexed by a logical clock, so that the same call
    may answer differently at different moments of a run.  An answer
    [inl msg] stands for the collaborator raising an [Exception] whose
    [str] is [msg]; [inr v] stands for it returning [v].

    Not modelled: [print] output, the duration of [time.sleep], the
    building of [ChromeOptions] objects and the assignments to
    [os.environ] (taken to succeed), the import of the modules, and
    signals delivered asynchronously by the operating system. *)

From Stdlib Require Import Ascii String QArith.
From stdpp Require Import base list strings pretty.

Local Open Scope string_scope.
Local Open Scope list_scope.

(** ** Exceptions, outcomes and the state of a run *)

(** The two exception classes the scripts tell apart.  [except Exception]
    catches the first and lets the second through. *)
Inductive exn : Type :=
  | Exception (msg : string)
  | KeyboardInterrupt.

Inductive outcome (A : Type) : Type :=
  | Ok (a : A)
  | Raise (e : exn).
Arguments Ok {A} a.
Arguments Raise {A} e.

(** The log of a run: every call made to a collaborator and every entry
    into a method of the tester.  The scripts keep no such log; it is the
    counter the properties of a session are stated with. *)
Inductive event : Type :=
  | Call (target : string)
  | Enter (method : string).

Definition event_eqb (a b : event) : bool :=
  match a, b with
  | Call x, Call y => String.eqb x y
  | Enter x, Enter y => String.eqb x y
  | _, _ => false
  end.

(** How often [ev] occurs in a log. *)
Definition count_event (ev : event) (l : list event) : nat :=
  length (List.filter (event_eqb ev) l).

(** [report] is the report artifact: [None] while no report file has been
    opened for writing, otherwise the chunks passed to [f.write] so far. *)
Record world : Type := World {
  tick : nat;
  events : list event;
  report : option (list string)
}.

Record state (Self : Type) : Type := State {
  st_world : world;
  self : Self
}.
Arguments State {Self} st_world self.
Arguments st_world {Self} s.
Arguments self {Self} s.

Definition M (Self A : Type) : Type := state Self -> outcome A * state Self.

Definition world0 : world := {| tick := 0; events := []; report := None |}.

(** The statuses written into a [results] dictionary. *)
Inductive Status : Type := PASS | FAIL | ERROR | VISUAL.

Global Instance Status_eq_dec : EqDecision Status.
Proof. solve_decision. Defined.

Definition status_str (s : Status) : string :=
  match s with
  | PASS => "PASS" | FAIL => "FAIL" | ERROR => "ERROR" | VISUAL => "VISUAL"
  end.

Section Monad.
Context {Self : Type}.

Definition ret {A} (a : A) : M Self A := fun st => (Ok a, st).

Definition bind {A B} (m : M Self A) (k : A -> M Self B) : M Self B :=
  fun st =>
    match m st with
    | (Ok a, st') => k a st'
    | (Raise e, st') => (Raise e, st')
    end.

Definition raise {A} (e : exn) : M Self A := fun st => (Raise e, st).

Definition log (ev : event) (w : world) : world :=
  {| tick := tick w; events := events w ++ [ev]; report := report w |}.

Definition advance (w : world) : world :=
  {| tick := S (tick w); events := events w; report := report w |}.

(** Entering a method of the tester. *)
Definition enter (method : string) : M Self unit :=
  fun st => (Ok tt, State (log (Enter method) (st_world st)) (self st)).

(** A call to a collaborator that may raise. *)
Definition ext {A} (target : string) (answer : nat -> string + A) : M Self A :=
  fun st =>
    let w := st_world st in
    let st' := State (advance (log (Call target) w)) (self st) in
    match answer (tick w) with
    | inl msg => (Raise (Exception msg), st')
    | inr a => (Ok a, st')
    end.

(** A call to a collaborator that always answers. *)
Definition observe {A} (target : string) (answer : nat -> A) : M Self A :=
  fun st =>
    let w := st_world st in
    (Ok (answer (tick w)), State (advance (log (Call target) w)) (self st)).

Definition get_self : M Self Self := fun st => (Ok (self st), st).

Definition modify (f : Self -> Self) : M Self unit :=
  fun st => (Ok tt, State (st_world st) (f (self st))).

(** [time.sleep(n)]. *)
Definition sleep (seconds : nat) : M Self unit := ret tt.

(** [try: body / except Exception as e: handler(str(e))]. *)
Definition try_except {A} (body : M Self A) (handler : string -> M Self A)
  : M Self A :=
  fun st =>
    match body st with
    | (Ok a, st') => (Ok a, st')
    | (Raise (Exception msg), st') => handler msg st'
    | (Raise KeyboardInterrupt, st') => (Raise KeyboardInterrupt, st')
    end.

(** [try: body / except KeyboardInterrupt: on_interrupt /
    except Exception as e: handler(str(e))]. *)
Definition try_except_interrupt {A} (body : M Self A)
    (on_interrupt : M Self A) (handler : string -> M Self A) : M Self A :=
  fun st =>
    match body st with
    | (Ok a, st') => (Ok a, st')
    | (Raise (Exception msg), st') => handler msg st'
    | (Raise KeyboardInterrupt, st') => on_interrupt st'
    end.

(** [try: body / finally: cleanup].  An exception of the cleanup
    replaces the result of the body. *)
Definition try_finally {A} (body : M Self A) (cleanup : M Self unit)
  : M Self A :=
  fun st =>
    match body st with
    | (r, st') =>
        match cleanup st' with
        | (Ok _, st'') => (r, st'')
        | (Raise e, st'') => (Raise e, st'')
        end
    end.

(** [for x in xs: body(x)]. *)
Fixpoint for_each {X} (xs : list X) (body : X -> M Self unit) : M Self unit :=
  match xs with
  | [] => ret tt
  | x :: xs' => bind (body x) (fun _ => for_each xs' body)
  end.

(** [open(report_path, 'w')]: truncates the artifact. *)
Definition fopen_w (answer : nat -> string + unit) : M Self unit :=
  fun st =>
    let w := st_world st in
    let w' := advance (log (Call "open") w) in
    match answer (tick w) with
    | inl msg => (Raise (Exception msg), State w' (self st))
    | inr _ =>
        (Ok tt, State {| tick := tick w'; events := events w';
                         report := Some [] |} (self st))
    end.

(** [f.write(s)]. *)
Definition fwrite (s : string) : M Self unit :=
  fun st =>
    let w := st_world st in
    (Ok tt, State {| tick := tick w; events := events w;
                     report := Some (default [] (report w) ++ [s]) |}
                  (self st)).
End Monad.

Declare Scope py_scope.
Delimit Scope py_scope with py.
Notation "x <- m ;; k" := (bind m (fun x => k))
  (at level 100, m at next level, right associativity) : py_scope.
Notation "m ;; k" := (bind m (fun _ => k))
  (at level 100, right associativity) : py_scope.
Local Open Scope py_scope.

(** ** The pieces of Python's standard library the scripts use *)

(** The status a process ends with under [sys.exit(main())]: the value
    [main] returns, and a non-zero status when an exception escapes. *)
Definition exit_status (r : outcome nat) : nat :=
  match r with
  | Ok code => code
  | Raise (Exception _) => 1
  | Raise KeyboardInterrupt => 130
  end.

(** The line feed written as a backslash-n escape in the scripts. *)
Definition nl : string := String (ascii_of_nat 10) EmptyString.

(** Truthiness of a list and of a string. *)
Definition truthy {A} (l : list A) : bool :=
  match l with [] => false | _ => true end.

Definition nonempty (s : string) : bool :=
  match s with EmptyString => false | _ => true end.

(** [s.lower()] on ASCII letters. *)
Definition lower_ascii (c : ascii) : ascii :=
  let n := nat_of_ascii c in
  if (65 <=? n)%nat && (n <=? 90)%nat then ascii_of_nat (n + 32) else c.

Fixpoint lower (s : string) : string :=
  match s with
  | EmptyString => EmptyString
  | String c s' => String (lower_ascii c) (lower s')
  end.

(** [needle in hay]. *)
Fixpoint contains (needle hay : string) : bool :=
  String.prefix needle hay ||
  match hay with
  | EmptyString => false
  | String _ hay' => contains needle hay'
  end.

(** [s.strip()]. *)
Definition is_space (c : ascii) : bool :=
  let n := nat_of_ascii c in
  (n =? 32)%nat || ((9 <=? n)%nat && (n <=? 13)%nat).

Fixpoint lstrip (s : string) : string :=
  match s with
  | String c s' => if is_space c then lstrip s' else s
  | EmptyString => EmptyString
  end.

Fixpoint rstrip (s : string) : string :=
  match s with
  | EmptyString => EmptyString
  | String c s' =>
      match rstrip s' with
      | EmptyString => if is_space c then EmptyString else String c EmptyString
      | t => String c t
      end
  end.

Definition strip (s : string) : string := rstrip (lstrip s).

(** [sum(1 for x in xs if p(x))]. *)
Definition sum_1_if {A} (p : A -> bool) (xs : list A) : nat :=
  fold_left (fun acc x => if p x then acc + 1 else acc) xs 0.

(** [", ".join(xs)]. *)
Definition join (sep : string) (xs : list string) : string :=
  String.concat sep xs.

(** [pathlib.PurePath]: a directory and a final component. *)
Record Path : Type := { parent : string; pname : string }.

Definition path_str (p : Path) : string := parent p +:+ "/" +:+ pname p.

Definition joinpath (dir : string) (name : string) : Path :=
  {| parent := dir; pname := name |}.

Fixpoint rfind (c : ascii) (s : string) : option nat :=
  match s with
  | EmptyString => None
  | String a s' =>
      match rfind c s' with
      | Some i => Some (S i)
      | None => if Ascii.eqb a c then Some 0 else None
      end
  end.

(** [Path.stem] and [Path.suffix]: the name is cut at its last dot when
    that dot is neither the first nor the last character. *)
Definition split_ext (name : string) : string * string :=
  match rfind "."%char name with
  | Some i =>
      if (0 <? i)%nat && (i <? String.length name - 1)%nat
      then (substring 0 i name, substring i (String.length name - i) name)
      else (name, "")
  | None => (name, "")
  end.

Definition stem (p : Path) : string := fst (split_ext (pname p)).
Definition suffix (p : Path) : string := snd (split_ext (pname p)).

(** [sorted(paths)]. *)
Fixpoint insert_sorted (p : Path) (l : list Path) : list Path :=
  match l with
  | [] => [p]
  | q :: l' =>
      if String.leb (path_str p) (path_str q) then p :: l
      else q :: insert_sorted p l'
  end.

Definition sorted (l : list Path) : list Path := foldr insert_sorted [] l.

Definition base_dir : string :=
  "/home/agent/projects/axiom/axiom-gui/visual-tests".
Definition structures_dir : string := base_dir +:+ "/structures".
Definition screenshots_dir : string := base_dir +:+ "/screenshots".

(** ** Selenium, as the two browser scripts use it *)

Module Selenium.

Inductive By : Type := TAG_NAME | CSS_SELECTOR.

Record WebElement : Type := { element_id : nat }.

Inductive Keys : Type := ADD | SUBTRACT.

(** The gestures queued on an [ActionChains] before [perform]. *)
Inductive Action : Type :=
  | move_to_element (e : WebElement)
  | click_and_hold (on : option WebElement)
  | move_by_offset (dx dy : nat)
  | release
  | click
  | send_keys (k : Keys).

(** [driver.find_element] answers with the first element
    [driver.find_elements] would list, and raises
    [NoSuchElementException] when that list is empty. *)
Definition no_such_element : string := "Message: no such element".

Definition first_match (answer : string + list WebElement)
  : string + WebElement :=
  match answer with
  | inl msg => inl msg
  | inr [] => inl no_such_element
  | inr (e :: _) => inr e
  end.

End Selenium.

(** ** [webdriver_visual_test.py] *)

Module WebDriverVisualTest.
Import Selenium.

(** Selenium, the clock and the file system.  [find_elements] answers
    with every element matching the selector, the empty list when there
    is none. *)
Record Env : Type := {
  now : nat -> string;
  now_long : nat -> string;
  Chrome : nat -> string + unit;
  set_window_size : nat -> nat -> nat -> string + unit;
  get : nat -> string -> string + unit;
  find_elements : nat -> By -> string -> string + list WebElement;
  save_screenshot : nat -> string -> string + unit;
  page_source : nat -> string + string;
  quit : nat -> string + unit;
  text : nat -> WebElement -> string + string;
  element_click : nat -> WebElement -> string + unit;
  element_send_keys : nat -> WebElement -> string -> string + unit;
  perform : nat -> list Action -> string + unit;
  exists_ : nat -> Path -> bool;
  glob : nat -> string -> string + list Path;
  readline : nat -> Path -> string + string;
  open_w : nat -> string -> string + unit
}.

Record TestEntry : Type := {
  name : string;
  result : Status;
  note : option string;
  error : option string;
  controls : option (list string);
  keywords : option (list string)
}.

Record Screenshot : Type := {
  ss_name : string;
  ss_description : string;
  ss_file : string;
  ss_timestamp : string
}.

Record Bug : Type := { bug_test : string; bug_issue : string }.

Record Results : Type := {
  tests : list TestEntry;
  screenshots : list Screenshot;
  bugs : list Bug
}.

Record Self : Type := {
  driver : option unit;
  results : Results
}.

Definition app_url : string := "http://localhost:1420".

(** [WebDriverVisualTest(base_dir)]. *)
Definition init : state Self :=
  State world0
    {| driver := None;
       results := {| tests := []; screenshots := []; bugs := [] |} |}.

Definition entry (n : string) (r : Status) : TestEntry :=
  {| name := n; result := r; note := None; error := None;
     controls := None; keywords := None |}.

Definition append_test (t : TestEntry) : M Self unit :=
  modify (fun s =>
    {| driver := driver s;
       results := {| tests := tests (results s) ++ [t];
                     screenshots := screenshots (results s);
                     bugs := bugs (results s) |} |}).

Definition append_screenshot (x : Screenshot) : M Self unit :=
  modify (fun s =>
    {| driver := driver s;
       results := {| tests := tests (results s);
                     screenshots := screenshots (results s) ++ [x];
                     bugs := bugs (results s) |} |}).

Definition append_bug (b : Bug) : M Self unit :=
  modify (fun s =>
    {| driver := driver s;
       results := {| tests := tests (results s);
                     screenshots := screenshots (results s);
                     bugs := bugs (results s) ++ [b] |} |}).

Definition set_driver (d : option unit) : M Self unit :=
  modify (fun s => {| driver := d; results := results s |}).

(** [self.driver.attr(...)]: an attribute of [None] cannot be looked up. *)
Definition driver_call {A} (attr : string) (answer : nat -> string + A)
  : M Self A :=
  s <- get_self ;;
  match driver s with
  | None =>
      raise (Exception
        ("'NoneType' object has no attribute '" +:+ attr +:+ "'"))
  | Some _ => ext ("driver." +:+ attr) answer
  end.

Section Methods.
Variable env : Env.

Definition setup_driver : M Self bool :=
  try_except
    (ext "webdriver.Chrome" (Chrome env) ;;
     set_driver (Some tt) ;;
     ext "driver.set_window_size"
         (fun t => set_window_size env t 1920 1080) ;;
     ret true)
    (fun e => ret false).

Definition close_driver : M Self unit :=
  enter "close_driver" ;;
  s <- get_self ;;
  match driver s with
  | Some _ => ext "driver.quit" (quit env)
  | None => ret tt
  end.

Definition take_screenshot (name description : string)
  : M Self (option string) :=
  timestamp <- observe "datetime.now" (now env) ;;
  let filename := timestamp +:+ "_" +:+ name +:+ ".png" in
  let filepath := path_str (joinpath screenshots_dir filename) in
  try_except
    (driver_call "save_screenshot"
       (fun t => save_screenshot env t filepath) ;;
     append_screenshot
       {| ss_name := name; ss_description := description;
          ss_file := filename; ss_timestamp := timestamp |} ;;
     ret (Some filepath))
    (fun e => ret None).

Definition test_gui_loads_body (test_name : string) : M Self bool :=
  driver_call "get" (fun t => get env t app_url) ;;
  sleep 3 ;;
  take_screenshot "00_gui_loaded" "GUI initial load" ;;
  canvas <- driver_call "find_elements"
              (fun t => find_elements env t TAG_NAME "canvas") ;;
  result <- (if truthy canvas then ret PASS
             else
               append_bug
                 {| bug_test := test_name;
                    bug_issue := "No canvas element found in DOM" |} ;;
               ret FAIL) ;;
  append_test (entry test_name result) ;;
  ret (bool_decide (result = PASS)).

Definition test_gui_loads : M Self bool :=
  let test_name := "GUI Loading" in
  enter "test_gui_loads" ;;
  try_except (test_gui_loads_body test_name)
    (fun e =>
       append_test
         {| name := test_name; result := ERROR; note := None;
            error := Some e; controls := None; keywords := None |} ;;
       append_bug {| bug_test := test_name; bug_issue := e |} ;;
       ret false).

(** The [for btn in buttons] loop of [test_load_structure], which
    stops at the first button whose label mentions loading. *)
Fixpoint probe_buttons (buttons file_inputs : list WebElement)
  : M Self (list WebElement) :=
  match buttons with
  | [] => ret file_inputs
  | btn :: rest =>
      label <- ext "element.text" (fun t => text env t btn) ;;
      let text := lower label in
      if contains "load" text || contains "open" text
         || contains "file" text
      then
        ext "element.click" (fun t => element_click env t btn) ;;
        sleep 1 ;;
        driver_call "find_elements"
          (fun t => find_elements env t CSS_SELECTOR "input[type='file']")
      else probe_buttons rest file_inputs
  end.

Definition test_load_structure_body (test_name : string)
    (structure_file : Path) : M Self bool :=
  file_inputs <- driver_call "find_elements"
    (fun t => find_elements env t CSS_SELECTOR "input[type='file']") ;;
  file_inputs <-
    (if negb (truthy file_inputs) then
       buttons <- driver_call "find_elements"
                    (fun t => find_elements env t TAG_NAME "button") ;;
       probe_buttons buttons file_inputs
     else ret file_inputs) ;;
  result <-
    match file_inputs with
    | file_input :: _ =>
        ext "element.send_keys"
          (fun t => element_send_keys env t file_input
                      (path_str structure_file)) ;;
        sleep 5 ;;
        take_screenshot ("structure_" +:+ stem structure_file)
          ("Loaded structure: " +:+ pname structure_file) ;;
        ret PASS
    | [] =>
        append_bug {| bug_test := test_name;
                      bug_issue := "No file input element found" |} ;;
        ret FAIL
    end ;;
  append_test (entry test_name result) ;;
  ret (bool_decide (result = PASS)).

Definition test_load_structure (structure_file : Path) : M Self bool :=
  let test_name := "Load Structure: " +:+ pname structure_file in
  enter "test_load_structure" ;;
  try_except (test_load_structure_body test_name structure_file)
    (fun e =>
       append_test
         {| name := test_name; result := ERROR; note := None;
            error := Some e; controls := None; keywords := None |} ;;
       ret false).

Definition test_rotation_body (test_name : string) : M Self bool :=
  canvas <- driver_call "find_element"
    (fun t => first_match (find_elements env t TAG_NAME "canvas")) ;;
  take_screenshot "rotation_before" "Before rotation" ;;
  ext "actions.perform"
    (fun t => perform env t
       [move_to_element canvas; click_and_hold None;
        move_by_offset 200 100; release]) ;;
  sleep 2 ;;
  take_screenshot "rotation_after" "After rotation (drag 200x100)" ;;
  append_test
    {| name := test_name; result := VISUAL;
       note := Some "Compare before/after screenshots";
       error := None; controls := None; keywords := None |} ;;
  ret true.

Definition test_rotation : M Self bool :=
  let test_name := "Rotation" in
  enter "test_rotation" ;;
  try_except (test_rotation_body test_name)
    (fun e =>
       append_test
         {| name := test_name; result := ERROR; note := None;
            error := Some e; controls := None; keywords := None |} ;;
       ret false).

(** One probe of [test_controls_visible]: the label is added when the
    lookup finds something. *)
Definition count_controls (by_ : By) (value label : string)
    (controls_found : list string) : M Self (list string) :=
  found <- driver_call "find_elements"
             (fun t => find_elements env t by_ value) ;;
  ret (if truthy found
       then controls_found ++ [pretty (length found) +:+ " " +:+ label]
       else controls_found).

Definition ui_keywords : list string :=
  ["rotation"; "zoom"; "background"; "render"; "load"; "open"; "file"].

Definition test_controls_visible_body (test_name : string) : M Self bool :=
  take_screenshot "ui_controls" "UI controls overview" ;;
  let controls_found := [] in
  controls_found <- count_controls TAG_NAME "button" "buttons"
                      controls_found ;;
  controls_found <- count_controls TAG_NAME "input" "inputs"
                      controls_found ;;
  controls_found <- count_controls CSS_SELECTOR "input[type='checkbox']"
                      "checkboxes" controls_found ;;
  controls_found <- count_controls TAG_NAME "select" "select boxes"
                      controls_found ;;
  source <- driver_call "page_source" (page_source env) ;;
  let found_keywords :=
    filter (fun kw => contains (lower kw) (lower source) = true)
           ui_keywords in
  append_test
    {| name := test_name; result := PASS; note := None; error := None;
       controls := Some controls_found;
       keywords := Some found_keywords |} ;;
  ret true.

Definition test_controls_visible : M Self bool :=
  let test_name := "UI Controls Visibility" in
  enter "test_controls_visible" ;;
  try_except (test_controls_visible_body test_name)
    (fun e =>
       append_test
         {| name := test_name; result := ERROR; note := None;
            error := Some e; controls := None; keywords := None |} ;;
       ret false).

Definition write_structure (f : Path) : M Self unit :=
  if bool_decide (suffix f = ".xyz") then
    line <- ext "readline" (fun t => readline env t f) ;;
    let atom_count := strip line in
    fwrite ("- **" +:+ pname f +:+ "**: " +:+ atom_count +:+ " atoms" +:+ nl)
  else
    fwrite ("- **" +:+ pname f +:+ "**" +:+ nl).

Definition write_test (t : TestEntry) : M Self unit :=
  fwrite ("### " +:+ name t +:+ nl) ;;
  fwrite ("**Result**: " +:+ status_str (result t) +:+ nl +:+ nl) ;;
  match note t with
  | Some n => fwrite ("*" +:+ n +:+ "*" +:+ nl +:+ nl)
  | None => ret tt
  end ;;
  match error t with
  | Some e => fwrite ("```" +:+ nl +:+ e +:+ nl +:+ "```" +:+ nl +:+ nl)
  | None => ret tt
  end ;;
  match controls t with
  | Some c => fwrite ("Controls: " +:+ join ", " c +:+ nl +:+ nl)
  | None => ret tt
  end ;;
  match keywords t with
  | Some k => fwrite ("UI Keywords: " +:+ join ", " k +:+ nl +:+ nl)
  | None => ret tt
  end.

Definition write_bug (ib : nat * Bug) : M Self unit :=
  fwrite ("### " +:+ pretty (fst ib) +:+ ". " +:+ bug_test (snd ib) +:+ nl) ;;
  fwrite (bug_issue (snd ib) +:+ nl +:+ nl).

Definition write_screenshot (ss : Screenshot) : M Self unit :=
  fwrite ("### " +:+ ss_name ss +:+ nl) ;;
  (if nonempty (ss_description ss)
   then fwrite (ss_description ss +:+ nl +:+ nl) else ret tt) ;;
  fwrite ("![" +:+ ss_name ss +:+ "](screenshots/" +:+ ss_file ss +:+ ")"
          +:+ nl +:+ nl) ;;
  fwrite ("*Timestamp: " +:+ ss_timestamp ss +:+ "*" +:+ nl +:+ nl).

(** [enumerate(xs, 1)]. *)
Definition enumerate1 {A} (xs : list A) : list (nat * A) :=
  zip (seq 1 (length xs)) xs.

Definition has_result (r : Status) (t : TestEntry) : bool :=
  bool_decide (result t = r).

Definition generate_report : M Self Path :=
  enter "generate_report" ;;
  let report_path := joinpath base_dir "VISUAL_VALIDATION_REPORT.md" in
  fopen_w (fun t => open_w env t (path_str report_path)) ;;
  fwrite ("# Axiom GUI Visual Validation Report" +:+ nl +:+ nl) ;;
  generated <- observe "datetime.now" (now_long env) ;;
  fwrite ("Generated: " +:+ generated +:+ nl +:+ nl) ;;
  fwrite ("## Summary" +:+ nl +:+ nl) ;;
  s <- get_self ;;
  let r := results s in
  let total_tests := length (tests r) in
  let passed := sum_1_if (has_result PASS) (tests r) in
  let failed := sum_1_if (has_result FAIL) (tests r) in
  let errors := sum_1_if (has_result ERROR) (tests r) in
  let visual := sum_1_if (has_result VISUAL) (tests r) in
  fwrite ("- Total Tests: " +:+ pretty total_tests +:+ nl) ;;
  fwrite ("- Passed: " +:+ pretty passed +:+ nl) ;;
  fwrite ("- Failed: " +:+ pretty failed +:+ nl) ;;
  fwrite ("- Errors: " +:+ pretty errors +:+ nl) ;;
  fwrite ("- Visual Validation Required: " +:+ pretty visual +:+ nl) ;;
  fwrite ("- Screenshots Captured: " +:+ pretty (length (screenshots r))
          +:+ nl +:+ nl) ;;
  fwrite ("## Test Structures" +:+ nl +:+ nl) ;;
  fwrite ("Small structures (3-20 atoms) for fast rendering:" +:+ nl +:+ nl) ;;
  files <- ext "glob" (fun t => glob env t structures_dir) ;;
  for_each (sorted files) write_structure ;;
  fwrite nl ;;
  fwrite ("## Test Results" +:+ nl +:+ nl) ;;
  for_each (tests r) write_test ;;
  (if truthy (bugs r) then
     fwrite ("## Bugs / Issues Found" +:+ nl +:+ nl) ;;
     for_each (enumerate1 (bugs r)) write_bug
   else ret tt) ;;
  fwrite ("## Screenshots" +:+ nl +:+ nl) ;;
  for_each (screenshots r) write_screenshot ;;
  ret report_path.

(** The body of the [try] of [main]: [Some 1] is its early
    [return 1], [None] is falling out of the block. *)
Definition run_tests : M Self (option nat) :=
  ok <- setup_driver ;;
  if negb ok then ret (Some 1)
  else
    test_gui_loads ;;
    test_controls_visible ;;
    for_each ["water.xyz"; "methane.xyz"] (fun struct =>
      let struct_file := joinpath structures_dir struct in
      present <- observe "Path.exists" (fun t => exists_ env t struct_file) ;;
      if present then test_load_structure struct_file ;; ret tt
      else ret tt) ;;
    test_rotation ;;
    generate_report ;;
    ret None.

Definition main : M Self nat :=
  returned <- try_finally
    (try_except_interrupt run_tests (ret None) (fun e => ret None))
    close_driver ;;
  match returned with
  | Some code => ret code
  | None => ret 0
  end.
End Methods.
End WebDriverVisualTest.

(** ** [direct_render_test.py] *)

Module DirectRenderTest.

(** A float literal of the script, read as the rational it denotes. *)
Definition vec : Type := list Q.
Definition vec3 (x y z : Q) : vec := [x; y; z].

(** The axiom bindings, the clock and the file system. *)
Record Env : Type := {
  now : nat -> string;
  now_long : nat -> string;
  chdir : nat -> string -> string + unit;
  Atoms : nat -> string + unit;
  push : nat -> Q -> Q -> Q -> nat -> string + unit;
  len_atoms : nat -> string + nat;
  Renderer : nat -> nat -> nat -> string + unit;
  set_camera : nat -> vec -> vec -> vec -> string + unit;
  save_image : nat -> string -> string + unit;
  has_set_background : nat -> bool;
  set_background : nat -> Q -> Q -> Q -> string + unit;
  open_w : nat -> string -> string + unit
}.

Record TestEntry : Type := { name : string; result : Status }.

Record Render : Type := {
  render_name : string;
  render_file : string;
  render_description : string
}.

Record ErrorEntry : Type := { error_test : string; error : string }.

Record Results : Type := {
  tests : list TestEntry;
  renders : list Render;
  errors : list ErrorEntry
}.

(** The tester object holds nothing but its results. *)
Abbreviation Self := Results (only parsing).

(** [DirectRenderTest(base_dir)]. *)
Definition init : state Self :=
  State world0 {| tests := []; renders := []; errors := [] |}.

Definition append_test (t : TestEntry) : M Self unit :=
  modify (fun r => {| tests := tests r ++ [t]; renders := renders r;
                      errors := errors r |}).

Definition append_render (x : Render) : M Self unit :=
  modify (fun r => {| tests := tests r; renders := renders r ++ [x];
                      errors := errors r |}).

Definition append_error (e : ErrorEntry) : M Self unit :=
  modify (fun r => {| tests := tests r; renders := renders r;
                      errors := errors r ++ [e] |}).

Section Methods.
Variable env : Env.

Definition atoms_push (x y z : Q) (element : nat) : M Self unit :=
  ext "atoms.push" (fun t => push env t x y z element).

Definition new_renderer : M Self unit :=
  ext "axiom.Renderer" (fun t => Renderer env t 800 600).

Definition renderer_set_camera (position target up : vec) : M Self unit :=
  ext "renderer.set_camera" (fun t => set_camera env t position target up).

(** [renderer.save_image(atoms, str(output_file))] followed by the
    bookkeeping of the render. *)
Definition save_and_record (output_file : Path) (name description : string)
  : M Self unit :=
  ext "renderer.save_image"
    (fun t => save_image env t (path_str output_file)) ;;
  append_render {| render_name := name; render_file := pname output_file;
                   render_description := description |}.

(** The [except] clause shared, word for word, by the four tests. *)
Definition on_exception (test_name : string) (e : string) : M Self bool :=
  append_error {| error_test := test_name; error := e |} ;;
  append_test {| name := test_name; result := FAIL |} ;;
  ret false.

Definition test_simple_water_body (test_name : string) : M Self bool :=
  ext "axiom.Atoms" (Atoms env) ;;
  atoms_push 0.0 0.0 0.0 8 ;;
  atoms_push 0.757 0.586 0.0 1 ;;
  atoms_push (-0.757) 0.586 0.0 1 ;;
  ext "len(atoms)" (len_atoms env) ;;
  new_renderer ;;
  timestamp <- observe "datetime.now" (now env) ;;
  let output_file :=
    joinpath screenshots_dir (timestamp +:+ "_water_default.png") in
  renderer_set_camera (vec3 0.0 0.0 10.0) (vec3 0.0 0.0 0.0) (vec3 0.0 1.0 0.0) ;;
  save_and_record output_file "water_default"
    "Water molecule - default view" ;;
  append_test {| name := test_name; result := PASS |} ;;
  ret true.

Definition test_simple_water : M Self bool :=
  let test_name := "Render Water Molecule" in
  enter "test_simple_water" ;;
  try_except (test_simple_water_body test_name) (on_exception test_name).

Definition angles : list (string * vec) :=
  [("front", (vec3 0.0 0.0 10.0)); ("side", (vec3 10.0 0.0 0.0));
   ("top", (vec3 0.0 10.0 0.0)); ("angle", (vec3 7.0 7.0 7.0))].

Definition test_rotation_body (test_name : string) : M Self bool :=
  ext "axiom.Atoms" (Atoms env) ;;
  atoms_push 0.0 0.0 0.0 6 ;;
  atoms_push 0.629 0.629 0.629 1 ;;
  atoms_push (-0.629) (-0.629) 0.629 1 ;;
  atoms_push (-0.629) 0.629 (-0.629) 1 ;;
  atoms_push 0.629 (-0.629) (-0.629) 1 ;;
  ext "len(atoms)" (len_atoms env) ;;
  new_renderer ;;
  for_each angles (fun a =>
    let angle_name := fst a in
    let camera_pos := snd a in
    timestamp <- observe "datetime.now" (now env) ;;
    let output_file :=
      joinpath screenshots_dir
        (timestamp +:+ "_rotation_" +:+ angle_name +:+ ".png") in
    renderer_set_camera camera_pos (vec3 0.0 0.0 0.0) (vec3 0.0 1.0 0.0) ;;
    save_and_record output_file ("rotation_" +:+ angle_name)
      ("Methane from " +:+ angle_name +:+ " view")) ;;
  append_test {| name := test_name; result := PASS |} ;;
  ret true.

Definition test_rotation : M Self bool :=
  let test_name := "Test Rotation (Different Camera Angles)" in
  enter "test_rotation" ;;
  try_except (test_rotation_body test_name) (on_exception test_name).

(** Each zoom level with the text Python prints for its distance. *)
Definition zooms : list (string * Q * string) :=
  [("far", 20.0%Q, "20.0"); ("normal", 10.0%Q, "10.0");
   ("close", 5.0%Q, "5.0"); ("very_close", 3.0%Q, "3.0")].

Definition test_zoom_body (test_name : string) : M Self bool :=
  ext "axiom.Atoms" (Atoms env) ;;
  atoms_push 0.0 0.0 0.0 6 ;;
  atoms_push 1.52 0.0 0.0 6 ;;
  atoms_push 2.03 1.31 0.0 8 ;;
  atoms_push (-0.38) 0.51 0.89 1 ;;
  atoms_push (-0.38) 0.51 (-0.89) 1 ;;
  atoms_push (-0.38) (-1.02) 0.0 1 ;;
  atoms_push 1.9 (-0.51) 0.89 1 ;;
  atoms_push 1.9 (-0.51) (-0.89) 1 ;;
  atoms_push 1.65 1.81 0.76 1 ;;
  ext "len(atoms)" (len_atoms env) ;;
  new_renderer ;;
  for_each zooms (fun z =>
    let zoom_name := fst (fst z) in
    let distance := snd (fst z) in
    timestamp <- observe "datetime.now" (now env) ;;
    let output_file :=
      joinpath screenshots_dir
        (timestamp +:+ "_zoom_" +:+ zoom_name +:+ ".png") in
    renderer_set_camera (vec3 0.0 0.0 distance) (vec3 0.0 0.0 0.0)
      (vec3 0.0 1.0 0.0) ;;
    save_and_record output_file ("zoom_" +:+ zoom_name)
      ("Ethanol at distance " +:+ snd z)) ;;
  append_test {| name := test_name; result := PASS |} ;;
  ret true.

Definition test_zoom : M Self bool :=
  let test_name := "Test Zoom (Different Camera Distances)" in
  enter "test_zoom" ;;
  try_except (test_zoom_body test_name) (on_exception test_name).

Definition backgrounds : list (string * (Q * Q * Q)) :=
  [("black", (0.0, 0.0, 0.0)%Q); ("white", (1.0, 1.0, 1.0)%Q);
   ("gray", (0.5, 0.5, 0.5)%Q)].

Definition test_background_colors_body (test_name : string) : M Self bool :=
  ext "axiom.Atoms" (Atoms env) ;;
  atoms_push 0.0 0.0 0.0 8 ;;
  new_renderer ;;
  renderer_set_camera (vec3 0.0 0.0 5.0) (vec3 0.0 0.0 0.0) (vec3 0.0 1.0 0.0) ;;
  for_each backgrounds (fun b =>
    let bg_name := fst b in
    let '(red, green, blue) := snd b in
    timestamp <- observe "datetime.now" (now env) ;;
    let output_file :=
      joinpath screenshots_dir
        (timestamp +:+ "_bg_" +:+ bg_name +:+ ".png") in
    has <- observe "hasattr" (has_set_background env) ;;
    (if has
     then ext "renderer.set_background"
            (fun t => set_background env t red green blue)
     else ret tt) ;;
    save_and_record output_file ("bg_" +:+ bg_name)
      ("Background: " +:+ bg_name)) ;;
  append_test {| name := test_name; result := PASS |} ;;
  ret true.

Definition test_background_colors : M Self bool :=
  let test_name := "Test Background Colors" in
  enter "test_background_colors" ;;
  try_except (test_background_colors_body test_name)
    (on_exception test_name).

Definition has_result (r : Status) (t : TestEntry) : bool :=
  bool_decide (result t = r).

Definition write_test (t : TestEntry) : M Self unit :=
  let icon := if bool_decide (result t = PASS) then "✓" else "✗" in
  fwrite ("### " +:+ icon +:+ " " +:+ name t +:+ nl +:+ nl) ;;
  fwrite ("**Result**: " +:+ status_str (result t) +:+ nl +:+ nl).

Definition write_error (e : ErrorEntry) : M Self unit :=
  fwrite ("### " +:+ error_test e +:+ nl) ;;
  fwrite ("```" +:+ nl +:+ error e +:+ nl +:+ "```" +:+ nl +:+ nl).

Definition write_render (r : Render) : M Self unit :=
  fwrite ("### " +:+ render_name r +:+ nl +:+ nl) ;;
  fwrite (render_description r +:+ nl +:+ nl) ;;
  fwrite ("![" +:+ render_name r +:+ "](screenshots/" +:+ render_file r
          +:+ ")" +:+ nl +:+ nl).

(** The fixed text written before and after the results. *)
Definition approach_text : list string :=
  ["## Test Approach" +:+ nl +:+ nl;
   "This validation uses **programmatic rendering** via axiom Python bindings."
     +:+ nl;
   "Small structures (3-9 atoms) are used for fast rendering (<1s each)."
     +:+ nl +:+ nl;
   "**Test Structures:**" +:+ nl;
   "- Water (H2O): 3 atoms" +:+ nl;
   "- Methane (CH4): 5 atoms" +:+ nl;
   "- Ethanol (C2H6O): 9 atoms" +:+ nl +:+ nl].

Definition closing_text : list string :=
  ["## Validation Checklist" +:+ nl +:+ nl;
   "- [x] Rotation: Different camera angles tested" +:+ nl;
   "- [x] Zoom: Different camera distances tested" +:+ nl;
   "- [x] Background colors: Black, white, gray tested" +:+ nl;
   "- [x] Small structures: Fast rendering (<1s per image)" +:+ nl;
   "- [x] File formats: Programmatic atom creation (XYZ/PDB parsing requires GUI)"
     +:+ nl +:+ nl;
   "## Next Steps" +:+ nl +:+ nl;
   "1. **GUI Testing**: The programmatic tests validate the rendering engine."
     +:+ nl;
   "   GUI-specific features need testing:" +:+ nl;
   "   - File loading UI (XYZ, PDB)" +:+ nl;
   "   - Interactive rotation (mouse drag)" +:+ nl;
   "   - Interactive zoom (scroll)" +:+ nl;
   "   - UI controls (buttons, checkboxes)" +:+ nl;
   "   - SSAA toggle" +:+ nl;
   "   - Ambient occlusion toggle" +:+ nl +:+ nl;
   "2. **Automated GUI Testing**: Use WebDriver or similar to test the Tauri GUI."
     +:+ nl +:+ nl].

Definition generate_report : M Self Path :=
  enter "generate_report" ;;
  let report_path := joinpath base_dir "VISUAL_VALIDATION_REPORT.md" in
  fopen_w (fun t => open_w env t (path_str report_path)) ;;
  fwrite ("# Axiom GUI Visual Validation Report" +:+ nl +:+ nl) ;;
  generated <- observe "datetime.now" (now_long env) ;;
  fwrite ("Generated: " +:+ generated +:+ nl +:+ nl) ;;
  r <- get_self ;;
  let total := length (tests r) in
  let passed := sum_1_if (has_result PASS) (tests r) in
  let failed := sum_1_if (has_result FAIL) (tests r) in
  fwrite ("## Summary" +:+ nl +:+ nl) ;;
  fwrite ("- Total Tests: " +:+ pretty total +:+ nl) ;;
  fwrite ("- Passed: " +:+ pretty passed +:+ nl) ;;
  fwrite ("- Failed: " +:+ pretty failed +:+ nl) ;;
  fwrite ("- Images Generated: " +:+ pretty (length (renders r))
          +:+ nl +:+ nl) ;;
  for_each approach_text fwrite ;;
  fwrite ("## Test Results" +:+ nl +:+ nl) ;;
  for_each (tests r) write_test ;;
  (if truthy (errors r) then
     fwrite ("## Errors Encountered" +:+ nl +:+ nl) ;;
     for_each (errors r) write_error
   else ret tt) ;;
  fwrite ("## Rendered Images" +:+ nl +:+ nl) ;;
  fwrite ("All images show the feature working correctly." +:+ nl +:+ nl) ;;
  for_each (renders r) write_render ;;
  for_each closing_text fwrite ;;
  ret report_path.

Definition main : M Self nat :=
  ext "os.chdir" (fun t => chdir env t "/home/agent/projects/axiom") ;;
  test_simple_water ;;
  test_rotation ;;
  test_zoom ;;
  test_background_colors ;;
  generate_report ;;
  r <- get_self ;;
  ret (if bool_decide (length (errors r) = 0) then 0 else 1).
End Methods.
End DirectRenderTest.

(** ** [axiom_render_test.py] *)

Module AxiomRenderTest.

(** A [Molecule] as far as the script looks at it: its atoms by
    element symbol and, when the binding has them, its bonds. *)
Record Molecule : Type := {
  atoms : list string;
  bonds : option nat
}.

Record Env : Type := {
  now_long : nat -> string;
  glob : nat -> string -> list Path;
  from_file : nat -> string -> string + Molecule;
  bounds : nat -> Molecule -> option (string + string);
  center : nat -> Molecule -> option (string + string);
  open_w : nat -> string -> string + unit;
  (** [format(x, '.1f')] of the quotient [100 * passed / total] of two
      counts, the second not zero. *)
  percent_1f : nat -> nat -> string
}.

Record TestEntry : Type := { name : string; result : Status }.

Record Loaded : Type := {
  loaded_file : string;
  loaded_atoms : nat;
  success : bool
}.

Record ErrorEntry : Type := { error_test : string; error : string }.

Record Results : Type := {
  tests : list TestEntry;
  structures_loaded : list Loaded;
  errors : list ErrorEntry
}.

(** The tester object holds nothing but its results. *)
Abbreviation Self := Results (only parsing).

(** [AxiomRenderTest(base_dir)]. *)
Definition init : state Self :=
  State world0 {| tests := []; structures_loaded := []; errors := [] |}.

Definition append_test (t : TestEntry) : M Self unit :=
  modify (fun r => {| tests := tests r ++ [t];
                      structures_loaded := structures_loaded r;
                      errors := errors r |}).

Definition append_loaded (x : Loaded) : M Self unit :=
  modify (fun r => {| tests := tests r;
                      structures_loaded := structures_loaded r ++ [x];
                      errors := errors r |}).

Definition append_error (e : ErrorEntry) : M Self unit :=
  modify (fun r => {| tests := tests r;
                      structures_loaded := structures_loaded r;
                      errors := errors r ++ [e] |}).

Section Methods.
Variable env : Env.

(** The shared shape of [test_load_xyz] and [test_load_pdb]. *)
Definition load (test_name : string) (file : Path)
  : M Self (option Molecule) :=
  try_except
    (mol <- ext "Molecule.from_file"
              (fun t => from_file env t (path_str file)) ;;
     append_loaded {| loaded_file := pname file;
                      loaded_atoms := length (atoms mol);
                      success := true |} ;;
     append_test {| name := test_name; result := PASS |} ;;
     ret (Some mol))
    (fun e =>
       append_error {| error_test := test_name; error := e |} ;;
       append_test {| name := test_name; result := FAIL |} ;;
       ret None).

Definition test_load_xyz (xyz_file : Path) : M Self (option Molecule) :=
  enter "test_load_xyz" ;;
  load ("Load XYZ: " +:+ pname xyz_file) xyz_file.

Definition test_load_pdb (pdb_file : Path) : M Self (option Molecule) :=
  enter "test_load_pdb" ;;
  load ("Load PDB: " +:+ pname pdb_file) pdb_file.

(** Reading an optional attribute of the molecule: absent, raising,
    or giving a value that is printed. *)
Definition probe (target : string)
    (answer : nat -> option (string + string)) : M Self unit :=
  a <- observe target answer ;;
  match a with
  | None => ret tt
  | Some (inl msg) => raise (Exception msg)
  | Some (inr _) => ret tt
  end.

Definition test_molecule_properties (mol : Molecule) (name : string)
  : M Self bool :=
  let test_name := "Molecule Properties: " +:+ name in
  enter "test_molecule_properties" ;;
  try_except
    (probe "mol.bounds" (fun t => bounds env t mol) ;;
     probe "mol.center" (fun t => center env t mol) ;;
     append_test {| name := test_name; result := PASS |} ;;
     ret true)
    (fun e =>
       append_error {| error_test := test_name; error := e |} ;;
       append_test {| name := test_name; result := FAIL |} ;;
       ret false).

Definition has_result (r : Status) (t : TestEntry) : bool :=
  bool_decide (result t = r).

(** [passed/total*100] formatted with one decimal: the division of two
    integers raises [ZeroDivisionError] when the divisor is zero. *)
Definition success_rate (passed total : nat) : M Self string :=
  match total with
  | 0 => raise (Exception "division by zero")
  | S _ => ret (percent_1f env passed total)
  end.

Definition write_loaded (x : Loaded) : M Self unit :=
  let status := if success x then "✓" else "✗" in
  fwrite ("- " +:+ status +:+ " **" +:+ loaded_file x +:+ "**: "
          +:+ pretty (loaded_atoms x) +:+ " atoms" +:+ nl).

Definition write_test (t : TestEntry) : M Self unit :=
  let result_icon := if bool_decide (result t = PASS) then "✓" else "✗" in
  fwrite ("- " +:+ result_icon +:+ " " +:+ name t +:+ ": **"
          +:+ status_str (result t) +:+ "**" +:+ nl).

Definition write_error (e : ErrorEntry) : M Self unit :=
  fwrite ("### " +:+ error_test e +:+ nl) ;;
  fwrite ("```" +:+ nl +:+ error e +:+ nl +:+ "```" +:+ nl +:+ nl).

Definition generate_report : M Self Path :=
  enter "generate_report" ;;
  let report_path := joinpath base_dir "AXIOM_LIBRARY_TEST_REPORT.md" in
  fopen_w (fun t => open_w env t (path_str report_path)) ;;
  fwrite ("# Axiom Library Test Report" +:+ nl +:+ nl) ;;
  generated <- observe "datetime.now" (now_long env) ;;
  fwrite ("Generated: " +:+ generated +:+ nl +:+ nl) ;;
  r <- get_self ;;
  let total := length (tests r) in
  let passed := sum_1_if (has_result PASS) (tests r) in
  let failed := sum_1_if (has_result FAIL) (tests r) in
  fwrite ("## Summary" +:+ nl +:+ nl) ;;
  fwrite ("- Total Tests: " +:+ pretty total +:+ nl) ;;
  fwrite ("- Passed: " +:+ pretty passed +:+ nl) ;;
  fwrite ("- Failed: " +:+ pretty failed +:+ nl) ;;
  rate <- success_rate passed total ;;
  fwrite ("- Success Rate: " +:+ rate +:+ "%" +:+ nl +:+ nl) ;;
  fwrite ("## Structures Loaded" +:+ nl +:+ nl) ;;
  for_each (structures_loaded r) write_loaded ;;
  fwrite nl ;;
  fwrite ("## Test Results" +:+ nl +:+ nl) ;;
  for_each (tests r) write_test ;;
  fwrite nl ;;
  (if truthy (errors r) then
     fwrite ("## Errors" +:+ nl +:+ nl) ;;
     for_each (errors r) write_error
   else ret tt) ;;
  ret report_path.

(** One turn of the loop of [main] over the sorted structure files. *)
Definition test_structure (struct_file : Path) : M Self unit :=
  mol <- (if bool_decide (suffix struct_file = ".xyz")
          then test_load_xyz struct_file
          else if bool_decide (suffix struct_file = ".pdb")
          then test_load_pdb struct_file
          else ret None) ;;
  match mol with
  | Some m => test_molecule_properties m (stem struct_file) ;; ret tt
  | None => ret tt
  end.

Definition main : M Self nat :=
  xyz <- observe "glob" (fun t => glob env t "*.xyz") ;;
  pdb <- observe "glob" (fun t => glob env t "*.pdb") ;;
  let structures := xyz ++ pdb in
  for_each (sorted structures) test_structure ;;
  generate_report ;;
  r <- get_self ;;
  ret (if bool_decide (length (errors r) = 0) then 0 else 1).
End Methods.
End AxiomRenderTest.

(** ** [visual_validator.py] *)

Module AxiomVisualValidator.
Import Selenium.

Record Env : Type := {
  now : nat -> string;
  now_long : nat -> string;
  Chrome : nat -> string + unit;
  set_window_size : nat -> nat -> nat -> string + unit;
  get : nat -> string -> string + unit;
  find_elements : nat -> By -> string -> string + list WebElement;
  save_screenshot : nat -> string -> string + unit;
  quit : nat -> string + unit;
  perform : nat -> list Action -> string + unit;
  open_w : nat -> string -> string + unit
}.

Record Screenshot : Type := {
  ss_name : string;
  ss_description : string;
  ss_file : string;
  ss_timestamp : string
}.

Record Bug : Type := { bug_test : string; bug_error : string }.

Record Results : Type := {
  tests_run : nat;
  tests_passed : nat;
  tests_failed : nat;
  screenshots : list Screenshot;
  bugs : list Bug
}.

Record Self : Type := {
  driver : option unit;
  results : Results
}.

(** [AxiomVisualValidator(base_dir)]. *)
Definition init : state Self :=
  State world0
    {| driver := None;
       results := {| tests_run := 0; tests_passed := 0; tests_failed := 0;
                     screenshots := []; bugs := [] |} |}.

Definition update (f : Results -> Results) : M Self unit :=
  modify (fun s => {| driver := driver s; results := f (results s) |}).

(** [self.results["tests_run"] += 1] and its two siblings. *)
Definition incr_tests_run : M Self unit :=
  update (fun r =>
    {| tests_run := tests_run r + 1; tests_passed := tests_passed r;
       tests_failed := tests_failed r; screenshots := screenshots r;
       bugs := bugs r |}).

Definition incr_tests_passed : M Self unit :=
  update (fun r =>
    {| tests_run := tests_run r; tests_passed := tests_passed r + 1;
       tests_failed := tests_failed r; screenshots := screenshots r;
       bugs := bugs r |}).

Definition incr_tests_failed : M Self unit :=
  update (fun r =>
    {| tests_run := tests_run r; tests_passed := tests_passed r;
       tests_failed := tests_failed r + 1; screenshots := screenshots r;
       bugs := bugs r |}).

Definition append_screenshot (x : Screenshot) : M Self unit :=
  update (fun r =>
    {| tests_run := tests_run r; tests_passed := tests_passed r;
       tests_failed := tests_failed r; screenshots := screenshots r ++ [x];
       bugs := bugs r |}).

Definition append_bug (b : Bug) : M Self unit :=
  update (fun r =>
    {| tests_run := tests_run r; tests_passed := tests_passed r;
       tests_failed := tests_failed r; screenshots := screenshots r;
       bugs := bugs r ++ [b] |}).

Definition set_driver (d : option unit) : M Self unit :=
  modify (fun s => {| driver := d; results := results s |}).

Definition driver_call {A} (attr : string) (answer : nat -> string + A)
  : M Self A :=
  s <- get_self ;;
  match driver s with
  | None =>
      raise (Exception
        ("'NoneType' object has no attribute '" +:+ attr +:+ "'"))
  | Some _ => ext ("driver." +:+ attr) answer
  end.

Section Methods.
Variable env : Env.

Definition start_driver : M Self unit :=
  ext "webdriver.Chrome" (Chrome env) ;;
  set_driver (Some tt) ;;
  ext "driver.set_window_size" (fun t => set_window_size env t 1920 1080).

Definition stop_driver : M Self unit :=
  enter "stop_driver" ;;
  s <- get_self ;;
  match driver s with
  | Some _ => ext "driver.quit" (quit env)
  | None => ret tt
  end.

Definition take_screenshot (name description : string) : M Self string :=
  timestamp <- observe "datetime.now" (now env) ;;
  let filename := timestamp +:+ "_" +:+ name +:+ ".png" in
  let filepath := path_str (joinpath screenshots_dir filename) in
  driver_call "save_screenshot"
    (fun t => save_screenshot env t filepath) ;;
  append_screenshot
    {| ss_name := name; ss_description := description;
       ss_file := filepath; ss_timestamp := timestamp |} ;;
  ret filepath.

(** [time.sleep(timeout)]. *)
Definition wait_for_render (timeout : nat) : M Self unit := sleep timeout.

(** The frame every test method has: count the run, then count a pass
    when the body completes and a failure with a bug entry when it
    raises. *)
Definition on_exception (test : string) (e : string) : M Self bool :=
  incr_tests_failed ;;
  append_bug {| bug_test := test; bug_error := e |} ;;
  ret false.

Definition test_file_loading_xyz_body : M Self bool :=
  driver_call "get" (fun t => get env t "http://localhost:1420") ;;
  sleep 2 ;;
  take_screenshot "xyz_loading_initial"
    "Initial state before loading XYZ" ;;
  incr_tests_passed ;;
  ret true.

Definition test_file_loading_xyz : M Self bool :=
  enter "test_file_loading_xyz" ;;
  incr_tests_run ;;
  try_except test_file_loading_xyz_body (on_exception "XYZ File Loading").

Definition test_rotation_body : M Self bool :=
  take_screenshot "rotation_before" "Structure before rotation" ;;
  canvas <- driver_call "find_element"
    (fun t => first_match (find_elements env t TAG_NAME "canvas")) ;;
  ext "actions.perform"
    (fun t => perform env t
       [click_and_hold (Some canvas); move_by_offset 200 100; release]) ;;
  wait_for_render 2 ;;
  take_screenshot "rotation_after"
    "Structure after rotation (200px right, 100px down)" ;;
  incr_tests_passed ;;
  ret true.

Definition test_rotation : M Self bool :=
  enter "test_rotation" ;;
  incr_tests_run ;;
  try_except test_rotation_body (on_exception "Rotation").

Definition test_zoom_body : M Self bool :=
  take_screenshot "zoom_initial" "Initial zoom level" ;;
  canvas <- driver_call "find_element"
    (fun t => first_match (find_elements env t TAG_NAME "canvas")) ;;
  ext "actions.perform"
    (fun t => perform env t
       ([move_to_element canvas; click] ++ replicate 5 (send_keys ADD))) ;;
  wait_for_render 2 ;;
  take_screenshot "zoom_in" "After zooming in (5 steps)" ;;
  ext "actions.perform"
    (fun t => perform env t (replicate 10 (send_keys SUBTRACT))) ;;
  wait_for_render 2 ;;
  take_screenshot "zoom_out" "After zooming out (10 steps)" ;;
  incr_tests_passed ;;
  ret true.

Definition test_zoom : M Self bool :=
  enter "test_zoom" ;;
  incr_tests_run ;;
  try_except test_zoom_body (on_exception "Zoom").

Definition test_background_colors_body : M Self bool :=
  for_each ["black"; "white"; "gray"] (fun bg =>
    take_screenshot ("background_" +:+ bg)
      ("Background set to " +:+ bg) ;;
    sleep 1) ;;
  incr_tests_passed ;;
  ret true.

Definition test_background_colors : M Self bool :=
  enter "test_background_colors" ;;
  incr_tests_run ;;
  try_except test_background_colors_body
    (on_exception "Background Colors").

Definition test_rendering_controls_body : M Self bool :=
  take_screenshot "ssaa_off" "SSAA disabled" ;;
  take_screenshot "ssaa_on" "SSAA enabled" ;;
  take_screenshot "ao_off" "Ambient Occlusion disabled" ;;
  take_screenshot "ao_on" "Ambient Occlusion enabled" ;;
  incr_tests_passed ;;
  ret true.

Definition test_rendering_controls : M Self bool :=
  enter "test_rendering_controls" ;;
  incr_tests_run ;;
  try_except test_rendering_controls_body
    (on_exception "Rendering Controls").

Definition write_bug (b : Bug) : M Self unit :=
  fwrite ("### " +:+ bug_test b +:+ nl) ;;
  fwrite ("```" +:+ nl +:+ bug_error b +:+ nl +:+ "```" +:+ nl +:+ nl).

Definition write_screenshot (ss : Screenshot) : M Self unit :=
  fwrite ("### " +:+ ss_name ss +:+ nl) ;;
  (if nonempty (ss_description ss)
   then fwrite (ss_description ss +:+ nl +:+ nl) else ret tt) ;;
  fwrite ("![" +:+ ss_name ss +:+ "](" +:+ ss_file ss +:+ ")"
          +:+ nl +:+ nl) ;;
  fwrite ("*Captured: " +:+ ss_timestamp ss +:+ "*" +:+ nl +:+ nl).

Definition structures_text : list string :=
  ["## Test Structures Used" +:+ nl +:+ nl;
   "All structures are small (3-20 atoms) for fast rendering:"
     +:+ nl +:+ nl;
   "- **water.xyz**: Water molecule (3 atoms)" +:+ nl;
   "- **methane.xyz**: Methane molecule (5 atoms)" +:+ nl;
   "- **ethanol.xyz**: Ethanol molecule (9 atoms)" +:+ nl;
   "- **glycine.pdb**: Glycine amino acid (9 atoms)" +:+ nl +:+ nl].

Definition generate_report : M Self Path :=
  enter "generate_report" ;;
  let report_path := joinpath base_dir "VISUAL_VALIDATION_REPORT.md" in
  fopen_w (fun t => open_w env t (path_str report_path)) ;;
  fwrite ("# Axiom GUI Visual Validation Report" +:+ nl +:+ nl) ;;
  generated <- observe "datetime.now" (now_long env) ;;
  fwrite ("Generated: " +:+ generated +:+ nl +:+ nl) ;;
  s <- get_self ;;
  let r := results s in
  fwrite ("## Summary" +:+ nl +:+ nl) ;;
  fwrite ("- Tests Run: " +:+ pretty (tests_run r) +:+ nl) ;;
  fwrite ("- Tests Passed: " +:+ pretty (tests_passed r) +:+ nl) ;;
  fwrite ("- Tests Failed: " +:+ pretty (tests_failed r) +:+ nl) ;;
  fwrite ("- Screenshots Captured: " +:+ pretty (length (screenshots r))
          +:+ nl +:+ nl) ;;
  for_each structures_text fwrite ;;
  (if truthy (bugs r) then
     fwrite ("## Bugs Found" +:+ nl +:+ nl) ;;
     for_each (bugs r) write_bug
   else ret tt) ;;
  fwrite ("## Screenshots" +:+ nl +:+ nl) ;;
  for_each (screenshots r) write_screenshot ;;
  ret report_path.

Definition run_tests : M Self unit :=
  start_driver ;;
  test_file_loading_xyz ;;
  test_rotation ;;
  test_zoom ;;
  test_background_colors ;;
  test_rendering_controls ;;
  generate_report ;;
  ret tt.

Definition main : M Self unit := try_finally run_tests stop_driver.
End Methods.
End AxiomVisualValidator.

(** ** [simple_visual_test.py] *)

Module SimpleVisualTest.

(** How a run of the capture utility under [subprocess.run] ends. *)
Inductive RunResult : Type :=
  | Completed (returncode : nat)
  | TimedOut
  | Failed (msg : string).

(** How [gui_process.wait(timeout=5)] ends. *)
Inductive WaitResult : Type :=
  | Exited
  | WaitTimedOut
  | WaitFailed (msg : string).

Record Env : Type := {
  now : nat -> string;
  now_long : nat -> string;
  run : nat -> list string -> RunResult;
  Popen : nat -> string + unit;
  terminate : nat -> string + unit;
  wait : nat -> WaitResult;
  kill : nat -> string + unit;
  glob : nat -> string -> string + list Path;
  open_w : nat -> string -> string + unit
}.

(** One entry of [self.results]: a success carries [file], a failure
    carries [error]. *)
Record Result : Type := {
  name : string;
  description : string;
  file : option string;
  error : option string;
  success : bool
}.

Record Self : Type := {
  gui_process : option unit;
  results : list Result
}.

(** [SimpleVisualTest(base_dir)]. *)
Definition init : state Self :=
  State world0 {| gui_process := None; results := [] |}.

Definition append_result (r : Result) : M Self unit :=
  modify (fun s => {| gui_process := gui_process s;
                      results := results s ++ [r] |}).

Definition set_gui_process (p : option unit) : M Self unit :=
  modify (fun s => {| gui_process := p; results := results s |}).

(** The text of a command line inside an exception message. *)
Definition show_command (cmd : list string) : string :=
  "[" +:+ join ", " (map (fun a => "'" +:+ a +:+ "'") cmd) +:+ "]".

(** [subprocess.run(cmd, check=True, timeout=seconds)]: a non-zero exit
    status raises [CalledProcessError], an overrun raises
    [TimeoutExpired]. *)
Definition run_checked (cmd : list string) (seconds : nat) (r : RunResult)
  : string + unit :=
  match r with
  | Completed 0 => inr tt
  | Completed (S n) =>
      inl ("Command '" +:+ show_command cmd
           +:+ "' returned non-zero exit status " +:+ pretty (S n) +:+ ".")
  | TimedOut =>
      inl ("Command '" +:+ show_command cmd +:+ "' timed out after "
           +:+ pretty seconds +:+ " seconds")
  | Failed msg => inl msg
  end.

(** [f"{i:02d}"]. *)
Definition pad2 (i : nat) : string :=
  if (i <? 10)%nat then "0" +:+ pretty i else pretty i.

Section Methods.
Variable env : Env.

Definition take_screenshot (name description : string)
  : M Self (option Path) :=
  timestamp <- observe "datetime.now" (now env) ;;
  let filename := timestamp +:+ "_" +:+ name +:+ ".png" in
  let filepath := joinpath screenshots_dir filename in
  try_except
    (ext "subprocess.run"
       (fun t =>
          let cmd := ["scrot"; path_str filepath] in
          run_checked cmd 5 (run env t cmd)) ;;
     append_result
       {| name := name; description := description;
          file := Some filename; error := None; success := true |} ;;
     ret (Some filepath))
    (fun e =>
       append_result
         {| name := name; description := description;
            file := None; error := Some e; success := false |} ;;
       ret None).

Definition start_gui : M Self unit :=
  ext "subprocess.Popen" (Popen env) ;;
  set_gui_process (Some tt) ;;
  sleep 15.

Definition stop_gui : M Self unit :=
  enter "stop_gui" ;;
  s <- get_self ;;
  match gui_process s with
  | Some _ =>
      ext "gui_process.terminate" (terminate env) ;;
      w <- observe "gui_process.wait" (wait env) ;;
      match w with
      | Exited => ret tt
      | WaitTimedOut => ext "gui_process.kill" (kill env)
      | WaitFailed msg => raise (Exception msg)
      end
  | None => ret tt
  end.

Definition run_visual_tests : M Self unit :=
  sleep 2 ;;
  take_screenshot "01_initial_state" "GUI initial state after launch" ;;
  sleep 5 ;;
  take_screenshot "02_after_5sec" "GUI state after 5 seconds" ;;
  sleep 2 ;;
  take_screenshot "03_current_state" "Current GUI state" ;;
  for_each (seq 4 7) (fun i =>
    sleep 3 ;;
    take_screenshot (pad2 i +:+ "_timed_capture")
      ("GUI state at test " +:+ pretty i) ;;
    ret tt).

Definition write_result (r : Result) : M Self unit :=
  if success r then
    fwrite ("### " +:+ name r +:+ nl) ;;
    (if nonempty (description r)
     then fwrite (description r +:+ nl +:+ nl) else ret tt) ;;
    fwrite ("![" +:+ name r +:+ "](screenshots/" +:+ default "" (file r)
            +:+ ")" +:+ nl +:+ nl)
  else
    fwrite ("### " +:+ name r +:+ " (FAILED)" +:+ nl) ;;
    fwrite ("Error: " +:+ default "Unknown" (error r) +:+ nl +:+ nl).

Definition generate_report : M Self Path :=
  enter "generate_report" ;;
  let report_path := joinpath base_dir "SIMPLE_VALIDATION_REPORT.md" in
  fopen_w (fun t => open_w env t (path_str report_path)) ;;
  fwrite ("# Axiom GUI Simple Visual Validation" +:+ nl +:+ nl) ;;
  generated <- observe "datetime.now" (now_long env) ;;
  fwrite ("Generated: " +:+ generated +:+ nl +:+ nl) ;;
  fwrite ("## Summary" +:+ nl +:+ nl) ;;
  s <- get_self ;;
  let successful := sum_1_if success (results s) in
  fwrite ("- Screenshots Captured: " +:+ pretty successful +:+ "/"
          +:+ pretty (length (results s)) +:+ nl +:+ nl) ;;
  fwrite ("## Test Structures Available" +:+ nl +:+ nl) ;;
  files <- ext "glob" (fun t => glob env t structures_dir) ;;
  for_each (sorted files) (fun struct_file =>
    fwrite ("- `" +:+ pname struct_file +:+ "`" +:+ nl)) ;;
  fwrite (nl +:+ "## Screenshots" +:+ nl +:+ nl) ;;
  for_each (results s) write_result ;;
  ret report_path.

Definition run_tests : M Self unit :=
  start_gui ;;
  run_visual_tests ;;
  generate_report ;;
  ret tt.

Definition main : M Self unit := try_finally run_tests stop_gui.
End Methods.
End SimpleVisualTest.

(** * Concrete runs

    Environments in which every collaborator answers the same way at
    every moment; they are the inputs the properties are tried on. *)

Module Scenarios.

Definition stamp : string := "20260101_120000".
Definition stamp_long : string := "2026-01-01 12:00:00".

Fixpoint first_line (fixtures : list (string * string)) (name : string)
  : string :=
  match fixtures with
  | [] => ""
  | (n, line) :: rest =>
      if String.eqb n name then line else first_line rest name
  end.

(** A browser that starts, shows a page on which [elements] says what each
    selector matches, and never fails; [fixtures] is the content of the
    structures directory, each file with its first line. *)
Definition browser
    (elements : Selenium.By -> string -> list Selenium.WebElement)
    (fixtures : list (string * string)) : WebDriverVisualTest.Env :=
  {| WebDriverVisualTest.now := fun _ => stamp;
     WebDriverVisualTest.now_long := fun _ => stamp_long;
     WebDriverVisualTest.Chrome := fun _ => inr tt;
     WebDriverVisualTest.set_window_size := fun _ _ _ => inr tt;
     WebDriverVisualTest.get := fun _ _ => inr tt;
     WebDriverVisualTest.find_elements := fun _ by_ value => inr (elements by_ value);
     WebDriverVisualTest.save_screenshot := fun _ _ => inr tt;
     WebDriverVisualTest.page_source := fun _ => inr "<html></html>";
     WebDriverVisualTest.quit := fun _ => inr tt;
     WebDriverVisualTest.text := fun _ _ => inr "";
     WebDriverVisualTest.element_click := fun _ _ => inr tt;
     WebDriverVisualTest.element_send_keys := fun _ _ _ => inr tt;
     WebDriverVisualTest.perform := fun _ _ => inr tt;
     WebDriverVisualTest.exists_ := fun _ _ => true;
     WebDriverVisualTest.glob := fun _ dir =>
       inr (map (fun f => joinpath dir (fst f)) fixtures);
     WebDriverVisualTest.readline := fun _ p =>
       inr (first_line fixtures (pname p));
     WebDriverVisualTest.open_w := fun _ _ => inr tt |}.

(** A page without any element. *)
Definition empty_page : WebDriverVisualTest.Env := browser (fun _ _ => []) [].


(** A browser that cannot load the application. *)
Definition unreachable : WebDriverVisualTest.Env :=
  {| WebDriverVisualTest.now := fun _ => stamp;
     WebDriverVisualTest.now_long := fun _ => stamp_long;
     WebDriverVisualTest.Chrome := fun _ => inr tt;
     WebDriverVisualTest.set_window_size := fun _ _ _ => inr tt;
     WebDriverVisualTest.get := fun _ _ => inl "net::ERR_CONNECTION_REFUSED";
     WebDriverVisualTest.find_elements := fun _ _ _ => inr [];
     WebDriverVisualTest.save_screenshot := fun _ _ => inr tt;
     WebDriverVisualTest.page_source := fun _ => inr "";
     WebDriverVisualTest.quit := fun _ => inr tt;
     WebDriverVisualTest.text := fun _ _ => inr "";
     WebDriverVisualTest.element_click := fun _ _ => inr tt;
     WebDriverVisualTest.element_send_keys := fun _ _ _ => inr tt;
     WebDriverVisualTest.perform := fun _ _ => inr tt;
     WebDriverVisualTest.exists_ := fun _ _ => true;
     WebDriverVisualTest.glob := fun _ _ => inr [];
     WebDriverVisualTest.readline := fun _ _ => inr "";
     WebDriverVisualTest.open_w := fun _ _ => inr tt |}.

(** Axiom bindings in which [Atoms()] answers [atoms] and everything else
    works. *)
Definition bindings (atoms : string + unit) : DirectRenderTest.Env :=
  {| DirectRenderTest.now := fun _ => stamp;
     DirectRenderTest.now_long := fun _ => stamp_long;
     DirectRenderTest.chdir := fun _ _ => inr tt;
     DirectRenderTest.Atoms := fun _ => atoms;
     DirectRenderTest.push := fun _ _ _ _ _ => inr tt;
     DirectRenderTest.len_atoms := fun _ => inr 3;
     DirectRenderTest.Renderer := fun _ _ _ => inr tt;
     DirectRenderTest.set_camera := fun _ _ _ _ => inr tt;
     DirectRenderTest.save_image := fun _ _ => inr tt;
     DirectRenderTest.has_set_background := fun _ => true;
     DirectRenderTest.set_background := fun _ _ _ _ => inr tt;
     DirectRenderTest.open_w := fun _ _ => inr tt |}.

Definition working_bindings : DirectRenderTest.Env := bindings (inr tt).
Definition broken_bindings : DirectRenderTest.Env :=
  bindings (inl "module 'axiom' has no attribute 'Atoms'").

(** A structures directory holding [files], each of which parses as a
    water molecule. *)
Definition library (files : list Path) : AxiomRenderTest.Env :=
  {| AxiomRenderTest.now_long := fun _ => stamp_long;
     AxiomRenderTest.glob := fun _ pattern =>
       filter (fun f => "*" +:+ suffix f = pattern) files;
     AxiomRenderTest.from_file := fun _ _ =>
       inr {| AxiomRenderTest.atoms := ["O"; "H"; "H"];
              AxiomRenderTest.bonds := None |};
     AxiomRenderTest.bounds := fun _ _ => None;
     AxiomRenderTest.center := fun _ _ => None;
     AxiomRenderTest.open_w := fun _ _ => inr tt;
     AxiomRenderTest.percent_1f := fun _ _ => "100.0" |}.

Definition empty_library : AxiomRenderTest.Env := library [].

(** A validator browser: it starts when [starts] says so and shows a page
    with one canvas. *)
Definition validator_browser (starts : string + unit)
  : AxiomVisualValidator.Env :=
  {| AxiomVisualValidator.now := fun _ => stamp;
     AxiomVisualValidator.now_long := fun _ => stamp_long;
     AxiomVisualValidator.Chrome := fun _ => starts;
     AxiomVisualValidator.set_window_size := fun _ _ _ => inr tt;
     AxiomVisualValidator.get := fun _ _ => inr tt;
     AxiomVisualValidator.find_elements := fun _ _ _ =>
       inr [{| Selenium.element_id := 0 |}];
     AxiomVisualValidator.save_screenshot := fun _ _ => inr tt;
     AxiomVisualValidator.quit := fun _ => inr tt;
     AxiomVisualValidator.perform := fun _ _ => inr tt;
     AxiomVisualValidator.open_w := fun _ _ => inr tt |}.

Definition validator_ok : AxiomVisualValidator.Env :=
  validator_browser (inr tt).

(** A display on which the capture utility ends the way [capture] says. *)
Definition display (capture : SimpleVisualTest.RunResult)
  : SimpleVisualTest.Env :=
  {| SimpleVisualTest.now := fun _ => stamp;
     SimpleVisualTest.now_long := fun _ => stamp_long;
     SimpleVisualTest.run := fun _ _ => capture;
     SimpleVisualTest.Popen := fun _ => inr tt;
     SimpleVisualTest.terminate := fun _ => inr tt;
     SimpleVisualTest.wait := fun _ => SimpleVisualTest.Exited;
     SimpleVisualTest.kill := fun _ => inr tt;
     SimpleVisualTest.glob := fun _ _ => inr [];
     SimpleVisualTest.open_w := fun _ _ => inr tt |}.

Definition display_ok : SimpleVisualTest.Env :=
  display (SimpleVisualTest.Completed 0).

End Scenarios.

(** * Properties *)

(** ** Vocabulary *)

(** How often a method was entered and a collaborator called in a run. *)
Definition entered {Self} (method : string) (st : state Self) : nat :=
  count_event (Enter method) (events (st_world st)).

Definition called {Self} (target : string) (st : state Self) : nat :=
  count_event (Call target) (events (st_world st)).

(** The event [ev] occurs as often in the log of [st'] as in that of
    [st]. *)
Definition same_count {Self} (ev : event) : relation (state Self) :=
  fun st st' =>
    count_event ev (events (st_world st')) =
    count_event ev (events (st_world st)).

(** The relation that holds between any two states. *)
Definition unconstrained {Self} : relation (state Self) := fun _ _ => True.

(** The weakest precondition of a computation for a postcondition on its
    outcome and final state. *)
Definition wp {Self A} (m : M Self A)
    (Q : outcome A -> state Self -> Prop) (st : state Self) : Prop :=
  Q (fst (m st)) (snd (m st)).

(** Every run of [m] relates its initial to its final state by [R]. *)
Definition respects {Self A} (R : relation (state Self)) (m : M Self A)
  : Prop :=
  forall st, R st (snd (m st)).

(** [m] lets no [KeyboardInterrupt] out. *)
Definition no_interrupt {Self A} (m : M Self A) : Prop :=
  forall st, fst (m st) <> Raise KeyboardInterrupt.

(** [m] always returns. *)
Definition total {Self A} (m : M Self A) : Prop :=
  forall st, exists a, fst (m st) = Ok a.

Lemma count_event_app ev l1 l2 :
  count_event ev (l1 ++ l2) = count_event ev l1 + count_event ev l2.
Proof. unfold count_event. rewrite List.filter_app, length_app. reflexivity. Qed.

(** ** Rules of the monad *)

Section Rules.
Context {Self : Type}.
Implicit Types st : state Self.

Lemma bind_unfold {A B} (m : M Self A) (k : A -> M Self B) st :
  bind m k st =
  match fst (m st) with
  | Ok a => k a (snd (m st))
  | Raise e => (Raise e, snd (m st))
  end.
Proof. unfold bind. destruct (m st) as [[a|e] st']; reflexivity. Qed.

Lemma wp_bind {A B} (m : M Self A) (k : A -> M Self B) Q st :
  wp m (fun r st' =>
          match r with
          | Ok a => wp (k a) Q st'
          | Raise e => Q (Raise e) st'
          end) st ->
  wp (bind m k) Q st.
Proof.
  unfold wp. rewrite bind_unfold.
  destruct (fst (m st)); simpl; auto.
Qed.

Lemma wp_ext {A} target (answer : nat -> string + A) Q st :
  (forall a, answer (tick (st_world st)) = inr a ->
     Q (Ok a) (State (advance (log (Call target) (st_world st))) (self st))) ->
  (forall msg, answer (tick (st_world st)) = inl msg ->
     Q (Raise (Exception msg))
       (State (advance (log (Call target) (st_world st))) (self st))) ->
  wp (ext target answer) Q st.
Proof.
  intros Hok Herr. unfold wp, ext.
  destruct (answer (tick (st_world st))) as [msg|a]; simpl; auto.
Qed.

Lemma wp_try_except {A} (body : M Self A) handler Q st :
  wp body (fun r st' =>
             match r with
             | Ok a => Q (Ok a) st'
             | Raise (Exception msg) => wp (handler msg) Q st'
             | Raise KeyboardInterrupt => Q (Raise KeyboardInterrupt) st'
             end) st ->
  wp (try_except body handler) Q st.
Proof.
  unfold wp, try_except.
  destruct (body st) as [[a|[msg|]] st']; simpl; auto.
Qed.

Lemma wp_ret {A} (a : A) (Q : outcome A -> state Self -> Prop) st :
  Q (Ok a) st -> wp (ret a) Q st.
Proof. exact id. Qed.

Lemma wp_raise {A} e (Q : outcome A -> state Self -> Prop) st :
  Q (Raise e) st -> wp (raise e) Q st.
Proof. exact id. Qed.

Lemma wp_sleep n (Q : outcome unit -> state Self -> Prop) st :
  Q (Ok tt) st -> wp (sleep n) Q st.
Proof. exact id. Qed.

Lemma wp_get_self (Q : outcome Self -> state Self -> Prop) st :
  Q (Ok (self st)) st -> wp get_self Q st.
Proof. exact id. Qed.

Lemma wp_observe {A} target (answer : nat -> A) Q st :
  Q (Ok (answer (tick (st_world st))))
    (State (advance (log (Call target) (st_world st))) (self st)) ->
  wp (observe target answer) Q st.
Proof. exact id. Qed.

Lemma wp_enter method (Q : outcome unit -> state Self -> Prop) st :
  Q (Ok tt) (State (log (Enter method) (st_world st)) (self st)) ->
  wp (enter method) Q st.
Proof. exact id. Qed.

Lemma wp_modify f (Q : outcome unit -> state Self -> Prop) st :
  Q (Ok tt) (State (st_world st) (f (self st))) -> wp (modify f) Q st.
Proof. exact id. Qed.

Lemma wp_fopen_w answer (Q : outcome unit -> state Self -> Prop) st :
  (answer (tick (st_world st)) = inr tt ->
   Q (Ok tt)
     (State {| tick := S (tick (st_world st));
               events := events (st_world st) ++ [Call "open"];
               report := Some [] |} (self st))) ->
  (forall msg, answer (tick (st_world st)) = inl msg ->
     Q (Raise (Exception msg))
       (State (advance (log (Call "open") (st_world st))) (self st))) ->
  wp (fopen_w answer) Q st.
Proof.
  intros Hok Herr. unfold wp, fopen_w.
  destruct (answer (tick (st_world st))) as [msg|[]]; simpl; auto.
Qed.

Lemma wp_fwrite s (Q : outcome unit -> state Self -> Prop) st :
  Q (Ok tt)
    (State {| tick := tick (st_world st); events := events (st_world st);
              report := Some (default [] (report (st_world st)) ++ [s]) |}
           (self st)) ->
  wp (fwrite s) Q st.
Proof. exact id. Qed.

Lemma wp_respects {A} (R : relation (state Self)) (m : M Self A) Q st :
  respects R m -> (forall r st', R st st' -> Q r st') -> wp m Q st.
Proof. intros Hr HQ. apply HQ, Hr. Qed.

Lemma wp_mono {A} (m : M Self A) (Q Q' : outcome A -> state Self -> Prop) st :
  wp m Q st -> (forall r st', Q r st' -> Q' r st') -> wp m Q' st.
Proof. unfold wp. auto. Qed.

(** A step that always returns and respects [R] can be skipped over,
    keeping only [R] between the states around it. *)
Lemma wp_bind_total {A B} (R : relation (state Self))
    (m : M Self A) (k : A -> M Self B) Q st :
  total m -> respects R m ->
  (forall a st', R st st' -> wp (k a) Q st') ->
  wp (bind m k) Q st.
Proof.
  intros Ht Hr Hk. apply wp_bind. unfold wp.
  destruct (Ht st) as [a Ha]. rewrite Ha. apply Hk, Hr.
Qed.

(** A step that respects [R] and lets no interrupt out: what follows it,
    and the postcondition when it raises, are checked on an arbitrary state
    that [R] relates to the state [st0] the method started in. *)
Lemma wp_bind_frame {A B} (R : relation (state Self)) `{!PreOrder R}
    (m : M Self A) (k : A -> M Self B) Q st0 st :
  R st0 st -> respects R m -> no_interrupt m ->
  (forall a st', R st0 st' -> wp (k a) Q st') ->
  (forall msg st', R st0 st' -> Q (Raise (Exception msg)) st') ->
  wp (bind m k) Q st.
Proof.
  intros H0 Hr Hn Hk He. apply wp_bind. unfold wp.
  specialize (Hr st). specialize (Hn st).
  assert (R st0 (snd (m st))) by (etransitivity; eauto).
  destruct (fst (m st)) as [a|[msg|]]; [apply Hk | apply He | congruence]; auto.
Qed.

Lemma wp_bind_total_frame {A B} (R : relation (state Self)) `{!PreOrder R}
    (m : M Self A) (k : A -> M Self B) Q st0 st :
  R st0 st -> respects R m -> total m ->
  (forall a st', R st0 st' -> wp (k a) Q st') ->
  wp (bind m k) Q st.
Proof.
  intros H0 Hr Ht Hk. apply wp_bind. unfold wp.
  destruct (Ht st) as [a Ha]. rewrite Ha. apply Hk.
  etransitivity; [exact H0 | apply Hr].
Qed.

Lemma wp_frame_last {A} (R : relation (state Self)) `{!PreOrder R}
    (m : M Self A) (Q : outcome A -> state Self -> Prop) st0 st :
  R st0 st -> respects R m -> no_interrupt m ->
  (forall a st', R st0 st' -> Q (Ok a) st') ->
  (forall msg st', R st0 st' -> Q (Raise (Exception msg)) st') ->
  wp m Q st.
Proof.
  intros H0 Hr Hn Hok Herr. unfold wp.
  specialize (Hr st). specialize (Hn st).
  assert (R st0 (snd (m st))) by (etransitivity; eauto).
  destruct (fst (m st)) as [a|[msg|]]; [apply Hok | apply Herr | congruence];
    auto.
Qed.

(** What follows a step respects [R]: so does the step together with what
    follows it, counted from the state the step ends in. *)
Lemma respects_tail {A B} (R : relation (state Self)) `{!PreOrder R}
    (m : M Self A) (k : A -> M Self B) st :
  (forall a, respects R (k a)) -> R (snd (m st)) (snd (bind m k st)).
Proof.
  intros Hk. rewrite bind_unfold.
  destruct (fst (m st)); simpl; [apply Hk | reflexivity].
Qed.

Lemma try_finally_snd {A} (body : M Self A) cleanup st :
  snd (try_finally body cleanup st) = snd (cleanup (snd (body st))).
Proof.
  unfold try_finally. destruct (body st) as [r st']. simpl.
  destruct (cleanup st') as [[?|?] st'']; reflexivity.
Qed.

(** *** Relations respected by every step *)

Section Respects.
Context (R : relation (state Self)) `{!PreOrder R}.

Lemma respects_ret {A} (a : A) : respects R (ret a).
Proof. intros st. reflexivity. Qed.

Lemma respects_raise {A} e : respects R (raise (A := A) e).
Proof. intros st. reflexivity. Qed.

Lemma respects_get_self : respects R get_self.
Proof. intros st. reflexivity. Qed.

Lemma respects_sleep n : respects R (sleep n).
Proof. intros st. reflexivity. Qed.

Lemma respects_bind {A B} (m : M Self A) (k : A -> M Self B) :
  respects R m -> (forall a, respects R (k a)) -> respects R (bind m k).
Proof.
  intros Hm Hk st. rewrite bind_unfold.
  destruct (fst (m st)); simpl; [|apply Hm].
  etransitivity; [apply Hm | apply Hk].
Qed.

Lemma respects_try_except {A} (body : M Self A) handler :
  respects R body -> (forall e, respects R (handler e)) ->
  respects R (try_except body handler).
Proof.
  intros Hb Hh st. unfold try_except.
  specialize (Hb st). destruct (body st) as [[a|[msg|]] st']; simpl in *; auto.
  etransitivity; [exact Hb | apply Hh].
Qed.

Lemma respects_try_except_interrupt {A} (body : M Self A) on_int handler :
  respects R body -> respects R on_int -> (forall e, respects R (handler e)) ->
  respects R (try_except_interrupt body on_int handler).
Proof.
  intros Hb Hi Hh st. unfold try_except_interrupt.
  specialize (Hb st). destruct (body st) as [[a|[msg|]] st']; simpl in *; auto.
  - etransitivity; [exact Hb | apply Hh].
  - etransitivity; [exact Hb | apply Hi].
Qed.

Lemma respects_try_finally {A} (body : M Self A) cleanup :
  respects R body -> respects R cleanup ->
  respects R (try_finally body cleanup).
Proof.
  intros Hb Hc st. unfold try_finally.
  specialize (Hb st). destruct (body st) as [r st']. simpl in *.
  specialize (Hc st'). destruct (cleanup st') as [[?|?] st'']; simpl in *;
    etransitivity; eauto.
Qed.

Lemma respects_for_each {X} (xs : list X) (body : X -> M Self unit) :
  (forall x, respects R (body x)) -> respects R (for_each xs body).
Proof.
  intros Hb. induction xs as [|x xs IH]; simpl.
  - apply respects_ret.
  - apply respects_bind; auto.
Qed.
End Respects.

(** *** Computations that let no interrupt out *)

Lemma no_interrupt_ret {A} (a : A) : no_interrupt (Self := Self) (ret a).
Proof. intros st. discriminate. Qed.

Lemma no_interrupt_raise {A} msg :
  no_interrupt (Self := Self) (raise (A := A) (Exception msg)).
Proof. intros st. discriminate. Qed.

Lemma no_interrupt_ext {A} target (answer : nat -> string + A) :
  no_interrupt (Self := Self) (ext target answer).
Proof. intros st. unfold ext. destruct (answer _); discriminate. Qed.

Lemma no_interrupt_fopen_w answer : no_interrupt (Self := Self) (fopen_w answer).
Proof. intros st. unfold fopen_w. destruct (answer _); discriminate. Qed.

Lemma no_interrupt_bind {A B} (m : M Self A) (k : A -> M Self B) :
  no_interrupt m -> (forall a, no_interrupt (k a)) -> no_interrupt (bind m k).
Proof.
  intros Hm Hk st. rewrite bind_unfold. specialize (Hm st).
  destruct (fst (m st)); simpl; [apply Hk | congruence].
Qed.

Lemma no_interrupt_try_except {A} (body : M Self A) handler :
  no_interrupt body -> (forall e, no_interrupt (handler e)) ->
  no_interrupt (try_except body handler).
Proof.
  intros Hb Hh st. unfold try_except. specialize (Hb st).
  destruct (body st) as [[a|[msg|]] st']; simpl in *;
    [discriminate | apply Hh | congruence].
Qed.

Lemma no_interrupt_for_each {X} (xs : list X) (body : X -> M Self unit) :
  (forall x, no_interrupt (body x)) -> no_interrupt (for_each xs body).
Proof.
  intros Hb. induction xs as [|x xs IH]; simpl.
  - apply no_interrupt_ret.
  - apply no_interrupt_bind; auto.
Qed.

Lemma total_no_interrupt {A} (m : M Self A) : total m -> no_interrupt m.
Proof. intros Ht st. destruct (Ht st) as [a ->]. discriminate. Qed.

(** *** Computations that always return *)

Lemma total_ret {A} (a : A) : total (Self := Self) (ret a).
Proof. intros st. eexists. reflexivity. Qed.

Lemma total_bind {A B} (m : M Self A) (k : A -> M Self B) :
  total m -> (forall a, total (k a)) -> total (bind m k).
Proof.
  intros Hm Hk st. rewrite bind_unfold.
  destruct (Hm st) as [a ->]. apply Hk.
Qed.

Lemma total_try_except {A} (body : M Self A) handler :
  no_interrupt body -> (forall e, total (handler e)) ->
  total (try_except body handler).
Proof.
  intros Hb Hh st. unfold try_except. specialize (Hb st).
  destruct (body st) as [[a|[msg|]] st']; simpl in *.
  - eexists. reflexivity.
  - apply Hh.
  - congruence.
Qed.

Lemma total_for_each {X} (xs : list X) (body : X -> M Self unit) :
  (forall x, total (body x)) -> total (for_each xs body).
Proof.
  intros Hb. induction xs as [|x xs IH]; simpl.
  - apply total_ret.
  - apply total_bind; auto.
Qed.
End Rules.

(** ** Tactics that follow the structure of a method *)

Ltac head_of t :=
  lazymatch t with
  | ?f _ => head_of f
  | _ => t
  end.

Ltac unfold_head m := let h := head_of m in unfold h; cbv beta zeta.

(** A primitive step: run it on an arbitrary state, split on the answer of
    the collaborator when there is one, and hand over to [leaf]. *)
Ltac run_primitive leaf :=
  let st := fresh "st" in
  intros st;
  cbv [ext observe enter modify fwrite fopen_w];
  cbv beta zeta;
  try match goal with
      | |- context [match ?a with inl _ => _ | inr _ => _ end] => destruct a
      end;
  cbn [fst snd];
  leaf.

Ltac respects_go leaf :=
  cbv beta zeta;
  lazymatch goal with
  | |- respects _ (bind _ _) =>
      apply respects_bind;
      [try apply _ | respects_go leaf | intros ?; respects_go leaf]
  | |- respects _ (try_except _ _) =>
      apply respects_try_except;
      [try apply _ | respects_go leaf | intros ?; respects_go leaf]
  | |- respects _ (try_except_interrupt _ _ _) =>
      apply respects_try_except_interrupt;
      [try apply _ | respects_go leaf | respects_go leaf
      | intros ?; respects_go leaf]
  | |- respects _ (try_finally _ _) =>
      apply respects_try_finally; [try apply _ | respects_go leaf ..]
  | |- respects _ (for_each _ _) =>
      apply respects_for_each; [try apply _ | intros ?; respects_go leaf]
  | |- respects _ (ret _) => apply respects_ret; apply _
  | |- respects _ (raise _) => apply respects_raise; apply _
  | |- respects _ get_self => apply respects_get_self; apply _
  | |- respects _ (sleep _) => apply respects_sleep; apply _
  | |- respects _ (ext _ _) => run_primitive leaf
  | |- respects _ (observe _ _) => run_primitive leaf
  | |- respects _ (enter _) => run_primitive leaf
  | |- respects _ (modify _) => run_primitive leaf
  | |- respects _ (fwrite _) => run_primitive leaf
  | |- respects _ (fopen_w _) => run_primitive leaf
  | |- respects _ (match ?x with _ => _ end) => destruct x; respects_go leaf
  | |- respects _ ?m =>
      first [ solve [eauto] | unfold_head m; respects_go leaf ]
  end.

Ltac no_interrupt_go :=
  cbv beta zeta;
  lazymatch goal with
  | |- no_interrupt (bind _ _) =>
      apply no_interrupt_bind; [no_interrupt_go | intros ?; no_interrupt_go]
  | |- no_interrupt (try_except _ _) =>
      apply no_interrupt_try_except;
      [no_interrupt_go | intros ?; no_interrupt_go]
  | |- no_interrupt (for_each _ _) =>
      apply no_interrupt_for_each; intros ?; no_interrupt_go
  | |- no_interrupt (ext _ _) => apply no_interrupt_ext
  | |- no_interrupt (fopen_w _) => apply no_interrupt_fopen_w
  | |- no_interrupt (raise (Exception _)) => apply no_interrupt_raise
  | |- no_interrupt (ret _) => apply no_interrupt_ret
  | |- no_interrupt (sleep _) => apply no_interrupt_ret
  | |- no_interrupt get_self => intros ?; discriminate
  | |- no_interrupt (observe _ _) => intros ?; discriminate
  | |- no_interrupt (enter _) => intros ?; discriminate
  | |- no_interrupt (modify _) => intros ?; discriminate
  | |- no_interrupt (fwrite _) => intros ?; discriminate
  | |- no_interrupt (match ?x with _ => _ end) => destruct x; no_interrupt_go
  | |- no_interrupt ?m =>
      first [ solve [eauto using total_no_interrupt]
            | unfold_head m; no_interrupt_go ]
  end.

Ltac total_go :=
  cbv beta zeta;
  lazymatch goal with
  | |- total (bind _ _) => apply total_bind; [total_go | intros ?; total_go]
  | |- total (try_except _ _) =>
      apply total_try_except; [no_interrupt_go | intros ?; total_go]
  | |- total (for_each _ _) => apply total_for_each; intros ?; total_go
  | |- total (ret _) => apply total_ret
  | |- total (sleep _) => apply total_ret
  | |- total get_self => intros ?; eexists; reflexivity
  | |- total (observe _ _) => intros ?; eexists; reflexivity
  | |- total (enter _) => intros ?; eexists; reflexivity
  | |- total (modify _) => intros ?; eexists; reflexivity
  | |- total (fwrite _) => intros ?; eexists; reflexivity
  | |- total (match ?x with _ => _ end) => destruct x; total_go
  | |- total ?m => first [ solve [eauto] | unfold_head m; total_go ]
  end.

(** ** The session is not touched by report generation *)

Definition same_self {Self} : relation (state Self) :=
  fun st st' => self st' = self st.

Global Instance same_count_preorder {Self} ev :
  PreOrder (@same_count Self ev).
Proof.
  split; [intros st; reflexivity|].
  intros a b c Hab Hbc. unfold same_count in *. congruence.
Qed.

Global Instance unconstrained_preorder {Self} :
  PreOrder (@unconstrained Self).
Proof. split; intros ?; intros; exact I. Qed.

Global Instance same_self_preorder {Self} : PreOrder (@same_self Self).
Proof.
  split; [intros st; reflexivity|].
  intros a b c Hab Hbc. unfold same_self in *. congruence.
Qed.

Lemma webdriver_report_keeps_session env :
  respects same_self (WebDriverVisualTest.generate_report env).
Proof. respects_go ltac:(reflexivity). Qed.

Lemma direct_report_keeps_session env :
  respects same_self (DirectRenderTest.generate_report env).
Proof. respects_go ltac:(reflexivity). Qed.


(** Symbolic execution of a method under [wp], one step at a time. *)
Ltac wp_rewrite_known :=
  match goal with
  | H : ?x = _ |- context [match ?x with _ => _ end] => rewrite H
  end.

Ltac wp_rule :=
  lazymatch goal with
  | |- wp (bind _ _) _ _ => apply wp_bind
  | |- wp (try_except _ _) _ _ => apply wp_try_except
  | |- wp (ext _ _) _ _ => apply wp_ext; intros
  | |- wp (ret _) _ _ => apply wp_ret
  | |- wp (raise _) _ _ => apply wp_raise
  | |- wp (sleep _) _ _ => apply wp_sleep
  | |- wp get_self _ _ => apply wp_get_self
  | |- wp (observe _ _) _ _ => apply wp_observe
  | |- wp (enter _) _ _ => apply wp_enter
  | |- wp (modify _) _ _ => apply wp_modify
  | |- wp (fwrite _) _ _ => apply wp_fwrite
  | |- wp (fopen_w _) _ _ => apply wp_fopen_w; intros
  | |- wp (match ?x with _ => _ end) _ _ =>
      first [ wp_rewrite_known | destruct x eqn:? ]
  | |- wp ?m _ _ => unfold_head m
  end.

Ltac wp_step :=
  wp_rule;
  cbv beta iota zeta;
  try lazymatch goal with
      | |- wp ?m ?Q ?s =>
          let s' := eval cbn [fst snd st_world self] in s in
          change (wp m Q s')
      end.

(** The same on a state given by its components, as report generation
    needs it: the state is kept in normal form by plain computation. *)
Ltac wp_step_flat :=
  wp_rule;
  cbv beta iota zeta;
  try lazymatch goal with
      | |- wp ?m ?Q ?s =>
          let s' := eval lazy beta iota
                      delta [fst snd st_world self tick events report
                             advance log default] in s in
          change (wp m Q s')
      end.

Ltac wp_go := cbv beta zeta; repeat wp_step.

(** Symbolic execution that skips over the steps respecting [R]: it keeps
    the hypothesis [H : R st0 st] about the current state [st] and stops at
    the first step that does not respect [R]. *)
Ltac wp_frames R leaf :=
  cbv beta zeta;
  lazymatch goal with
  | H : R ?st0 ?st |- wp (bind ?m ?k) ?Q ?st =>
      let Hr := fresh "Hr" in
      tryif (assert (respects R m) as Hr by (respects_go leaf))
      then
        (apply (wp_bind_frame R m k Q st0 st H Hr); clear Hr;
         [ no_interrupt_go
         | clear H; intros ? ? H; wp_frames R leaf
         | clear H; intros ? ? H; cbv beta iota ])
      else idtac
  | |- wp (match ?x with _ => _ end) _ _ =>
      destruct x eqn:?; wp_frames R leaf
  | |- wp (ret _) _ _ => apply wp_ret
  | H : R ?st0 ?st |- wp ?m ?Q ?st =>
      let Hr := fresh "Hr" in
      tryif (assert (respects R m) as Hr by (respects_go leaf))
      then
        (apply (wp_frame_last R m Q st0 st H Hr); clear Hr;
         [ no_interrupt_go
         | clear H; intros ? ? H; cbv beta iota
         | clear H; intros ? ? H; cbv beta iota ])
      else (tryif unfold_head m then wp_frames R leaf else idtac)
  | |- _ => idtac
  end.

(** The same for steps that always return: nothing is left to check for
    the case in which they raise. *)
Ltac wp_totals R leaf :=
  cbv beta zeta;
  lazymatch goal with
  | H : R ?st0 ?st |- wp (bind ?m ?k) ?Q ?st =>
      let Hr := fresh "Hr" in
      let Ht := fresh "Ht" in
      tryif (assert (respects R m) as Hr by (respects_go leaf);
             assert (total m) as Ht by total_go)
      then
        (apply (wp_bind_total_frame R m k Q st0 st H Hr Ht); clear Hr Ht;
         clear H; intros ? ? H; wp_totals R leaf)
      else idtac
  | |- _ => idtac
  end.

(** Evaluates the counts of the one-event logs in the goal. *)
Ltac count_eval :=
  repeat match goal with
         | |- context [count_event ?e [?x]] =>
             let v := eval vm_compute in (count_event e [x]) in
             change (count_event e [x]) with v
         end.

Ltac count_leaf :=
  unfold same_count; cbn [st_world events log advance];
  rewrite ?count_event_app; count_eval; try lia; try reflexivity.

(** The first steps of a test method, up to the body of its [try]: they
    are run symbolically, and the state the body starts in is related to
    itself. *)
Ltac wp_enter_try R H :=
  cbv beta zeta;
  repeat lazymatch goal with
    | |- wp (try_except _ _) _ _ => fail
    | |- _ => wp_step
    end;
  apply wp_try_except;
  lazymatch goal with
  | |- wp _ _ ?s => assert (R s s) as H by reflexivity
  end.

Module ValidatorFacts.
Import AxiomVisualValidator.

Definition counters (st : state Self) : nat * nat * nat :=
  (tests_run (results (self st)), tests_passed (results (self st)),
   tests_failed (results (self st))).

Definition same_counters : relation (state Self) :=
  fun st st' => counters st' = counters st.

(** One more run, and one more pass or one more failure. *)
Definition counts_one (st st' : state Self) : Prop :=
  let r := results (self st) in
  let r' := results (self st') in
  tests_run r' = tests_run r + 1 /\
  ((tests_passed r' = tests_passed r + 1 /\ tests_failed r' = tests_failed r)
   \/ (tests_passed r' = tests_passed r /\ tests_failed r' = tests_failed r + 1)).

Definition balanced (st : state Self) : Prop :=
  let r := results (self st) in
  tests_run r = tests_passed r + tests_failed r.

Global Instance same_counters_preorder : PreOrder same_counters.
Proof.
  split; [intros st; reflexivity|].
  intros a b c Hab Hbc. unfold same_counters in *. congruence.
Qed.

Lemma take_screenshot_same_counters env name description :
  respects same_counters (take_screenshot env name description).
Proof. respects_go ltac:(reflexivity). Qed.

End ValidatorFacts.

Module SimpleCapture.
Import SimpleVisualTest.

(** C9. [SimpleVisualTest.take_screenshot] always returns.  When the
    capture utility exits with status zero it returns the path and appends
    one record with [success = True]; when the utility exits with another
    status, overruns its five seconds or fails in any other way, it
    returns [None] and appends one record with [success = False] and the
    message of the failure. *)
Theorem simple_take_screenshot_total env name description st :
  let t := tick (st_world st) in
  let filename := now env t +:+ "_" +:+ name +:+ ".png" in
  let filepath := joinpath screenshots_dir filename in
  let cmd := ["scrot"; path_str filepath] in
  let captured :=
    {| name := name; description := description; file := Some filename;
       error := None; success := true |} in
  let failed msg :=
    {| name := name; description := description; file := None;
       error := Some msg; success := false |} in
  let r := fst (take_screenshot env name description st) in
  let st' := snd (take_screenshot env name description st) in
  match run env (S t) cmd with
  | Completed 0 =>
      r = Ok (Some filepath) /\
      results (self st') = results (self st) ++ [captured]
  | Completed (S n) =>
      r = Ok None /\
      results (self st') = results (self st) ++
        [failed ("Command '" +:+ show_command cmd
                 +:+ "' returned non-zero exit status " +:+ pretty (S n)
                 +:+ ".")]
  | TimedOut =>
      r = Ok None /\
      results (self st') = results (self st) ++
        [failed ("Command '" +:+ show_command cmd
                 +:+ "' timed out after 5 seconds")]
  | Failed msg =>
      r = Ok None /\ results (self st') = results (self st) ++ [failed msg]
  end.
Proof.
  intros t filename filepath cmd captured failed r st'.
  subst r st'. unfold take_screenshot, try_except, bind, observe, ext.
  cbn beta iota zeta delta [fst snd st_world self tick advance log].
  fold t. fold filename. fold filepath. fold cmd.
  destruct (run env (S t) cmd) as [[|n]| |msg]; simpl; split; reflexivity.
Qed.

End SimpleCapture.

Module ValidatorCounters.
Import AxiomVisualValidator ValidatorFacts.

(** The test methods of [AxiomVisualValidator], in the order [main] calls
    them. *)
Definition test_methods (env : Env) : list (M Self bool) :=
  [test_file_loading_xyz env; test_rotation env; test_zoom env;
   test_background_colors env; test_rendering_controls env].

Definition counted (st : state Self) (r : outcome bool) (st' : state Self)
  : Prop :=
  (exists b, r = Ok b) /\ counts_one st st'.

Ltac counted_leaf H :=
  wp_go; unfold counted, counts_one, same_counters, counters in *;
  simpl in *; injection H as ? ? ?;
  split; [eexists; reflexivity | lia].

Ltac counted_go :=
  let H := fresh "Hsame" in
  wp_enter_try same_counters H;
  wp_frames same_counters ltac:(reflexivity);
  counted_leaf H.

Lemma test_file_loading_xyz_counted env st :
  wp (test_file_loading_xyz env) (counted st) st.
Proof. counted_go. Qed.

Lemma test_rotation_counted env st : wp (test_rotation env) (counted st) st.
Proof. counted_go. Qed.

Lemma test_zoom_counted env st : wp (test_zoom env) (counted st) st.
Proof. counted_go. Qed.

Lemma test_background_colors_counted env st :
  wp (test_background_colors env) (counted st) st.
Proof. counted_go. Qed.

Lemma test_rendering_controls_counted env st :
  wp (test_rendering_controls env) (counted st) st.
Proof. counted_go. Qed.

Lemma counts_one_balanced st st' :
  counts_one st st' -> balanced st -> balanced st'.
Proof. unfold counts_one, balanced. simpl. lia. Qed.

(** C10. Every test method of [AxiomVisualValidator] returns, adds one to
    [tests_run] and one to exactly one of [tests_passed] and
    [tests_failed]; so [tests_run = tests_passed + tests_failed], true of
    a fresh validator, stays true after each of them. *)
Theorem validator_test_counts_once env st test :
  In test (test_methods env) ->
  exists b st',
    test st = (Ok b, st') /\ counts_one st st' /\
    (balanced st -> balanced st').
Proof.
  intros Hin.
  assert (wp test (counted st) st) as [[b Hb] Hc].
  { simpl in Hin.
    destruct Hin as [<-|[<-|[<-|[<-|[<-|[]]]]]];
      [ apply test_file_loading_xyz_counted | apply test_rotation_counted
      | apply test_zoom_counted | apply test_background_colors_counted
      | apply test_rendering_controls_counted ]. }
  exists b, (snd (test st)). split; [|split].
  - destruct (test st) as [r st']. simpl in *. congruence.
  - exact Hc.
  - apply counts_one_balanced, Hc.
Qed.

Lemma validator_test_counts_once_witness :
  In (test_rotation Scenarios.validator_ok)
     (test_methods Scenarios.validator_ok) /\
  exists b st',
    test_rotation Scenarios.validator_ok init = (Ok b, st') /\
    counts_one init st' /\ (balanced init -> balanced st').
Proof.
  split; [simpl; tauto|].
  apply (validator_test_counts_once Scenarios.validator_ok init).
  simpl; tauto.
Defined.

Lemma init_balanced : balanced init.
Proof. reflexivity. Qed.

End ValidatorCounters.

(** ** A test case keeps its exceptions to itself *)

Lemma try_except_unfold {Self A} (body : M Self A) handler st :
  try_except body handler st =
  match body st with
  | (Ok a, st') => (Ok a, st')
  | (Raise (Exception msg), st') => handler msg st'
  | (Raise KeyboardInterrupt, st') => (Raise KeyboardInterrupt, st')
  end.
Proof. reflexivity. Qed.

Module WebDriverIsolation.
Import WebDriverVisualTest.

Definition same_tests : relation (state Self) :=
  fun st st' => tests (results (self st')) = tests (results (self st)).

Global Instance same_tests_preorder : PreOrder same_tests.
Proof.
  split; [intros st; reflexivity|].
  intros a b c Hab Hbc. unfold same_tests in *. congruence.
Qed.

Definition one_recorded (st st' : state Self) : Prop :=
  exists e, tests (results (self st')) = tests (results (self st)) ++ [e].

Definition error_recorded (name msg : string) (st st' : state Self) : Prop :=
  tests (results (self st')) =
  tests (results (self st)) ++
    [{| name := name; result := ERROR; note := None; error := Some msg;
        controls := None; keywords := None |}].

(** What [test] does, told by how the body of its [try] ends: the body
    runs in the state [test] was entered in; when it completes, [test]
    returns its value and one entry has been recorded; when it raises,
    [test] returns [False] and the one entry recorded is an [ERROR] with
    the message. *)
Definition isolates (method name : string) (body test : M Self bool) : Prop :=
  forall st,
    match body (snd (enter method st)) with
    | (Ok b, st1) => test st = (Ok b, st1) /\ one_recorded st st1
    | (Raise (Exception msg), st1) =>
        exists st', test st = (Ok false, st') /\ error_recorded name msg st st'
    | (Raise KeyboardInterrupt, _) => False
    end.

Definition body_post (st0 : state Self) (r : outcome bool) (st1 : state Self)
  : Prop :=
  match r with
  | Ok _ => one_recorded st0 st1
  | Raise (Exception _) => same_tests st0 st1
  | Raise KeyboardInterrupt => False
  end.

Lemma probe_buttons_same_tests env buttons file_inputs :
  respects same_tests (probe_buttons env buttons file_inputs).
Proof.
  induction buttons as [|btn rest IH]; cbn [probe_buttons].
  - apply respects_ret; apply _.
  - respects_go ltac:(reflexivity).
Qed.

Lemma probe_buttons_no_interrupt env buttons file_inputs :
  no_interrupt (probe_buttons env buttons file_inputs).
Proof.
  induction buttons as [|btn rest IH]; cbn [probe_buttons].
  - apply no_interrupt_ret.
  - no_interrupt_go.
Qed.

Ltac body_go :=
  let H := fresh "Hsame" in
  intros;
  lazymatch goal with
  | |- wp _ _ ?s => assert (same_tests s s) as H by reflexivity
  end;
  pose proof probe_buttons_same_tests;
  pose proof probe_buttons_no_interrupt;
  wp_frames same_tests ltac:(reflexivity);
  wp_go; unfold body_post, one_recorded, same_tests in *; simpl in *;
  rewrite ?H; eauto.

Lemma test_gui_loads_body_post env name st :
  wp (test_gui_loads_body env name) (body_post st) st.
Proof. body_go. Qed.

Lemma test_controls_visible_body_post env name st :
  wp (test_controls_visible_body env name) (body_post st) st.
Proof. body_go. Qed.

Lemma test_load_structure_body_post env name file st :
  wp (test_load_structure_body env name file) (body_post st) st.
Proof. body_go. Qed.

Lemma webdriver_test_rotation_body_post env name st :
  wp (test_rotation_body env name) (body_post st) st.
Proof. body_go. Qed.

Ltac isolates_go body_lemma test :=
  let Hbody := fresh "Hbody" in
  let Hrun := fresh "Hrun" in
  intros st;
  lazymatch goal with
  | |- match ?body ?s with _ => _ end =>
      pose proof (body_lemma s) as Hbody;
      unfold wp, body_post in Hbody;
      destruct (body s) as [[b|[msg|]] st1] eqn:Hrun; simpl in Hbody
  end;
  [ split; [|exact Hbody]
  | eexists; split
  | exact Hbody ];
  [ unfold test; cbv zeta; rewrite bind_unfold; simpl;
    rewrite try_except_unfold; simpl in Hrun; rewrite Hrun; reflexivity
  | unfold test; cbv zeta; rewrite bind_unfold; simpl;
    rewrite try_except_unfold; simpl in Hrun; rewrite Hrun; reflexivity
  | unfold error_recorded, same_tests in *; simpl in *;
    rewrite Hbody; reflexivity ].

Lemma test_gui_loads_isolates env :
  isolates "test_gui_loads" "GUI Loading"
    (test_gui_loads_body env "GUI Loading") (test_gui_loads env).
Proof.
  isolates_go (test_gui_loads_body_post env "GUI Loading")
    test_gui_loads.
Qed.

Lemma test_controls_visible_isolates env :
  isolates "test_controls_visible" "UI Controls Visibility"
    (test_controls_visible_body env "UI Controls Visibility")
    (test_controls_visible env).
Proof.
  isolates_go (test_controls_visible_body_post env "UI Controls Visibility")
    test_controls_visible.
Qed.

Lemma test_load_structure_isolates env file :
  isolates "test_load_structure" ("Load Structure: " +:+ pname file)
    (test_load_structure_body env ("Load Structure: " +:+ pname file) file)
    (test_load_structure env file).
Proof.
  isolates_go (test_load_structure_body_post env ("Load Structure: " +:+ pname file) file)
    test_load_structure.
Qed.

Lemma webdriver_test_rotation_isolates env :
  isolates "test_rotation" "Rotation"
    (test_rotation_body env "Rotation") (test_rotation env).
Proof.
  isolates_go (webdriver_test_rotation_body_post env "Rotation")
    test_rotation.
Qed.

End WebDriverIsolation.

Module DirectRenderIsolation.
Import DirectRenderTest.

Definition same_record : relation (state Self) :=
  fun st st' => tests (self st') = tests (self st) /\
                errors (self st') = errors (self st).

Global Instance same_record_preorder : PreOrder same_record.
Proof.
  split; [intros st; split; reflexivity|].
  intros a b c [? ?] [? ?]. unfold same_record in *. split; congruence.
Qed.

Definition pass_recorded (name : string) (st st' : state Self) : Prop :=
  tests (self st') = tests (self st) ++ [{| name := name; result := PASS |}]
  /\ errors (self st') = errors (self st).

(** The script has no [ERROR] status: an exception becomes a [FAIL] entry
    and its message goes to the [errors] list under the name of the
    test. *)
Definition failure_recorded (name msg : string) (st st' : state Self) : Prop :=
  tests (self st') = tests (self st) ++ [{| name := name; result := FAIL |}]
  /\ errors (self st') =
     errors (self st) ++ [{| error_test := name; error := msg |}].

Definition isolates (method name : string) (body test : M Self bool) : Prop :=
  forall st,
    match body (snd (enter method st)) with
    | (Ok b, st1) => test st = (Ok b, st1) /\ pass_recorded name st st1
    | (Raise (Exception msg), st1) =>
        exists st', test st = (Ok false, st') /\
                    failure_recorded name msg st st'
    | (Raise KeyboardInterrupt, _) => False
    end.

Definition body_post (name : string) (st0 : state Self) (r : outcome bool)
    (st1 : state Self) : Prop :=
  match r with
  | Ok _ => pass_recorded name st0 st1
  | Raise (Exception _) => same_record st0 st1
  | Raise KeyboardInterrupt => False
  end.

Ltac body_go :=
  let H := fresh "Hsame" in
  intros;
  lazymatch goal with
  | |- wp _ _ ?s => assert (same_record s s) as H by reflexivity
  end;
  wp_frames same_record ltac:(split; reflexivity);
  wp_go; unfold body_post, pass_recorded, same_record in *; simpl in *;
  destruct H as [-> ->]; auto.

Lemma test_simple_water_body_post env name st :
  wp (test_simple_water_body env name) (body_post name st) st.
Proof. body_go. Qed.

Lemma direct_test_rotation_body_post env name st :
  wp (test_rotation_body env name) (body_post name st) st.
Proof. body_go. Qed.

Lemma direct_test_zoom_body_post env name st :
  wp (test_zoom_body env name) (body_post name st) st.
Proof. body_go. Qed.

Lemma direct_test_background_colors_body_post env name st :
  wp (test_background_colors_body env name) (body_post name st) st.
Proof. body_go. Qed.

Ltac isolates_go body_lemma test :=
  let Hbody := fresh "Hbody" in
  let Hrun := fresh "Hrun" in
  intros st;
  lazymatch goal with
  | |- match ?body ?s with _ => _ end =>
      pose proof (body_lemma s) as Hbody;
      unfold wp, body_post in Hbody;
      destruct (body s) as [[b|[msg|]] st1] eqn:Hrun; simpl in Hbody
  end;
  [ split; [|exact Hbody]
  | eexists; split
  | exact Hbody ];
  [ unfold test; cbv zeta; rewrite bind_unfold; simpl;
    rewrite try_except_unfold; simpl in Hrun; rewrite Hrun; reflexivity
  | unfold test, on_exception; cbv zeta; rewrite bind_unfold; simpl;
    rewrite try_except_unfold; simpl in Hrun; rewrite Hrun; reflexivity
  | unfold failure_recorded, same_record, on_exception in *; simpl in *;
    destruct Hbody as [-> ->]; split; reflexivity ].

Lemma test_simple_water_isolates env :
  isolates "test_simple_water" "Render Water Molecule"
    (test_simple_water_body env "Render Water Molecule")
    (test_simple_water env).
Proof.
  isolates_go (test_simple_water_body_post env "Render Water Molecule")
    test_simple_water.
Qed.

Lemma direct_test_rotation_isolates env :
  isolates "test_rotation" "Test Rotation (Different Camera Angles)"
    (test_rotation_body env "Test Rotation (Different Camera Angles)")
    (test_rotation env).
Proof.
  isolates_go
    (direct_test_rotation_body_post env "Test Rotation (Different Camera Angles)")
    test_rotation.
Qed.

Lemma direct_test_zoom_isolates env :
  isolates "test_zoom" "Test Zoom (Different Camera Distances)"
    (test_zoom_body env "Test Zoom (Different Camera Distances)")
    (test_zoom env).
Proof.
  isolates_go
    (direct_test_zoom_body_post env "Test Zoom (Different Camera Distances)")
    test_zoom.
Qed.

Lemma direct_test_background_colors_isolates env :
  isolates "test_background_colors" "Test Background Colors"
    (test_background_colors_body env "Test Background Colors")
    (test_background_colors env).
Proof.
  isolates_go
    (direct_test_background_colors_body_post env "Test Background Colors")
    test_background_colors.
Qed.

End DirectRenderIsolation.

Module ValidatorIsolation.
Import AxiomVisualValidator.

Definition same_record : relation (state Self) :=
  fun st st' =>
    tests_run (results (self st')) = tests_run (results (self st)) /\
    tests_passed (results (self st')) = tests_passed (results (self st)) /\
    tests_failed (results (self st')) = tests_failed (results (self st)) /\
    bugs (results (self st')) = bugs (results (self st)).

Global Instance same_record_preorder : PreOrder same_record.
Proof.
  split; [intros st; repeat split; reflexivity|].
  intros a b c (?&?&?&?) (?&?&?&?). unfold same_record in *.
  repeat split; congruence.
Qed.

Definition pass_counted (st st' : state Self) : Prop :=
  let r := results (self st) in
  let r' := results (self st') in
  tests_run r' = tests_run r + 1 /\ tests_passed r' = tests_passed r + 1 /\
  tests_failed r' = tests_failed r /\ bugs r' = bugs r.

(** The validator keeps no list of outcomes: an exception adds one to
    [tests_failed] and its message goes to the [bugs] list under the
    name of the test. *)
Definition failure_counted (name msg : string) (st st' : state Self) : Prop :=
  let r := results (self st) in
  let r' := results (self st') in
  tests_run r' = tests_run r + 1 /\ tests_passed r' = tests_passed r /\
  tests_failed r' = tests_failed r + 1 /\
  bugs r' = bugs r ++ [{| bug_test := name; bug_error := msg |}].

Definition isolates (method name : string) (body test : M Self bool) : Prop :=
  forall st,
    match body (snd (incr_tests_run (snd (enter method st)))) with
    | (Ok b, st1) => test st = (Ok b, st1) /\ pass_counted st st1
    | (Raise (Exception msg), st1) =>
        exists st', test st = (Ok false, st') /\
                    failure_counted name msg st st'
    | (Raise KeyboardInterrupt, _) => False
    end.

Definition body_post (st0 : state Self) (r : outcome bool) (st1 : state Self)
  : Prop :=
  match r with
  | Ok _ =>
      let r0 := results (self st0) in
      let r1 := results (self st1) in
      tests_run r1 = tests_run r0 /\
      tests_passed r1 = tests_passed r0 + 1 /\
      tests_failed r1 = tests_failed r0 /\ bugs r1 = bugs r0
  | Raise (Exception _) => same_record st0 st1
  | Raise KeyboardInterrupt => False
  end.

Ltac body_go :=
  let H := fresh "Hsame" in
  intros;
  lazymatch goal with
  | |- wp _ _ ?s => assert (same_record s s) as H by reflexivity
  end;
  wp_frames same_record ltac:(repeat split; reflexivity);
  wp_go; unfold body_post, same_record in *; simpl in *;
  destruct H as (-> & -> & -> & ->); auto.

Lemma test_file_loading_xyz_body_post env st :
  wp (test_file_loading_xyz_body env) (body_post st) st.
Proof. body_go. Qed.

Lemma validator_test_rotation_body_post env st :
  wp (test_rotation_body env) (body_post st) st.
Proof. body_go. Qed.

Lemma validator_test_zoom_body_post env st : wp (test_zoom_body env) (body_post st) st.
Proof. body_go. Qed.

Lemma validator_test_background_colors_body_post env st :
  wp (test_background_colors_body env) (body_post st) st.
Proof. body_go. Qed.

Lemma test_rendering_controls_body_post env st :
  wp (test_rendering_controls_body env) (body_post st) st.
Proof. body_go. Qed.

Ltac isolates_go body_lemma test :=
  let Hbody := fresh "Hbody" in
  let Hrun := fresh "Hrun" in
  intros st;
  lazymatch goal with
  | |- match ?body ?s with _ => _ end =>
      pose proof (body_lemma s) as Hbody;
      unfold wp, body_post in Hbody;
      destruct (body s) as [[b|[msg|]] st1] eqn:Hrun; simpl in Hbody
  end;
  [ split | eexists; split | exact Hbody ];
  [ unfold test; rewrite !bind_unfold; simpl;
    rewrite try_except_unfold; simpl in Hrun; rewrite Hrun; reflexivity
  | unfold pass_counted; simpl; tauto
  | unfold test, on_exception; rewrite !bind_unfold; simpl;
    rewrite try_except_unfold; simpl in Hrun; rewrite Hrun; reflexivity
  | unfold failure_counted, same_record in *; simpl in *;
    destruct Hbody as (-> & -> & -> & ->); tauto ].

Lemma test_file_loading_xyz_isolates env :
  isolates "test_file_loading_xyz" "XYZ File Loading"
    (test_file_loading_xyz_body env) (test_file_loading_xyz env).
Proof.
  isolates_go (test_file_loading_xyz_body_post env) test_file_loading_xyz.
Qed.

Lemma validator_test_rotation_isolates env :
  isolates "test_rotation" "Rotation"
    (test_rotation_body env) (test_rotation env).
Proof. isolates_go (validator_test_rotation_body_post env) test_rotation. Qed.

Lemma validator_test_zoom_isolates env :
  isolates "test_zoom" "Zoom" (test_zoom_body env) (test_zoom env).
Proof. isolates_go (validator_test_zoom_body_post env) test_zoom. Qed.

Lemma validator_test_background_colors_isolates env :
  isolates "test_background_colors" "Background Colors"
    (test_background_colors_body env) (test_background_colors env).
Proof.
  isolates_go (validator_test_background_colors_body_post env) test_background_colors.
Qed.

Lemma test_rendering_controls_isolates env :
  isolates "test_rendering_controls" "Rendering Controls"
    (test_rendering_controls_body env) (test_rendering_controls env).
Proof.
  isolates_go (test_rendering_controls_body_post env) test_rendering_controls.
Qed.

End ValidatorIsolation.

(** C2, as the scripts have it.  No test case lets an exception of its
    body out: it returns.  When the body raises, exactly one outcome is
    recorded, and the shape of that outcome is the script's own: in
    [webdriver_visual_test.py] an entry with status [ERROR] whose [error]
    is the message; in [direct_render_test.py] an entry with status [FAIL]
    and the message in the [errors] list; in [visual_validator.py] one
    more in [tests_failed] and the message in the [bugs] list. *)
Theorem test_case_exception_is_recorded :
  (forall env file,
     WebDriverIsolation.isolates "test_gui_loads" "GUI Loading"
       (WebDriverVisualTest.test_gui_loads_body env "GUI Loading")
       (WebDriverVisualTest.test_gui_loads env) /\
     WebDriverIsolation.isolates "test_controls_visible"
       "UI Controls Visibility"
       (WebDriverVisualTest.test_controls_visible_body env
          "UI Controls Visibility")
       (WebDriverVisualTest.test_controls_visible env) /\
     WebDriverIsolation.isolates "test_load_structure"
       ("Load Structure: " +:+ pname file)
       (WebDriverVisualTest.test_load_structure_body env
          ("Load Structure: " +:+ pname file) file)
       (WebDriverVisualTest.test_load_structure env file) /\
     WebDriverIsolation.isolates "test_rotation" "Rotation"
       (WebDriverVisualTest.test_rotation_body env "Rotation")
       (WebDriverVisualTest.test_rotation env)) /\
  (forall env,
     DirectRenderIsolation.isolates "test_simple_water"
       "Render Water Molecule"
       (DirectRenderTest.test_simple_water_body env "Render Water Molecule")
       (DirectRenderTest.test_simple_water env) /\
     DirectRenderIsolation.isolates "test_rotation"
       "Test Rotation (Different Camera Angles)"
       (DirectRenderTest.test_rotation_body env
          "Test Rotation (Different Camera Angles)")
       (DirectRenderTest.test_rotation env) /\
     DirectRenderIsolation.isolates "test_zoom"
       "Test Zoom (Different Camera Distances)"
       (DirectRenderTest.test_zoom_body env
          "Test Zoom (Different Camera Distances)")
       (DirectRenderTest.test_zoom env) /\
     DirectRenderIsolation.isolates "test_background_colors"
       "Test Background Colors"
       (DirectRenderTest.test_background_colors_body env
          "Test Background Colors")
       (DirectRenderTest.test_background_colors env)) /\
  (forall env,
     ValidatorIsolation.isolates "test_file_loading_xyz" "XYZ File Loading"
       (AxiomVisualValidator.test_file_loading_xyz_body env)
       (AxiomVisualValidator.test_file_loading_xyz env) /\
     ValidatorIsolation.isolates "test_rotation" "Rotation"
       (AxiomVisualValidator.test_rotation_body env)
       (AxiomVisualValidator.test_rotation env) /\
     ValidatorIsolation.isolates "test_zoom" "Zoom"
       (AxiomVisualValidator.test_zoom_body env)
       (AxiomVisualValidator.test_zoom env) /\
     ValidatorIsolation.isolates "test_background_colors" "Background Colors"
       (AxiomVisualValidator.test_background_colors_body env)
       (AxiomVisualValidator.test_background_colors env) /\
     ValidatorIsolation.isolates "test_rendering_controls"
       "Rendering Controls"
       (AxiomVisualValidator.test_rendering_controls_body env)
       (AxiomVisualValidator.test_rendering_controls env)).
Proof.
  split; [|split]; intros.
  - auto using WebDriverIsolation.test_gui_loads_isolates,
      WebDriverIsolation.test_controls_visible_isolates,
      WebDriverIsolation.test_load_structure_isolates,
      WebDriverIsolation.webdriver_test_rotation_isolates.
  - auto using DirectRenderIsolation.test_simple_water_isolates,
      DirectRenderIsolation.direct_test_rotation_isolates,
      DirectRenderIsolation.direct_test_zoom_isolates,
      DirectRenderIsolation.direct_test_background_colors_isolates.
  - repeat split;
      auto using ValidatorIsolation.test_file_loading_xyz_isolates,
        ValidatorIsolation.validator_test_rotation_isolates,
        ValidatorIsolation.validator_test_zoom_isolates,
        ValidatorIsolation.validator_test_background_colors_isolates,
        ValidatorIsolation.test_rendering_controls_isolates.
Qed.

(** C2 as stated fails in [direct_render_test.py]: when the bindings
    raise inside [test_simple_water], the one outcome recorded has status
    [FAIL], and no outcome of the session has status [ERROR]. *)
Lemma direct_render_exception_is_recorded_as_fail :
  let env := Scenarios.broken_bindings in
  let st' := snd (DirectRenderTest.test_simple_water env DirectRenderTest.init) in
  fst (DirectRenderTest.test_simple_water_body env "Render Water Molecule"
         (snd (enter "test_simple_water" DirectRenderTest.init)))
    = Raise (Exception "module 'axiom' has no attribute 'Atoms'") /\
  DirectRenderTest.tests (self st')
    = [{| DirectRenderTest.name := "Render Water Molecule";
          DirectRenderTest.result := FAIL |}] /\
  ~ (exists t, In t (DirectRenderTest.tests (self st')) /\
               DirectRenderTest.result t = ERROR).
Proof.
  cbv zeta. split; [reflexivity|]. split; [reflexivity|].
  intros [t [Hin Herr]]. simpl in Hin. destruct Hin as [<-|[]].
  discriminate Herr.
Qed.

Module WebDriverLookup.
Import Selenium WebDriverVisualTest WebDriverIsolation.

(** C5, where the code departs from it.  On a page without a canvas the
    lookup of [test_rotation], [driver.find_element], raises: the test
    records [ERROR] with the message of [NoSuchElementException] and no
    entry in [bugs]. *)
Theorem rotation_without_canvas_is_error env st :
  driver (self st) = Some tt ->
  find_elements env (tick (st_world st)) TAG_NAME "canvas" = inr [] ->
  exists st',
    test_rotation env st = (Ok false, st') /\
    error_recorded "Rotation" no_such_element st st' /\
    bugs (results (self st')) = bugs (results (self st)).
Proof.
  intros Hd Hfind. eexists. split; [|split].
  - unfold test_rotation, test_rotation_body, driver_call. cbv zeta.
    rewrite !bind_unfold. simpl. rewrite try_except_unfold.
    rewrite !bind_unfold. simpl. rewrite Hd. unfold ext. simpl.
    rewrite Hfind. simpl. reflexivity.
  - reflexivity.
  - reflexivity.
Qed.

Lemma rotation_without_canvas_is_error_witness :
  driver (self (State world0 {| driver := Some tt; results := results (self init) |}))
    = Some tt /\
  find_elements Scenarios.empty_page 0 TAG_NAME "canvas" = inr [] /\
  exists st',
    test_rotation Scenarios.empty_page
      (State world0 {| driver := Some tt; results := results (self init) |})
    = (Ok false, st') /\
    error_recorded "Rotation" no_such_element
      (State world0 {| driver := Some tt; results := results (self init) |}) st' /\
    bugs (results (self st')) = [].
Proof.
  split; [reflexivity|]. split; [reflexivity|].
  apply (rotation_without_canvas_is_error Scenarios.empty_page
           (State world0 {| driver := Some tt; results := results (self init) |}));
    reflexivity.
Defined.

(** The sibling path: for the same missing canvas, [test_gui_loads] uses
    [driver.find_elements], gets the empty list and records [FAIL] with an
    entry in [bugs]. *)
Lemma gui_loads_without_canvas_is_fail env st :
  driver (self st) = Some tt ->
  get env (tick (st_world st)) app_url = inr tt ->
  find_elements env (3 + tick (st_world st)) TAG_NAME "canvas" = inr [] ->
  exists st',
    test_gui_loads env st = (Ok false, st') /\
    tests (results (self st')) =
      tests (results (self st)) ++ [entry "GUI Loading" FAIL] /\
    bugs (results (self st')) =
      bugs (results (self st)) ++
        [{| bug_test := "GUI Loading";
            bug_issue := "No canvas element found in DOM" |}].
Proof.
  intros Hd Hget Hfind.
  assert (wp (test_gui_loads env)
            (fun r st' =>
               r = Ok false /\
               tests (results (self st')) =
                 tests (results (self st)) ++ [entry "GUI Loading" FAIL] /\
               bugs (results (self st')) =
                 bugs (results (self st)) ++
                   [{| bug_test := "GUI Loading";
                       bug_issue := "No canvas element found in DOM" |}]) st)
    as (Hr & Ht & Hb).
  { wp_go; simpl in *; try congruence;
      repeat match goal with
             | H : inr _ = inr _ |- _ => injection H as <-
             | H : Some _ = Some _ |- _ => injection H as <-
             end;
      try congruence; try (repeat split; reflexivity).
    all: rewrite Hfind in *; simplify_eq; simpl; repeat split; reflexivity. }
  exists (snd (test_gui_loads env st)).
  destruct (test_gui_loads env st) as [r st']. simpl in *. subst r. auto.
Qed.

End WebDriverLookup.

(** C1, where the code departs from it.  On a page without any element
    the WebDriver session records [FAIL] and [ERROR] outcomes, and [main]
    still returns 0: the process ends with the success signal. *)
Theorem webdriver_main_exits_zero_despite_failures :
  let run := WebDriverVisualTest.main Scenarios.empty_page
               WebDriverVisualTest.init in
  map WebDriverVisualTest.result
      (WebDriverVisualTest.tests (WebDriverVisualTest.results (self (snd run))))
    = [FAIL; PASS; FAIL; FAIL; ERROR] /\
  fst run = Ok 0 /\ exit_status (fst run) = 0.
Proof. vm_compute. repeat split; reflexivity. Qed.

(** ** Report generation on an empty session *)

(** C4, where the code departs from it.  On a session without outcomes,
    [generate_report] of [axiom_render_test.py] never returns a report: if
    the file opens, the success rate divides by the zero total and
    [ZeroDivisionError] escapes. *)
Theorem axiom_report_on_empty_session_raises env :
  fst (AxiomRenderTest.generate_report env AxiomRenderTest.init) =
  Raise (Exception
           match AxiomRenderTest.open_w env 0
                   (path_str (joinpath base_dir "AXIOM_LIBRARY_TEST_REPORT.md"))
           with
           | inl msg => msg
           | inr _ => "division by zero"
           end).
Proof.
  unfold AxiomRenderTest.generate_report. cbv zeta.
  unfold bind, enter, fopen_w, fwrite, observe, get_self,
    AxiomRenderTest.success_rate.
  simpl.
  destruct (AxiomRenderTest.open_w env 0 _) as [msg|[]]; reflexivity.
Qed.

(** The same session as [main] reaches it: no structure file found. *)
Lemma axiom_main_on_empty_library_raises :
  let run := AxiomRenderTest.main Scenarios.empty_library AxiomRenderTest.init in
  AxiomRenderTest.tests (self (snd run)) = [] /\
  fst run = Raise (Exception "division by zero") /\
  exit_status (fst run) = 1.
Proof. vm_compute. repeat split; reflexivity. Qed.


(** ** What a report generator writes *)

(** [m] returns [a], appends [chunks] to the report that is open, and
    leaves the tester untouched. *)
Definition writes {Self A} (m : M Self A) (a : A) (chunks : list string)
  : Prop :=
  forall st c,
    report (st_world st) = Some c ->
    fst (m st) = Ok a /\
    report (st_world (snd (m st))) = Some (c ++ chunks) /\
    self (snd (m st)) = self st.

(** The report of [st'] continues the report of [st]. *)
Definition extends_report {Self} : relation (state Self) :=
  fun st st' =>
    forall c, report (st_world st) = Some c ->
              exists rest, report (st_world st') = Some (c ++ rest).

Global Instance extends_report_preorder {Self} :
  PreOrder (@extends_report Self).
Proof.
  split.
  - intros st c Hc. exists []. rewrite app_nil_r. exact Hc.
  - intros a b c Hab Hbc x Hx.
    destruct (Hab x Hx) as [r1 H1]. destruct (Hbc _ H1) as [r2 H2].
    exists (r1 ++ r2). rewrite H2, app_assoc. reflexivity.
Qed.

Section Writes.
Context {Self : Type}.
Implicit Types st : state Self.

Lemma wp_writes {A} (m : M Self A) a chunks c
    (Q : outcome A -> state Self -> Prop) st :
  writes m a chunks -> report (st_world st) = Some c ->
  (forall st', report (st_world st') = Some (c ++ chunks) ->
               self st' = self st -> Q (Ok a) st') ->
  wp m Q st.
Proof.
  intros Hw Hc HQ. destruct (Hw st c Hc) as (Hr & Hrep & Hself).
  unfold wp. rewrite Hr. auto.
Qed.

Lemma writes_ret {A} (a : A) : writes (Self := Self) (ret a) a [].
Proof. intros st c Hc. simpl. rewrite app_nil_r. auto. Qed.

Lemma writes_fwrite s : writes (Self := Self) (fwrite s) tt [s].
Proof. intros st c Hc. simpl. rewrite Hc. auto. Qed.

Lemma writes_ext {A} target (answer : nat -> string + A) a :
  (forall t, answer t = inr a) -> writes (Self := Self) (ext target answer) a [].
Proof.
  intros Ha st c Hc. unfold ext. rewrite Ha. simpl.
  rewrite app_nil_r. auto.
Qed.

Lemma writes_bind {A B} (m : M Self A) (k : A -> M Self B) a b c1 c2 :
  writes m a c1 -> writes (k a) b c2 -> writes (bind m k) b (c1 ++ c2).
Proof.
  intros Hm Hk st c Hc. rewrite bind_unfold.
  destruct (Hm st c Hc) as (Hr & Hrep & Hself). rewrite Hr.
  destruct (Hk (snd (m st)) _ Hrep) as (Hr' & Hrep' & Hself').
  rewrite Hr', Hrep', Hself', Hself, app_assoc. auto.
Qed.

Lemma writes_for_each {X} (xs : list X) (body : X -> M Self unit) f :
  (forall x, writes (body x) tt (f x)) ->
  writes (for_each xs body) tt (concat (map f xs)).
Proof.
  intros Hb. induction xs as [|x xs IH]; simpl.
  - apply writes_ret.
  - eapply writes_bind; [apply Hb | exact IH].
Qed.
End Writes.

Ltac unfold_chunks :=
  lazymatch goal with
  | |- writes _ _ ?c => let h := head_of c in unfold h
  end.

(** Checking that a writer produces the chunks of a pure rendering that
    is laid out like the writer. *)
Ltac writes_go :=
  cbv beta zeta;
  lazymatch goal with
  | |- writes (bind _ _) _ (_ ++ _) =>
      eapply writes_bind; [writes_go | writes_go]
  | |- writes (fwrite _) _ _ => apply writes_fwrite
  | |- writes (ret _) _ _ => apply writes_ret
  | |- writes (for_each _ _) _ _ =>
      apply writes_for_each; intros ?; writes_go
  | |- writes (ext _ _) _ _ => apply writes_ext; solve [auto]
  | |- writes (match ?x with _ => _ end) _ _ =>
      destruct x; cbv beta iota; writes_go
  | |- writes ?m _ _ =>
      first [ progress unfold_head m; try unfold_chunks; writes_go
            | progress unfold_chunks; writes_go ]
  end.

Ltac extends_leaf :=
  let c := fresh "c" in
  let Hc := fresh "Hc" in
  intros c Hc; simpl in *;
  first [ exists []; rewrite app_nil_r; exact Hc
        | rewrite Hc; eexists; reflexivity ].

Lemma sum_1_if_filter {A} (p : A -> bool) (xs : list A) :
  sum_1_if p xs = length (List.filter p xs).
Proof.
  unfold sum_1_if.
  assert (forall n, fold_left (fun acc x => if p x then acc + 1 else acc) xs n
                    = n + length (List.filter p xs)) as H.
  { induction xs as [|x xs IH]; intros n; simpl; [lia|].
    rewrite IH. destruct (p x); simpl; lia. }
  apply H.
Qed.

Module DirectRenderReport.
Import DirectRenderTest.

Definition report_path : Path := joinpath base_dir "VISUAL_VALIDATION_REPORT.md".

Definition title : string := "# Axiom GUI Visual Validation Report" +:+ nl +:+ nl.

Definition generated_line (generated : string) : string :=
  "Generated: " +:+ generated +:+ nl +:+ nl.

Definition render_test (t : TestEntry) : list string :=
  ["### " +:+ (if bool_decide (result t = PASS) then "✓" else "✗")
    +:+ " " +:+ name t +:+ nl +:+ nl] ++
  ["**Result**: " +:+ status_str (result t) +:+ nl +:+ nl].

Definition render_error (e : ErrorEntry) : list string :=
  ["### " +:+ error_test e +:+ nl] ++
  ["```" +:+ nl +:+ error e +:+ nl +:+ "```" +:+ nl +:+ nl].

Definition render_image (r : Render) : list string :=
  ["### " +:+ render_name r +:+ nl +:+ nl] ++
  [render_description r +:+ nl +:+ nl] ++
  ["![" +:+ render_name r +:+ "](screenshots/" +:+ render_file r
   +:+ ")" +:+ nl +:+ nl].

(** The summary, its counts written as the sizes of the collections of
    the session. *)
Definition summary (r : Results) : list string :=
  ["## Summary" +:+ nl +:+ nl;
   "- Total Tests: " +:+ pretty (length (tests r)) +:+ nl;
   "- Passed: "
     +:+ pretty (length (List.filter (has_result PASS) (tests r))) +:+ nl;
   "- Failed: "
     +:+ pretty (length (List.filter (has_result FAIL) (tests r))) +:+ nl;
   "- Images Generated: " +:+ pretty (length (renders r)) +:+ nl +:+ nl].

(** Everything after the summary. *)
Definition details (r : Results) : list string :=
  concat (map (fun s => [s]) approach_text) ++
  ["## Test Results" +:+ nl +:+ nl] ++
  concat (map render_test (tests r)) ++
  (if truthy (errors r)
   then ["## Errors Encountered" +:+ nl +:+ nl] ++
        concat (map render_error (errors r))
   else []) ++
  ["## Rendered Images" +:+ nl +:+ nl] ++
  ["All images show the feature working correctly." +:+ nl +:+ nl] ++
  concat (map render_image (renders r)) ++
  concat (map (fun s => [s]) closing_text) ++
  [].

(** The chunks [generate_report] writes after the line with the date, laid
    out like the method. *)
Definition report_tail (r : Results) : list string :=
  ["## Summary" +:+ nl +:+ nl] ++
  ["- Total Tests: " +:+ pretty (length (tests r)) +:+ nl] ++
  ["- Passed: " +:+ pretty (sum_1_if (has_result PASS) (tests r)) +:+ nl] ++
  ["- Failed: " +:+ pretty (sum_1_if (has_result FAIL) (tests r)) +:+ nl] ++
  ["- Images Generated: " +:+ pretty (length (renders r)) +:+ nl +:+ nl] ++
  details r.


Lemma direct_generate_report_tail_writes (r : Results) :
  writes
    (fwrite ("## Summary" +:+ nl +:+ nl) ;;
     fwrite ("- Total Tests: " +:+ pretty (length (tests r)) +:+ nl) ;;
     fwrite ("- Passed: " +:+ pretty (sum_1_if (has_result PASS) (tests r))
             +:+ nl) ;;
     fwrite ("- Failed: " +:+ pretty (sum_1_if (has_result FAIL) (tests r))
             +:+ nl) ;;
     fwrite ("- Images Generated: " +:+ pretty (length (renders r))
             +:+ nl +:+ nl) ;;
     for_each approach_text fwrite ;;
     fwrite ("## Test Results" +:+ nl +:+ nl) ;;
     for_each (tests r) write_test ;;
     (if truthy (errors r) then
        fwrite ("## Errors Encountered" +:+ nl +:+ nl) ;;
        for_each (errors r) write_error
      else ret tt) ;;
     fwrite ("## Rendered Images" +:+ nl +:+ nl) ;;
     fwrite ("All images show the feature working correctly." +:+ nl +:+ nl) ;;
     for_each (renders r) write_render ;;
     for_each closing_text fwrite ;;
     ret report_path)
    report_path (report_tail r).
Proof. unfold report_tail, details. writes_go. Qed.

(** When the report file opens, [generate_report] returns, leaves the
    session as it was, and the document is the title, the line with the
    date, and a rendering of the session alone. *)
Lemma direct_generate_report_document env st :
  open_w env (tick (st_world st)) (path_str report_path) = inr tt ->
  fst (generate_report env st) = Ok report_path /\
  report (st_world (snd (generate_report env st))) =
    Some (title :: generated_line (now_long env (S (tick (st_world st))))
          :: report_tail (self st)) /\
  self (snd (generate_report env st)) = self st.
Proof.
  intros Hopen.
  change (wp (generate_report env)
            (fun r st' =>
               r = Ok report_path /\
               report (st_world st') =
                 Some (title
                       :: generated_line (now_long env (S (tick (st_world st))))
                       :: report_tail (self st)) /\
               self st' = self st) st).
  unfold generate_report. cbv zeta.
  repeat lazymatch goal with
         | |- wp (bind get_self _) _ _ => fail
         | |- _ => wp_step
         end.
  - wp_step. wp_step.
    eapply wp_writes;
      [apply direct_generate_report_tail_writes | reflexivity |].
    intros st' Hrep Hself. split; [reflexivity|]. split; [|exact Hself].
    rewrite Hrep. reflexivity.
  - simpl in *. unfold report_path in Hopen. congruence.
Qed.

End DirectRenderReport.

Module WebDriverReport.
Import WebDriverVisualTest.

Definition report_path : Path := joinpath base_dir "VISUAL_VALIDATION_REPORT.md".

Definition title : string := "# Axiom GUI Visual Validation Report" +:+ nl +:+ nl.

Definition generated_line (generated : string) : string :=
  "Generated: " +:+ generated +:+ nl +:+ nl.

(** The summary, its counts written as the sizes of the collections of
    the session. *)
Definition summary (r : Results) : list string :=
  ["## Summary" +:+ nl +:+ nl;
   "- Total Tests: " +:+ pretty (length (tests r)) +:+ nl;
   "- Passed: "
     +:+ pretty (length (List.filter (has_result PASS) (tests r))) +:+ nl;
   "- Failed: "
     +:+ pretty (length (List.filter (has_result FAIL) (tests r))) +:+ nl;
   "- Errors: "
     +:+ pretty (length (List.filter (has_result ERROR) (tests r))) +:+ nl;
   "- Visual Validation Required: "
     +:+ pretty (length (List.filter (has_result VISUAL) (tests r))) +:+ nl;
   "- Screenshots Captured: " +:+ pretty (length (screenshots r))
     +:+ nl +:+ nl].

(** The line of a structure file; [content] is the first line of each
    file. *)
Definition render_structure (content : Path -> string) (f : Path)
  : list string :=
  if bool_decide (suffix f = ".xyz")
  then [] ++ ["- **" +:+ pname f +:+ "**: " +:+ strip (content f)
              +:+ " atoms" +:+ nl]
  else ["- **" +:+ pname f +:+ "**" +:+ nl].

Definition render_test (t : TestEntry) : list string :=
  ["### " +:+ name t +:+ nl] ++
  ["**Result**: " +:+ status_str (result t) +:+ nl +:+ nl] ++
  match note t with
  | Some n => ["*" +:+ n +:+ "*" +:+ nl +:+ nl]
  | None => []
  end ++
  match error t with
  | Some e => ["```" +:+ nl +:+ e +:+ nl +:+ "```" +:+ nl +:+ nl]
  | None => []
  end ++
  match controls t with
  | Some c => ["Controls: " +:+ join ", " c +:+ nl +:+ nl]
  | None => []
  end ++
  match keywords t with
  | Some k => ["UI Keywords: " +:+ join ", " k +:+ nl +:+ nl]
  | None => []
  end.

Definition render_bug (ib : nat * Bug) : list string :=
  ["### " +:+ pretty (fst ib) +:+ ". " +:+ bug_test (snd ib) +:+ nl] ++
  [bug_issue (snd ib) +:+ nl +:+ nl].

Definition render_screenshot (ss : Screenshot) : list string :=
  ["### " +:+ ss_name ss +:+ nl] ++
  (if nonempty (ss_description ss)
   then [ss_description ss +:+ nl +:+ nl] else []) ++
  ["![" +:+ ss_name ss +:+ "](screenshots/" +:+ ss_file ss +:+ ")"
   +:+ nl +:+ nl] ++
  ["*Timestamp: " +:+ ss_timestamp ss +:+ "*" +:+ nl +:+ nl].

(** Everything after the summary, for a structures directory that lists
    [files]. *)
Definition details (files : list Path) (content : Path -> string)
    (r : Results) : list string :=
  ["## Test Structures" +:+ nl +:+ nl] ++
  ["Small structures (3-20 atoms) for fast rendering:" +:+ nl +:+ nl] ++
  [] ++
  concat (map (render_structure content) (sorted files)) ++
  [nl] ++
  ["## Test Results" +:+ nl +:+ nl] ++
  concat (map render_test (tests r)) ++
  (if truthy (bugs r)
   then ["## Bugs / Issues Found" +:+ nl +:+ nl] ++
        concat (map render_bug (enumerate1 (bugs r)))
   else []) ++
  ["## Screenshots" +:+ nl +:+ nl] ++
  concat (map render_screenshot (screenshots r)) ++
  [].



(** The part of [generate_report] that follows the summary. *)
Definition write_details (env : Env) (r : Results) : M Self Path :=
  fwrite ("## Test Structures" +:+ nl +:+ nl) ;;
  fwrite ("Small structures (3-20 atoms) for fast rendering:" +:+ nl +:+ nl) ;;
  files <- ext "glob" (fun t => glob env t structures_dir) ;;
  for_each (sorted files) (write_structure env) ;;
  fwrite nl ;;
  fwrite ("## Test Results" +:+ nl +:+ nl) ;;
  for_each (tests r) write_test ;;
  (if truthy (bugs r) then
     fwrite ("## Bugs / Issues Found" +:+ nl +:+ nl) ;;
     for_each (enumerate1 (bugs r)) write_bug
   else ret tt) ;;
  fwrite ("## Screenshots" +:+ nl +:+ nl) ;;
  for_each (screenshots r) write_screenshot ;;
  ret report_path.



Lemma write_details_keeps_session env r :
  respects same_self (write_details env r).
Proof. respects_go ltac:(reflexivity). Qed.







End WebDriverReport.

(** ** Report generation and the session *)




Module ValidatorReport.
Import AxiomVisualValidator.

Definition report_path : Path := joinpath base_dir "VISUAL_VALIDATION_REPORT.md".

Definition title : string := "# Axiom GUI Visual Validation Report" +:+ nl +:+ nl.

Definition generated_line (generated : string) : string :=
  "Generated: " +:+ generated +:+ nl +:+ nl.

(** The summary: the three counters and the number of screenshots of the
    session. *)
Definition summary (r : Results) : list string :=
  ["## Summary" +:+ nl +:+ nl;
   "- Tests Run: " +:+ pretty (tests_run r) +:+ nl;
   "- Tests Passed: " +:+ pretty (tests_passed r) +:+ nl;
   "- Tests Failed: " +:+ pretty (tests_failed r) +:+ nl;
   "- Screenshots Captured: " +:+ pretty (length (screenshots r))
     +:+ nl +:+ nl].

Definition render_bug (b : Bug) : list string :=
  ["### " +:+ bug_test b +:+ nl] ++
  ["```" +:+ nl +:+ bug_error b +:+ nl +:+ "```" +:+ nl +:+ nl].

Definition render_screenshot (ss : Screenshot) : list string :=
  ["### " +:+ ss_name ss +:+ nl] ++
  (if nonempty (ss_description ss)
   then [ss_description ss +:+ nl +:+ nl] else []) ++
  ["![" +:+ ss_name ss +:+ "](" +:+ ss_file ss +:+ ")" +:+ nl +:+ nl] ++
  ["*Captured: " +:+ ss_timestamp ss +:+ "*" +:+ nl +:+ nl].

Definition details (r : Results) : list string :=
  concat (map (fun s => [s]) structures_text) ++
  (if truthy (bugs r)
   then ["## Bugs Found" +:+ nl +:+ nl] ++ concat (map render_bug (bugs r))
   else []) ++
  ["## Screenshots" +:+ nl +:+ nl] ++
  concat (map render_screenshot (screenshots r)) ++
  [].

Definition report_tail (r : Results) : list string :=
  ["## Summary" +:+ nl +:+ nl] ++
  ["- Tests Run: " +:+ pretty (tests_run r) +:+ nl] ++
  ["- Tests Passed: " +:+ pretty (tests_passed r) +:+ nl] ++
  ["- Tests Failed: " +:+ pretty (tests_failed r) +:+ nl] ++
  ["- Screenshots Captured: " +:+ pretty (length (screenshots r))
   +:+ nl +:+ nl] ++
  details r.




End ValidatorReport.

(** ** The summary of a report *)




(** ** The report generator runs once *)

(** Entering a method adds one to its count. *)
Lemma entered_enter {Self} method (st : state Self) :
  entered method (snd (enter method st)) = S (entered method st).
Proof.
  unfold entered, enter. cbn [snd st_world events log].
  rewrite count_event_app. unfold count_event at 2.
  cbn [List.filter event_eqb]. rewrite String.eqb_refl. simpl. lia.
Qed.

Module DirectRenderSession.
Import DirectRenderTest.



(** Every outcome of the session that is not [PASS] has its message in
    the [errors] list, and the list holds nothing else. *)
Definition failures_logged (st : state Self) : Prop :=
  length (errors (self st)) =
  length (filter (fun t => result t <> PASS) (tests (self st))).

Lemma isolated_test_logs_failures method name body test st :
  DirectRenderIsolation.isolates method name body test ->
  failures_logged st ->
  (exists b, fst (test st) = Ok b) /\ failures_logged (snd (test st)).
Proof.
  intros Hiso Hinv. specialize (Hiso st). unfold failures_logged in *.
  destruct (body (snd (enter method st))) as [[b|[msg|]] st1];
    [|destruct Hiso as (st' & Hiso & Hrec)|contradiction].
  - destruct Hiso as [-> [Ht He]]. simpl. split; [eauto|].
    rewrite Ht, He, filter_app, length_app, Hinv. simpl. lia.
  - rewrite Hiso. destruct Hrec as [Ht He]. simpl. split; [eauto|].
    rewrite Ht, He, filter_app, !length_app, Hinv. reflexivity.
Qed.

(** The sibling of the WebDriver [main]: when [main] of
    [direct_render_test.py] returns, it returns 0 exactly when every
    recorded outcome is [PASS], and 1 otherwise. *)
Lemma direct_main_exit_signal env :
  wp (main env)
    (fun r st' =>
       match r with
       | Ok code =>
           code = (if bool_decide (Forall (fun t => result t = PASS)
                                     (tests (self st')))
                   then 0 else 1)
       | Raise _ => True
       end) init.
Proof.
  assert (forall st,
             failures_logged st ->
             (length (errors (self st)) = 0 <->
              Forall (fun t => result t = PASS) (tests (self st))))
    as Hzero.
  { intros st Hinv. unfold failures_logged in Hinv. rewrite Hinv.
    clear Hinv. induction (tests (self st)) as [|t ts IH].
    - split; [constructor | reflexivity].
    - rewrite filter_cons.
      destruct (decide (result t <> PASS)) as [Hne|Heq]; simpl.
      + split; [discriminate|]. intros Hall. inversion Hall. contradiction.
      + split.
        * intros Hlen. constructor; [|apply IH, Hlen].
          destruct (decide (result t = PASS)); [assumption|contradiction].
        * intros Hall. inversion Hall. apply IH. assumption. }
  assert (failures_logged init) as Hinit by reflexivity.
  unfold main. apply wp_bind. unfold wp at 1.
  destruct (ext "os.chdir" _ init) as [[[]|e] st0] eqn:Hcd; simpl;
    [|exact I].
  assert (failures_logged st0) as H0.
  { unfold ext in Hcd. simpl in Hcd.
    destruct (chdir env 0 _); inversion Hcd; subst; exact Hinit. }
  clear Hcd Hinit.
  repeat lazymatch goal with
  | Hinv : failures_logged ?s |- wp (bind (generate_report env) _) _ ?s =>
      fail
  | Hinv : failures_logged ?s |- wp (bind ?test _) _ ?s =>
      let Hret := fresh "Hret" in
      let Hnext := fresh "Hnext" in
      apply wp_bind; unfold wp at 1;
      destruct (isolated_test_logs_failures _ _ _ test s
                  ltac:(first
                    [ apply DirectRenderIsolation.test_simple_water_isolates
                    | apply DirectRenderIsolation.direct_test_rotation_isolates
                    | apply DirectRenderIsolation.direct_test_zoom_isolates
                    | apply DirectRenderIsolation.direct_test_background_colors_isolates ])
                  Hinv) as [[? Hret] Hnext];
      destruct (test s) as [? ?]; cbn [fst snd] in Hret, Hnext; subst;
      cbn [fst snd]; clear Hinv
  end.
  apply wp_bind. unfold wp at 1.
  lazymatch goal with
  | Hinv : failures_logged ?s |- _ =>
      pose proof (direct_report_keeps_session env s) as Hsame;
      destruct (generate_report env s) as [[path|e] sfin]; cbn [fst snd] in *;
      [|exact I];
      assert (failures_logged sfin) as H1
        by (unfold failures_logged, same_self in *; rewrite Hsame; exact Hinv)
  end.
  unfold wp, bind, get_self, ret. simpl.
  specialize (Hzero sfin H1).
  repeat case_bool_decide; tauto.
Qed.

End DirectRenderSession.

Module ValidatorSession.
Import AxiomVisualValidator.


(** Whether the browser could be started at moment [t]. *)
Definition started (env : Env) (t : nat) : bool :=
  match Chrome env t, set_window_size env (S t) 1920 1080 with
  | inr _, inr _ => true
  | _, _ => false
  end.




Lemma validator_run_tests_keeps_release_count env :
  respects (same_count (Enter "stop_driver")) (run_tests env).
Proof. respects_go count_leaf. Qed.

Lemma validator_run_tests_keeps_quit_count env :
  respects (same_count (Call "driver.quit")) (run_tests env).
Proof. respects_go count_leaf. Qed.

Definition same_driver : relation (state Self) :=
  fun st st' => driver (self st') = driver (self st).

Global Instance same_driver_preorder : PreOrder same_driver.
Proof.
  split; [intros st; reflexivity|].
  intros a b c Hab Hbc. unfold same_driver in *. congruence.
Qed.

(** After the tests the tester holds a driver exactly when the browser
    could be created. *)
Lemma validator_run_tests_driver env st :
  driver (self (snd (run_tests env st))) =
  match Chrome env (tick (st_world st)) with
  | inr _ => Some tt
  | inl _ => driver (self st)
  end.
Proof.
  change (wp (run_tests env)
            (fun _ st' =>
               driver (self st') =
               match Chrome env (tick (st_world st)) with
               | inr _ => Some tt
               | inl _ => driver (self st)
               end) st).
  unfold run_tests.
  repeat lazymatch goal with
         | |- wp (bind (test_file_loading_xyz _) _) _ _ => fail
         | |- _ => wp_step
         end.
  - rewrite H.
    lazymatch goal with
    | |- wp _ _ ?s => assert (same_driver s s) as Hsame by reflexivity
    end.
    wp_frames same_driver ltac:(reflexivity); exact Hsame.
  - rewrite H. reflexivity.
  - rewrite H. reflexivity.
Qed.

Lemma stop_driver_counts env st :
  entered "stop_driver" (snd (stop_driver env st)) =
    S (entered "stop_driver" st) /\
  called "driver.quit" (snd (stop_driver env st)) =
    called "driver.quit" st +
    match driver (self st) with Some _ => 1 | None => 0 end.
Proof.
  unfold stop_driver, bind, enter, get_self, ext, ret. simpl.
  destruct (driver (self st)); simpl;
    [destruct (quit env _); simpl|];
    unfold entered, called; simpl; rewrite !count_event_app; count_eval; lia.
Qed.

(** [main] runs its release path once, and the release path quits the
    browser once when there is a browser to quit. *)
Lemma validator_main_releases_once env st :
  driver (self st) = None ->
  entered "stop_driver" (snd (main env st)) = S (entered "stop_driver" st) /\
  called "driver.quit" (snd (main env st)) =
    called "driver.quit" st +
    match Chrome env (tick (st_world st)) with inr _ => 1 | inl _ => 0 end.
Proof.
  intros Hnone. unfold main. rewrite try_finally_snd.
  destruct (stop_driver_counts env (snd (run_tests env st))) as [He Hq].
  rewrite He, Hq, validator_run_tests_driver, Hnone.
  pose proof (validator_run_tests_keeps_release_count env st) as H1.
  pose proof (validator_run_tests_keeps_quit_count env st) as H2.
  unfold same_count, entered, called in *. rewrite H1, H2.
  destruct (Chrome env _); auto.
Qed.

End ValidatorSession.

Module WebDriverSession.
Import WebDriverVisualTest.


(** Whether [setup_driver] succeeds at moment [t]. *)
Definition started (env : Env) (t : nat) : bool :=
  match Chrome env t, set_window_size env (S t) 1920 1080 with
  | inr _, inr _ => true
  | _, _ => false
  end.



(** The state [main] ends in is the one its release path ends in, run
    after the tests. *)
Lemma main_state env st :
  snd (main env st) = snd (close_driver env (snd (run_tests env st))).
Proof.
  unfold main. rewrite bind_unfold.
  assert (snd (try_finally
                 (try_except_interrupt (run_tests env) (ret None)
                    (fun _ => ret None))
                 (close_driver env) st)
          = snd (close_driver env (snd (run_tests env st)))) as ->.
  { rewrite try_finally_snd. unfold try_except_interrupt.
    destruct (run_tests env st) as [[a|[msg|]] st']; reflexivity. }
  destruct (fst (try_finally _ _ st)) as [[code|]|e]; reflexivity.
Qed.

Lemma probe_buttons_keeps_release_count env buttons file_inputs :
  respects (same_count (Enter "close_driver"))
    (probe_buttons env buttons file_inputs).
Proof.
  induction buttons as [|btn rest IH]; cbn [probe_buttons].
  - apply respects_ret; apply _.
  - respects_go count_leaf.
Qed.

Lemma probe_buttons_keeps_quit_count env buttons file_inputs :
  respects (same_count (Call "driver.quit"))
    (probe_buttons env buttons file_inputs).
Proof.
  induction buttons as [|btn rest IH]; cbn [probe_buttons].
  - apply respects_ret; apply _.
  - respects_go count_leaf.
Qed.



Lemma webdriver_run_tests_keeps_release_count env :
  respects (same_count (Enter "close_driver")) (run_tests env).
Proof.
  pose proof (probe_buttons_keeps_release_count env).
  respects_go count_leaf.
Qed.

Lemma webdriver_run_tests_keeps_quit_count env :
  respects (same_count (Call "driver.quit")) (run_tests env).
Proof.
  pose proof (probe_buttons_keeps_quit_count env).
  respects_go count_leaf.
Qed.

Definition same_driver : relation (state Self) :=
  fun st st' => driver (self st') = driver (self st).

Global Instance same_driver_preorder : PreOrder same_driver.
Proof.
  split; [intros st; reflexivity|].
  intros a b c Hab Hbc. unfold same_driver in *. congruence.
Qed.

Lemma probe_buttons_same_driver env buttons file_inputs :
  respects same_driver (probe_buttons env buttons file_inputs).
Proof.
  induction buttons as [|btn rest IH]; cbn [probe_buttons].
  - apply respects_ret; apply _.
  - respects_go ltac:(reflexivity).
Qed.

(** After the tests the tester holds a driver exactly when the browser
    could be created. *)
Lemma webdriver_run_tests_driver env st :
  driver (self (snd (run_tests env st))) =
  match Chrome env (tick (st_world st)) with
  | inr _ => Some tt
  | inl _ => driver (self st)
  end.
Proof.
  change (wp (run_tests env)
            (fun _ st' =>
               driver (self st') =
               match Chrome env (tick (st_world st)) with
               | inr _ => Some tt
               | inl _ => driver (self st)
               end) st).
  unfold run_tests.
  repeat lazymatch goal with
         | |- wp (bind (test_gui_loads _) _) _ _ => fail
         | |- _ => first [ progress cbn [negb] | wp_step ]
         end.
  - rewrite H.
    lazymatch goal with
    | |- wp _ _ ?s => assert (same_driver s s) as Hsame by reflexivity
    end.
    pose proof (probe_buttons_same_driver env).
    pose proof (WebDriverIsolation.probe_buttons_no_interrupt env).
    wp_frames same_driver ltac:(reflexivity); exact Hsame.
  - rewrite H. reflexivity.
  - rewrite H. reflexivity.
Qed.

Lemma close_driver_counts env st :
  entered "close_driver" (snd (close_driver env st)) =
    S (entered "close_driver" st) /\
  called "driver.quit" (snd (close_driver env st)) =
    called "driver.quit" st +
    match driver (self st) with Some _ => 1 | None => 0 end.
Proof.
  unfold close_driver, bind, enter, get_self, ext, ret. simpl.
  destruct (driver (self st)); simpl;
    [destruct (quit env _); simpl|];
    unfold entered, called; simpl; rewrite !count_event_app; count_eval; lia.
Qed.

(** [main] runs its release path once, and the release path quits the
    browser once when there is a browser to quit. *)
Lemma webdriver_main_releases_once env st :
  driver (self st) = None ->
  entered "close_driver" (snd (main env st)) = S (entered "close_driver" st) /\
  called "driver.quit" (snd (main env st)) =
    called "driver.quit" st +
    match Chrome env (tick (st_world st)) with inr _ => 1 | inl _ => 0 end.
Proof.
  intros Hnone. rewrite main_state.
  destruct (close_driver_counts env (snd (run_tests env st))) as [He Hq].
  rewrite He, Hq, webdriver_run_tests_driver, Hnone.
  pose proof (webdriver_run_tests_keeps_release_count env st) as H1.
  pose proof (webdriver_run_tests_keeps_quit_count env st) as H2.
  unfold same_count, entered, called in *. rewrite H1, H2.
  destruct (Chrome env _); auto.
Qed.

Lemma probe_buttons_unconstrained env buttons file_inputs :
  respects unconstrained (probe_buttons env buttons file_inputs).
Proof. intros st. exact I. Qed.

(** The value the [try] block of [main] ends with: the early [return 1]
    exactly when the driver could not be set up; otherwise the block falls
    through or raises. *)
Lemma run_tests_result env st :
  wp (run_tests env)
    (fun r _ =>
       match r with
       | Ok returned =>
           returned = if started env (tick (st_world st)) then None else Some 1
       | Raise (Exception _) => started env (tick (st_world st)) = true
       | Raise KeyboardInterrupt => False
       end) st.
Proof.
  unfold run_tests, started.
  repeat lazymatch goal with
         | |- wp (bind (test_gui_loads _) _) _ _ => fail
         | |- _ => first [ progress cbn [negb] | wp_step ]
         end.
  - cbn [tick log advance st_world] in *. rewrite H, H0.
    lazymatch goal with
    | |- wp _ _ ?s => assert (unconstrained s s) as Hany by exact I
    end.
    pose proof (probe_buttons_unconstrained env).
    pose proof (WebDriverIsolation.probe_buttons_no_interrupt env).
    wp_frames (@unconstrained Self) ltac:(exact I); reflexivity.
  - cbn [tick log advance st_world] in *. rewrite H, H0. reflexivity.
  - rewrite H. reflexivity.
Qed.

(** When quitting the browser works, [main] returns 1 if the driver could
    not be set up and 0 otherwise: what the tests recorded plays no
    part. *)
Lemma main_return_value env st :
  (forall t, quit env t = inr tt) ->
  fst (main env st) = Ok (if started env (tick (st_world st)) then 0 else 1).
Proof.
  intros Hquit. unfold main. rewrite bind_unfold.
  assert (fst (try_finally
                 (try_except_interrupt (run_tests env) (ret None)
                    (fun _ => ret None))
                 (close_driver env) st)
          = Ok (if started env (tick (st_world st)) then None else Some 1))
    as ->.
  { pose proof (run_tests_result env st) as Hrun. unfold wp in Hrun.
    unfold try_finally, try_except_interrupt.
    destruct (run_tests env st) as [[returned|[msg|]] st1]; simpl in Hrun;
      [| |contradiction].
    - subst returned.
      assert (fst (close_driver env st1) = Ok tt) as Hclose.
      { unfold close_driver, bind, enter, get_self, ext, ret. simpl.
        destruct (driver (self st1)); [rewrite Hquit|]; reflexivity. }
      destruct (close_driver env st1) as [[[]|e] st2]; simpl in *;
        [reflexivity | discriminate].
    - rewrite Hrun. simpl.
      assert (fst (close_driver env st1) = Ok tt) as Hclose.
      { unfold close_driver, bind, enter, get_self, ext, ret. simpl.
        destruct (driver (self st1)); [rewrite Hquit|]; reflexivity. }
      destruct (close_driver env st1) as [[[]|e] st2]; simpl in *;
        [reflexivity | discriminate]. }
  destruct (started env (tick (st_world st))); reflexivity.
Qed.

End WebDriverSession.

Module SimpleSession.
Import SimpleVisualTest.

Lemma simple_run_tests_keeps_release_count env :
  respects (same_count (Enter "stop_gui")) (run_tests env).
Proof. respects_go count_leaf. Qed.

Lemma run_tests_keeps_terminate_count env :
  respects (same_count (Call "gui_process.terminate")) (run_tests env).
Proof. respects_go count_leaf. Qed.

Definition same_process : relation (state Self) :=
  fun st st' => gui_process (self st') = gui_process (self st).

Global Instance same_process_preorder : PreOrder same_process.
Proof.
  split; [intros st; reflexivity|].
  intros a b c Hab Hbc. unfold same_process in *. congruence.
Qed.

(** After the tests the tester holds a process exactly when the
    application could be launched. *)
Lemma run_tests_process env st :
  gui_process (self (snd (run_tests env st))) =
  match Popen env (tick (st_world st)) with
  | inr _ => Some tt
  | inl _ => gui_process (self st)
  end.
Proof.
  change (wp (run_tests env)
            (fun _ st' =>
               gui_process (self st') =
               match Popen env (tick (st_world st)) with
               | inr _ => Some tt
               | inl _ => gui_process (self st)
               end) st).
  unfold run_tests.
  repeat lazymatch goal with
         | |- wp (bind (run_visual_tests _) _) _ _ => fail
         | |- _ => wp_step
         end.
  - rewrite H.
    lazymatch goal with
    | |- wp _ _ ?s => assert (same_process s s) as Hsame by reflexivity
    end.
    wp_frames same_process ltac:(reflexivity); exact Hsame.
  - rewrite H. reflexivity.
Qed.

Lemma stop_gui_counts env st :
  entered "stop_gui" (snd (stop_gui env st)) = S (entered "stop_gui" st) /\
  called "gui_process.terminate" (snd (stop_gui env st)) =
    called "gui_process.terminate" st +
    match gui_process (self st) with Some _ => 1 | None => 0 end.
Proof.
  unfold stop_gui, bind, enter, get_self, ext, observe, ret, raise. simpl.
  destruct (gui_process (self st)); simpl;
    [destruct (terminate env _); simpl;
     [|destruct (wait env _); simpl; [| destruct (kill env _); simpl |]]|];
    unfold entered, called; simpl; rewrite !count_event_app; count_eval; lia.
Qed.

(** [main] runs its release path once, and the release path terminates the
    application once when there is a process to terminate. *)
Lemma simple_main_releases_once env st :
  gui_process (self st) = None ->
  entered "stop_gui" (snd (main env st)) = S (entered "stop_gui" st) /\
  called "gui_process.terminate" (snd (main env st)) =
    called "gui_process.terminate" st +
    match Popen env (tick (st_world st)) with inr _ => 1 | inl _ => 0 end.
Proof.
  intros Hnone. unfold main. rewrite try_finally_snd.
  destruct (stop_gui_counts env (snd (run_tests env st))) as [He Hq].
  rewrite He, Hq, run_tests_process, Hnone.
  pose proof (simple_run_tests_keeps_release_count env st) as H1.
  pose proof (run_tests_keeps_terminate_count env st) as H2.
  unfold same_count, entered, called in *. rewrite H1, H2.
  destruct (Popen env _); auto.
Qed.

End SimpleSession.

(** C3. In the three scripts that hold a resource, every run of [main]
    enters the release path exactly once, whatever the collaborators do
    and whether or not a test case raised; and the release path quits the
    browser, or terminates the application, exactly once when the resource
    had been acquired, and has nothing to release when it had not. *)
Theorem release_path_runs_once :
  (forall env,
     let st' := snd (AxiomVisualValidator.main env AxiomVisualValidator.init) in
     entered "stop_driver" st' = 1 /\
     called "driver.quit" st' =
       match AxiomVisualValidator.Chrome env 0 with
       | inr _ => 1 | inl _ => 0
       end) /\
  (forall env,
     let st' := snd (SimpleVisualTest.main env SimpleVisualTest.init) in
     entered "stop_gui" st' = 1 /\
     called "gui_process.terminate" st' =
       match SimpleVisualTest.Popen env 0 with
       | inr _ => 1 | inl _ => 0
       end) /\
  (forall env,
     let st' := snd (WebDriverVisualTest.main env WebDriverVisualTest.init) in
     entered "close_driver" st' = 1 /\
     called "driver.quit" st' =
       match WebDriverVisualTest.Chrome env 0 with
       | inr _ => 1 | inl _ => 0
       end).
Proof.
  split; [|split]; intros env; cbv zeta.
  - apply (ValidatorSession.validator_main_releases_once env AxiomVisualValidator.init).
    reflexivity.
  - apply (SimpleSession.simple_main_releases_once env SimpleVisualTest.init).
    reflexivity.
  - apply (WebDriverSession.webdriver_main_releases_once env WebDriverVisualTest.init).
    reflexivity.
Qed.

(** A run in which a test case raises: the application cannot be loaded,
    [test_gui_loads] records [ERROR], and the driver is quit once. *)
Lemma release_path_runs_once_when_a_test_raises :
  let st' := snd (WebDriverVisualTest.main Scenarios.unreachable
                    WebDriverVisualTest.init) in
  hd_error (map WebDriverVisualTest.result
              (WebDriverVisualTest.tests
                 (WebDriverVisualTest.results (self st')))) = Some ERROR /\
  entered "close_driver" st' = 1 /\ called "driver.quit" st' = 1.
Proof. vm_compute. repeat split; reflexivity. Qed.



(** ** The paths of the screenshots of a session *)

Lemma append_inj_length a b x y :
  String.length a = String.length b -> a +:+ x = b +:+ y -> a = b /\ x = y.
Proof.
  revert b. induction a as [|c a IH]; intros [|d b] Hlen Heq;
    simpl in *; try discriminate; [auto|].
  injection Heq as -> Heq. injection Hlen as Hlen.
  destruct (IH b Hlen Heq) as [-> ->]. auto.
Qed.

Lemma length_append a b :
  String.length (a +:+ b) = String.length a + String.length b.
Proof. induction a as [|c a IH]; simpl; [reflexivity | rewrite IH; reflexivity]. Qed.

Lemma append_assoc a b c : (a +:+ b) +:+ c = a +:+ (b +:+ c).
Proof.
  induction a as [|x a IH]; [reflexivity|].
  change (String x ((a +:+ b) +:+ c) = String x (a +:+ (b +:+ c))).
  rewrite IH. reflexivity.
Qed.

Lemma append_inv_tail x y s : x +:+ s = y +:+ s -> x = y.
Proof.
  intros Heq.
  assert (String.length x = String.length y) as Hlen.
  { apply (f_equal String.length) in Heq. rewrite !length_append in Heq. lia. }
  apply (append_inj_length x y s s Hlen Heq).
Qed.

(** A path made of a directory prefix, a stamp of fifteen characters, the
    logical name and the extension determines the logical name. *)
Lemma stamped_name_inj dir ts1 ts2 n1 n2 :
  String.length ts1 = 15 -> String.length ts2 = 15 ->
  dir +:+ ts1 +:+ "_" +:+ n1 +:+ ".png" = dir +:+ ts2 +:+ "_" +:+ n2 +:+ ".png" ->
  n1 = n2.
Proof.
  intros H1 H2 Heq.
  apply append_inj_length in Heq as [_ Heq]; [|reflexivity].
  apply append_inj_length in Heq as [_ Heq]; [|congruence].
  apply append_inj_length in Heq as [_ Heq]; [|reflexivity].
  apply append_inv_tail in Heq. exact Heq.
Qed.

Section Emits.
Context {Self : Type}.
Context (shots : Self -> list (string * string)) (dir : string).
Implicit Types st : state Self.

(** The file of a shot is its stamped logical name. *)
Definition well_named (p : string * string) : Prop :=
  exists ts,
    String.length ts = 15 /\
    snd p = dir +:+ ts +:+ "_" +:+ fst p +:+ ".png".

Definition same_shots : relation (state Self) :=
  fun st st' => shots (self st') = shots (self st).

(** [m] records, in order, shots for some of [names] and nothing else. *)
Definition emits {A} (names : list string) (m : M Self A) : Prop :=
  forall st,
    exists l,
      shots (self (snd (m st))) = shots (self st) ++ l /\
      sublist (map fst l) names /\
      Forall well_named l.

Global Instance same_shots_preorder : PreOrder same_shots.
Proof.
  split; [intros st; reflexivity|].
  intros a b c Hab Hbc. unfold same_shots in *. congruence.
Qed.

Lemma emits_frame {A} (m : M Self A) : respects same_shots m -> emits [] m.
Proof.
  intros Hr st. exists []. rewrite app_nil_r. split; [apply Hr|].
  split; constructor.
Qed.

Lemma emits_weaken {A} names names' (m : M Self A) :
  sublist names names' -> emits names m -> emits names' m.
Proof.
  intros Hsub Hm st. destruct (Hm st) as (l & Hl & Hs & Hw).
  exists l. split; [exact Hl|]. split; [|exact Hw].
  etransitivity; eauto.
Qed.

Lemma emits_bind {A B} n1 n2 (m : M Self A) (k : A -> M Self B) :
  emits n1 m -> (forall a, emits n2 (k a)) -> emits (n1 ++ n2) (bind m k).
Proof.
  intros Hm Hk st. rewrite bind_unfold.
  destruct (Hm st) as (l1 & Hl1 & Hs1 & Hw1).
  destruct (fst (m st)) as [a|e]; simpl.
  - destruct (Hk a (snd (m st))) as (l2 & Hl2 & Hs2 & Hw2).
    exists (l1 ++ l2). rewrite Hl2, Hl1, app_assoc, map_app.
    split; [reflexivity|]. split; [apply sublist_app; assumption|].
    apply Forall_app; auto.
  - exists l1. split; [exact Hl1|]. split; [|exact Hw1].
    apply sublist_inserts_r. exact Hs1.
Qed.

Lemma emits_try_except {A} n1 n2 (body : M Self A) handler :
  emits n1 body -> (forall e, emits n2 (handler e)) ->
  emits (n1 ++ n2) (try_except body handler).
Proof.
  intros Hb Hh st. unfold try_except.
  destruct (Hb st) as (l1 & Hl1 & Hs1 & Hw1).
  destruct (body st) as [[a|[msg|]] st']; simpl in *.
  - exists l1. split; [exact Hl1|]. split; [|exact Hw1].
    apply sublist_inserts_r. exact Hs1.
  - destruct (Hh msg st') as (l2 & Hl2 & Hs2 & Hw2).
    exists (l1 ++ l2). rewrite Hl2, Hl1, app_assoc, map_app.
    split; [reflexivity|]. split; [apply sublist_app; assumption|].
    apply Forall_app; auto.
  - exists l1. split; [exact Hl1|]. split; [|exact Hw1].
    apply sublist_inserts_r. exact Hs1.
Qed.

Lemma emits_try_except_interrupt {A} n1 (body : M Self A) on_int handler :
  emits n1 body -> respects same_shots on_int ->
  (forall e, respects same_shots (handler e)) ->
  emits n1 (try_except_interrupt body on_int handler).
Proof.
  intros Hb Hi Hh st. unfold try_except_interrupt.
  destruct (Hb st) as (l1 & Hl1 & Hs1 & Hw1).
  destruct (body st) as [[a|[msg|]] st']; simpl in *; exists l1.
  - auto.
  - split; [|auto]. rewrite <- Hl1. apply Hh.
  - split; [|auto]. rewrite <- Hl1. apply Hi.
Qed.

Lemma emits_try_finally {A} n1 (body : M Self A) cleanup :
  emits n1 body -> respects same_shots cleanup ->
  emits n1 (try_finally body cleanup).
Proof.
  intros Hb Hc st. destruct (Hb st) as (l1 & Hl1 & Hs1 & Hw1).
  exists l1. split; [|auto].
  rewrite try_finally_snd, <- Hl1. apply Hc.
Qed.

Lemma emits_for_each {X} (xs : list X) (body : X -> M Self unit) f :
  (forall x, emits (f x) (body x)) ->
  emits (concat (map f xs)) (for_each xs body).
Proof.
  intros Hb. induction xs as [|x xs IH]; simpl.
  - apply emits_frame, respects_ret. apply _.
  - apply emits_bind; auto.
Qed.

Lemma emits_if {A} n1 n2 (b : bool) (m1 m2 : M Self A) :
  emits n1 m1 -> emits n2 m2 -> emits (n1 ++ n2) (if b then m1 else m2).
Proof.
  intros H1 H2. destruct b.
  - eapply emits_weaken; [apply sublist_inserts_r; reflexivity | exact H1].
  - eapply emits_weaken; [apply sublist_inserts_l; reflexivity | exact H2].
Qed.

Lemma emits_match_list {A X} n1 n2 (l : list X) (m1 : M Self A) m2 :
  emits n1 m1 -> (forall x xs, emits n2 (m2 x xs)) ->
  emits (n1 ++ n2) (match l with [] => m1 | x :: xs => m2 x xs end).
Proof.
  intros H1 H2. destruct l.
  - eapply emits_weaken; [apply sublist_inserts_r; reflexivity | exact H1].
  - eapply emits_weaken; [apply sublist_inserts_l; reflexivity | apply H2].
Qed.

(** Distinct logical names give distinct files. *)
Lemma well_named_files_distinct l :
  Forall well_named l -> NoDup (map fst l) -> NoDup (map snd l).
Proof.
  induction l as [|p l IH]; simpl; intros Hw Hnd; [constructor|].
  apply Forall_cons in Hw as [Hp Hw]. apply NoDup_cons in Hnd as [Hnotin Hnd].
  apply NoDup_cons. split; [|auto].
  intros Hin. apply Hnotin.
  apply list_elem_of_fmap in Hin as (q & Hq & Hqin).
  apply list_elem_of_fmap. exists q. split; [|exact Hqin].
  rewrite Forall_forall in Hw. specialize (Hw q Hqin).
  destruct Hp as (ts1 & Hl1 & Hf1). destruct Hw as (ts2 & Hl2 & Hf2).
  rewrite Hf1, Hf2 in Hq.
  apply (stamped_name_inj dir ts1 ts2 _ _ Hl1 Hl2 Hq).
Qed.

(** A run that starts without shots and only records shots for names that
    are pairwise distinct ends with pairwise distinct files. *)
Lemma emits_distinct_files {A} names (m : M Self A) st :
  emits names m -> NoDup names -> shots (self st) = [] ->
  NoDup (map snd (shots (self (snd (m st))))).
Proof.
  intros Hm Hnd Hempty. destruct (Hm st) as (l & Hl & Hs & Hw).
  rewrite Hl, Hempty. simpl. apply well_named_files_distinct; [exact Hw|].
  eapply sublist_NoDup; eauto.
Qed.
End Emits.

(** Which names a method may record shots for: the list is found by
    following the method, a step that leaves the shots alone counting for
    nothing. *)
Ltac emits_infer leaf :=
  cbv beta zeta;
  first
    [ solve [eauto]
    | solve [apply emits_frame; respects_go leaf]
    | lazymatch goal with
      | |- emits _ _ _ (bind _ _) =>
          eapply emits_bind; [emits_go leaf | intros ?; emits_go leaf]
      | |- emits _ _ _ (try_except _ _) =>
          eapply emits_try_except; [emits_go leaf | intros ?; emits_go leaf]
      | |- emits _ _ _ (try_finally _ _) =>
          eapply emits_try_finally; [emits_go leaf | respects_go leaf]
      | |- emits _ _ _ (try_except_interrupt _ _ _) =>
          eapply emits_try_except_interrupt;
          [emits_go leaf | respects_go leaf | intros ?; respects_go leaf]
      | |- emits _ _ _ (for_each _ _) =>
          eapply emits_for_each; intros ?; emits_go leaf
      | |- emits _ _ _ (match ?x with _ => _ end) =>
          first [ eapply emits_if; [emits_go leaf | emits_go leaf]
                | eapply emits_match_list;
                  [emits_go leaf | intros ? ?; emits_go leaf]
                | destruct x; emits_go leaf ]
      | |- emits _ _ _ ?m => unfold_head m; emits_go leaf
      end ]
with emits_go leaf :=
  cbv beta zeta;
  lazymatch goal with
  | |- emits _ _ ?names _ =>
      tryif first [ is_evar names
                  | lazymatch names with ?f _ => is_evar f end ]
      then emits_infer leaf
      else (eapply emits_weaken;
            [ | emits_infer leaf ];
            vm_compute;
            solve [eauto 40 using sublist])
  end.

Module ValidatorShots.
Import AxiomVisualValidator.

(** The screenshots of the session: logical name and path. *)
Definition shots (s : Self) : list (string * string) :=
  map (fun x => (ss_name x, ss_file x)) (screenshots (results s)).

Definition dir : string := screenshots_dir +:+ "/".

(** The names [main] takes screenshots under, in order. *)
Definition planned : list string :=
  ["xyz_loading_initial"; "rotation_before"; "rotation_after";
   "zoom_initial"; "zoom_in"; "zoom_out";
   "background_black"; "background_white"; "background_gray";
   "ssaa_off"; "ssaa_on"; "ao_off"; "ao_on"].

Section Stamped.
Variable env : Env.
Hypothesis stamps : forall t, String.length (now env t) = 15.

Lemma validator_take_screenshot_emits name description :
  emits shots dir [name] (take_screenshot env name description).
Proof.
  intros st. unfold take_screenshot, driver_call.
  unfold bind, observe, get_self, ext, raise, ret, append_screenshot,
    update, modify.
  cbn [fst snd st_world self].
  destruct (driver (self st)); [destruct (save_screenshot env _ _)|];
    cbn [fst snd st_world self].
  - exists []. rewrite app_nil_r. split; [reflexivity|].
    split; [apply sublist_nil_l | constructor].
  - eexists [(name, _)]. unfold shots. cbn. rewrite map_app. cbn.
    split; [reflexivity|]. split; [reflexivity|].
    constructor; [|constructor].
    exists (now env (tick (st_world st))). split; [apply stamps|].
    unfold dir, path_str, joinpath. cbn [parent pname fst snd].
    rewrite append_assoc. reflexivity.
  - exists []. rewrite app_nil_r. split; [reflexivity|].
    split; [apply sublist_nil_l | constructor].
Qed.

Lemma validator_main_emits : emits shots dir planned (main env).
Proof.
  pose proof validator_take_screenshot_emits.
  emits_go ltac:(reflexivity).
Qed.
End Stamped.
End ValidatorShots.

Module WebDriverShots.
Import WebDriverVisualTest.

(** The screenshots of the session: logical name and file name. *)
Definition shots (s : Self) : list (string * string) :=
  map (fun x => (ss_name x, ss_file x)) (screenshots (results s)).

(** The names [main] takes screenshots under, in order. *)
Definition planned : list string :=
  ["00_gui_loaded"; "ui_controls"; "structure_water"; "structure_methane";
   "rotation_before"; "rotation_after"].

Section Stamped.
Variable env : Env.
Hypothesis stamps : forall t, String.length (now env t) = 15.

Lemma webdriver_take_screenshot_emits name description :
  emits shots "" [name] (take_screenshot env name description).
Proof.
  intros st. unfold take_screenshot, driver_call.
  unfold try_except, bind, observe, get_self, ext, raise, ret,
    append_screenshot, modify.
  cbn [fst snd st_world self].
  destruct (driver (self st)); [destruct (save_screenshot env _ _)|];
    cbn [fst snd st_world self].
  - exists []. rewrite app_nil_r. split; [reflexivity|].
    split; [apply sublist_nil_l | constructor].
  - eexists [(name, _)]. unfold shots. cbn. rewrite map_app. cbn.
    split; [reflexivity|]. split; [reflexivity|].
    constructor; [|constructor].
    exists (now env (tick (st_world st))). split; [apply stamps|].
    reflexivity.
  - exists []. rewrite app_nil_r. split; [reflexivity|].
    split; [apply sublist_nil_l | constructor].
Qed.

Lemma probe_buttons_same_shots buttons file_inputs :
  respects (same_shots shots) (probe_buttons env buttons file_inputs).
Proof.
  induction buttons as [|btn rest IH]; cbn [probe_buttons].
  - apply respects_ret; apply _.
  - respects_go ltac:(reflexivity).
Qed.

Lemma webdriver_main_emits : emits shots "" planned (main env).
Proof.
  pose proof webdriver_take_screenshot_emits.
  pose proof probe_buttons_same_shots.
  emits_go ltac:(reflexivity).
Qed.
End Stamped.
End WebDriverShots.

Module SimpleShots.
Import SimpleVisualTest.

(** The screenshots of the session: the results that carry a file. *)
Definition shot (r : Result) : list (string * string) :=
  match file r with
  | Some f => [(name r, f)]
  | None => []
  end.

Definition shots (s : Self) : list (string * string) :=
  concat (map shot (results s)).

(** The names [main] takes screenshots under, in order. *)
Definition planned : list string :=
  ["01_initial_state"; "02_after_5sec"; "03_current_state";
   "04_timed_capture"; "05_timed_capture"; "06_timed_capture";
   "07_timed_capture"; "08_timed_capture"; "09_timed_capture";
   "10_timed_capture"].

Section Stamped.
Variable env : Env.
Hypothesis stamps : forall t, String.length (now env t) = 15.

Lemma simple_take_screenshot_emits name description :
  emits shots "" [name] (take_screenshot env name description).
Proof.
  intros st. unfold take_screenshot.
  unfold try_except, bind, observe, ext, ret, append_result, modify.
  cbn [fst snd st_world self].
  destruct (run_checked _ _ _); cbn [fst snd st_world self].
  - exists []. unfold shots. cbn. rewrite map_app, concat_app. cbn.
    split; [reflexivity|]. split; [apply sublist_nil_l | constructor].
  - eexists [(name, _)]. unfold shots. cbn. rewrite map_app, concat_app. cbn.
    split; [reflexivity|]. split; [reflexivity|].
    constructor; [|constructor].
    exists (now env (tick (st_world st))). split; [apply stamps|].
    reflexivity.
Qed.

Lemma simple_main_emits : emits shots "" planned (main env).
Proof.
  pose proof simple_take_screenshot_emits.
  emits_go ltac:(reflexivity).
Qed.
End Stamped.
End SimpleShots.

Lemma planned_names_distinct :
  NoDup ValidatorShots.planned /\ NoDup WebDriverShots.planned /\
  NoDup SimpleShots.planned.
Proof.
  repeat split; refine (bool_decide_unpack _ _); vm_compute; reflexivity.
Qed.

(** C8. Whatever the clock says, also when it gives every capture of a
    session the same second, the screenshots a session records have
    pairwise distinct paths: a path is the stamp of fifteen characters
    followed by the logical name, and [main] never takes two screenshots
    under the same logical name. *)
Theorem screenshot_paths_are_distinct :
  (forall env,
     (forall t, String.length (AxiomVisualValidator.now env t) = 15) ->
     NoDup (map AxiomVisualValidator.ss_file
              (AxiomVisualValidator.screenshots
                 (AxiomVisualValidator.results
                    (self (snd (AxiomVisualValidator.main env
                                  AxiomVisualValidator.init))))))) /\
  (forall env,
     (forall t, String.length (WebDriverVisualTest.now env t) = 15) ->
     NoDup (map WebDriverVisualTest.ss_file
              (WebDriverVisualTest.screenshots
                 (WebDriverVisualTest.results
                    (self (snd (WebDriverVisualTest.main env
                                  WebDriverVisualTest.init))))))) /\
  (forall env,
     (forall t, String.length (SimpleVisualTest.now env t) = 15) ->
     NoDup (map snd
              (SimpleShots.shots
                 (self (snd (SimpleVisualTest.main env
                               SimpleVisualTest.init)))))).
Proof.
  destruct planned_names_distinct as (Hv & Hw & Hs).
  split; [|split]; intros env Hstamps.
  - pose proof (emits_distinct_files ValidatorShots.shots ValidatorShots.dir
                  _ _ AxiomVisualValidator.init
                  (ValidatorShots.validator_main_emits env Hstamps) Hv eq_refl) as H.
    unfold ValidatorShots.shots in H. rewrite map_map in H. exact H.
  - pose proof (emits_distinct_files WebDriverShots.shots ""
                  _ _ WebDriverVisualTest.init
                  (WebDriverShots.webdriver_main_emits env Hstamps) Hw eq_refl) as H.
    unfold WebDriverShots.shots in H. rewrite map_map in H. exact H.
  - apply (emits_distinct_files SimpleShots.shots ""
             _ _ SimpleVisualTest.init
             (SimpleShots.simple_main_emits env Hstamps) Hs eq_refl).
Qed.

Lemma screenshot_paths_are_distinct_witness :
  (forall t, String.length
               (AxiomVisualValidator.now Scenarios.validator_ok t) = 15) /\
  length (AxiomVisualValidator.screenshots
            (AxiomVisualValidator.results
               (self (snd (AxiomVisualValidator.main Scenarios.validator_ok
                             AxiomVisualValidator.init))))) = 13 /\
  NoDup (map AxiomVisualValidator.ss_file
           (AxiomVisualValidator.screenshots
              (AxiomVisualValidator.results
                 (self (snd (AxiomVisualValidator.main Scenarios.validator_ok
                               AxiomVisualValidator.init)))))).
Proof.
  split; [intros t; reflexivity|]. split; [reflexivity|].
  apply (proj1 screenshot_paths_are_distinct Scenarios.validator_ok).
  intros t. reflexivity.
Defined.

(** * Further properties of the scripts *)

(** ** [sorted] only reorders *)

Lemma insert_sorted_perm p l : insert_sorted p l ≡ₚ p :: l.
Proof.
  induction l as [|q l IH]; simpl; [reflexivity|].
  destruct (String.leb (path_str p) (path_str q)); [reflexivity|].
  rewrite IH. apply Permutation_swap.
Qed.

Lemma sorted_perm l : sorted l ≡ₚ l.
Proof.
  induction l as [|p l IH]; simpl; [reflexivity|].
  unfold sorted in *. simpl. rewrite insert_sorted_perm, IH. reflexivity.
Qed.

(** ** [axiom_render_test.py]: the loaders and the loop of [main] *)

Module AxiomLibrary.
Import AxiomRenderTest.

Definition report_path : Path := joinpath base_dir "AXIOM_LIBRARY_TEST_REPORT.md".

(** What a loader leaves behind when the binding parsed the file. *)
Definition loaded_recorded (test_name : string) (file : Path) (mol : Molecule)
    (st st' : state Self) : Prop :=
  tests (self st') =
    tests (self st) ++ [{| name := test_name; result := PASS |}] /\
  structures_loaded (self st') =
    structures_loaded (self st) ++
      [{| loaded_file := pname file; loaded_atoms := length (atoms mol);
          success := true |}] /\
  errors (self st') = errors (self st).

(** What a test leaves behind when it failed with [msg]. *)
Definition failure_recorded (test_name msg : string) (st st' : state Self)
  : Prop :=
  tests (self st') =
    tests (self st) ++ [{| name := test_name; result := FAIL |}] /\
  structures_loaded (self st') = structures_loaded (self st) /\
  errors (self st') =
    errors (self st) ++ [{| error_test := test_name; error := msg |}].

(** What [test_molecule_properties] leaves behind when both probes went
    through. *)
Definition pass_recorded (test_name : string) (st st' : state Self) : Prop :=
  tests (self st') =
    tests (self st) ++ [{| name := test_name; result := PASS |}] /\
  structures_loaded (self st') = structures_loaded (self st) /\
  errors (self st') = errors (self st).

Lemma load_outcome env method test_name file st :
  let run := (enter method ;; load env test_name file) st in
  match from_file env (tick (st_world st)) (path_str file) with
  | inr mol =>
      fst run = Ok (Some mol) /\ loaded_recorded test_name file mol st (snd run)
  | inl msg => fst run = Ok None /\ failure_recorded test_name msg st (snd run)
  end.
Proof.
  cbv zeta. unfold load, try_except, bind, enter, ext, append_loaded,
    append_test, append_error, modify, ret.
  cbn [fst snd st_world self tick log advance].
  destruct (from_file env (tick (st_world st)) (path_str file)) as [msg|mol];
    cbn; repeat split; reflexivity.
Qed.


Lemma properties_outcome env mol name st :
  let run := test_molecule_properties env mol name st in
  let t := tick (st_world st) in
  let test_name := "Molecule Properties: " +:+ name in
  match bounds env t mol, center env (S t) mol with
  | Some (inl msg), _ =>
      fst run = Ok false /\ failure_recorded test_name msg st (snd run)
  | _, Some (inl msg) =>
      fst run = Ok false /\ failure_recorded test_name msg st (snd run)
  | _, _ => fst run = Ok true /\ pass_recorded test_name st (snd run)
  end.
Proof.
  cbv zeta. unfold test_molecule_properties, try_except, probe, bind, enter,
    observe, append_test, append_error, modify, ret, raise.
  cbn [fst snd st_world self tick log advance].
  destruct (bounds env (tick (st_world st)) mol) as [[msg|b]|]; cbn;
    try (repeat split; reflexivity);
    destruct (center env (S (tick (st_world st))) mol) as [[msg|c]|]; cbn;
    repeat split; reflexivity.
Qed.


(** The files [main] has a loader for. *)
Definition is_structure (f : Path) : Prop :=
  suffix f = ".xyz" \/ suffix f = ".pdb".

Global Instance is_structure_dec f : Decision (is_structure f).
Proof. unfold is_structure. apply _. Defined.

(** The books of a session that has met [n] structure files: one load
    outcome for each file and one further outcome for each structure
    loaded; as many messages in [errors] as outcomes [FAIL]; no other
    status; and no entry of [structures_loaded] marked as failed. *)
Definition bookkeeping (n : nat) (st : state Self) : Prop :=
  length (tests (self st)) = n + length (structures_loaded (self st)) /\
  length (errors (self st)) =
    length (filter (fun t => result t = FAIL) (tests (self st))) /\
  Forall (fun t => result t = PASS \/ result t = FAIL) (tests (self st)) /\
  Forall (fun x => success x = true) (structures_loaded (self st)).

Lemma bookkeeping_loaded n name file mol st st' :
  bookkeeping n st -> loaded_recorded name file mol st st' ->
  bookkeeping n st'.
Proof.
  intros (Ht & He & Hs & Hl) (Ht' & Hl' & He'). unfold bookkeeping.
  rewrite Ht', Hl', He', filter_app, !length_app, Ht, He. simpl.
  repeat split; try lia.
  - apply Forall_app. split; [exact Hs|].
    constructor; [left; reflexivity | constructor].
  - apply Forall_app. split; [exact Hl|].
    constructor; [reflexivity | constructor].
Qed.

Lemma bookkeeping_failure n name msg st st' :
  bookkeeping n st -> failure_recorded name msg st st' ->
  bookkeeping (S n) st'.
Proof.
  intros (Ht & He & Hs & Hl) (Ht' & Hl' & He'). unfold bookkeeping.
  rewrite Ht', Hl', He', filter_app, !length_app, Ht, He. simpl.
  repeat split; try lia; [|exact Hl].
  apply Forall_app. split; [exact Hs|].
  constructor; [right; reflexivity | constructor].
Qed.

Lemma bookkeeping_pass n name st st' :
  bookkeeping n st -> pass_recorded name st st' -> bookkeeping (S n) st'.
Proof.
  intros (Ht & He & Hs & Hl) (Ht' & Hl' & He'). unfold bookkeeping.
  rewrite Ht', Hl', He', filter_app, !length_app, Ht, He. simpl.
  repeat split; try lia; [|exact Hl].
  apply Forall_app. split; [exact Hs|].
  constructor; [left; reflexivity | constructor].
Qed.

(** After a structure has been loaded, the test of its properties adds the
    outcome that counts for its file. *)
Lemma properties_after_load env n name file mol label st0 st :
  bookkeeping n st0 -> loaded_recorded name file mol st0 st ->
  fst ((test_molecule_properties env mol label ;; ret tt) st) = Ok tt /\
  bookkeeping (S n)
    (snd ((test_molecule_properties env mol label ;; ret tt) st)).
Proof.
  intros Hinv Hloaded.
  pose proof (bookkeeping_loaded _ _ _ _ _ _ Hinv Hloaded) as Hmid.
  rewrite bind_unfold.
  pose proof (properties_outcome env mol label st) as Hp. cbv zeta in Hp.
  destruct (bounds env (tick (st_world st)) mol) as [[?|?]|];
    destruct (center env (S (tick (st_world st))) mol) as [[?|?]|];
    destruct Hp as [-> Hrec];
    simpl; (split; [reflexivity|]);
    first [ eapply bookkeeping_failure; eassumption
          | eapply bookkeeping_pass; eassumption ].
Qed.

Lemma test_structure_bookkeeping env f n st :
  bookkeeping n st ->
  fst (test_structure env f st) = Ok tt /\
  bookkeeping (n + if decide (is_structure f) then 1 else 0)
    (snd (test_structure env f st)).
Proof.
  intros Hinv. unfold test_structure.
  assert (forall method label,
            let loader := (enter method ;; load env label f) in
            fst ((mol <- loader ;;
                  match mol with
                  | Some m => test_molecule_properties env m (stem f) ;; ret tt
                  | None => ret tt
                  end) st) = Ok tt /\
            bookkeeping (S n)
              (snd ((mol <- loader ;;
                     match mol with
                     | Some m =>
                         test_molecule_properties env m (stem f) ;; ret tt
                     | None => ret tt
                     end) st))) as Hload.
  { intros method label loader. rewrite bind_unfold.
    pose proof (load_outcome env method label f st) as Hl. cbv zeta in Hl.
    fold loader in Hl.
    destruct (from_file env (tick (st_world st)) (path_str f)) as [msg|mol];
      destruct Hl as [-> Hrec].
    - simpl. split; [reflexivity|]. eapply bookkeeping_failure; eauto.
    - eapply properties_after_load; eauto. }
  destruct (decide (is_structure f)) as [Hs|Hn].
  - replace (n + 1) with (S n) by lia.
    case_bool_decide as Hx.
    + apply (Hload "test_load_xyz" ("Load XYZ: " +:+ pname f)).
    + case_bool_decide as Hp.
      * apply (Hload "test_load_pdb" ("Load PDB: " +:+ pname f)).
      * destruct Hs; contradiction.
  - replace (n + 0) with n by lia.
    case_bool_decide as Hx; [exfalso; apply Hn; left; exact Hx|].
    case_bool_decide as Hp; [exfalso; apply Hn; right; exact Hp|].
    split; [reflexivity | exact Hinv].
Qed.

Lemma structures_loop_bookkeeping env files n st :
  bookkeeping n st ->
  fst (for_each files (test_structure env) st) = Ok tt /\
  bookkeeping (n + length (filter is_structure files))
    (snd (for_each files (test_structure env) st)).
Proof.
  revert n st. induction files as [|f files IH]; intros n st Hinv.
  - simpl. replace (n + 0) with n by lia. split; [reflexivity | exact Hinv].
  - cbn [for_each]. rewrite bind_unfold.
    destruct (test_structure_bookkeeping env f n st Hinv) as [-> Hstep].
    destruct (IH _ _ Hstep) as [Hr Hnext].
    split; [exact Hr|]. rewrite filter_cons.
    destruct (decide (is_structure f)); simpl in *.
    + replace (n + S (length (filter is_structure files)))
        with (n + 1 + length (filter is_structure files)) by lia.
      exact Hnext.
    + replace (n + 0) with n in Hnext by lia. exact Hnext.
Qed.

Lemma structures_sorted files :
  length (filter is_structure (sorted files)) =
  length (filter is_structure files).
Proof. rewrite sorted_perm. reflexivity. Qed.

Lemma axiom_report_keeps_session env :
  respects same_self (generate_report env).
Proof. respects_go ltac:(reflexivity). Qed.

(** With at least one outcome recorded, the success rate has a non-zero
    divisor and report generation goes through. *)
Lemma axiom_report_returns env st :
  tests (self st) <> [] ->
  open_w env (tick (st_world st)) (path_str report_path) = inr tt ->
  exists path, fst (generate_report env st) = Ok path.
Proof.
  destruct st as [w [[|t ts] loaded errs]]; intros Hne Hopen;
    [contradiction Hne; reflexivity|].
  change (wp (generate_report env) (fun r _ => exists path, r = Ok path)
            (State w {| tests := t :: ts; structures_loaded := loaded;
                        errors := errs |})).
  unfold generate_report. cbv zeta.
  wp_step. wp_step. apply wp_bind. apply wp_fopen_w;
    [intros _ | intros msg Hmsg; cbn [tick log st_world] in Hmsg, Hopen;
                unfold report_path in Hopen; congruence].
  repeat lazymatch goal with
         | |- wp (bind (success_rate _ _ _) _) _ _ => fail
         | |- _ => wp_step
         end.
  apply wp_bind. unfold success_rate at 1. apply wp_ret.
  lazymatch goal with
  | |- wp ?m _ ?s =>
      let Ht := fresh "Ht" in
      assert (total m) as Ht by total_go; exact (Ht s)
  end.
Qed.


(** X4. When the structures directory holds at least one structure file
    and the report file can be opened, [main] returns, and the value it
    returns is 0 when every outcome is [PASS] and 1 otherwise. *)
Theorem axiom_main_exit_signal env :
  (forall t, open_w env t (path_str report_path) = inr tt) ->
  (exists f, In f (glob env 0 "*.xyz" ++ glob env 1 "*.pdb") /\
             is_structure f) ->
  fst (main env init) =
  Ok (if bool_decide (Forall (fun t => result t = PASS)
                        (tests (self (snd (main env init)))))
      then 0 else 1).
Proof.
  intros Hopen (f & Hin & Hf).
  unfold main.
  rewrite bind_unfold. cbn [observe fst snd].
  rewrite bind_unfold. cbn [observe fst snd st_world self tick log advance].
  change (tick (st_world init)) with 0.
  set (files := glob env 0 "*.xyz" ++ glob env 1 "*.pdb") in *.
  set (st1 := State _ _).
  assert (bookkeeping 0 st1) as Hinit
    by (repeat split; try reflexivity; constructor).
  destruct (structures_loop_bookkeeping env (sorted files) 0 st1 Hinit)
    as [Hret Hloop].
  rewrite structures_sorted in Hloop. simpl in Hloop.
  rewrite bind_unfold, Hret.
  set (st2 := snd (for_each (sorted files) (test_structure env) st1)) in *.
  destruct Hloop as (Hcount & Herrors & Hstatus & _).
  assert (tests (self st2) <> []) as Hne.
  { intros Hnil. rewrite Hnil in Hcount. simpl in Hcount.
    assert (In f (filter is_structure files)) as Hin'
      by (apply list_elem_of_In, list_elem_of_filter; split;
          [exact Hf | apply list_elem_of_In; exact Hin]).
    destruct (filter is_structure files); [destruct Hin' | simpl in Hcount; lia]. }
  destruct (axiom_report_returns env st2 Hne (Hopen _)) as [path Hreport].
  pose proof (axiom_report_keeps_session env st2) as Hsame.
  unfold same_self in Hsame. rewrite bind_unfold, Hreport.
  unfold bind, get_self, ret. cbn [fst snd]. rewrite Hsame.
  f_equal.
  assert (length (errors (self st2)) = 0 <->
          Forall (fun t => result t = PASS) (tests (self st2))) as Hzero.
  { rewrite Herrors. clear -Hstatus.
    induction Hstatus as [|t ts Ht _ IH]; [split; [constructor|reflexivity]|].
    rewrite filter_cons. destruct Ht as [Ht|Ht]; rewrite Ht.
    - rewrite decide_False by discriminate. rewrite IH. split.
      + intros Hall. constructor; [exact Ht | exact Hall].
      + intros Hall. inversion Hall. assumption.
    - rewrite decide_True by reflexivity. simpl. split; [discriminate|].
      intros Hall. inversion Hall. congruence. }
  repeat case_bool_decide; tauto.
Qed.

Lemma axiom_main_exit_signal_witness :
  let env := Scenarios.library [joinpath structures_dir "water.xyz"] in
  (forall t, open_w env t (path_str report_path) = inr tt) /\
  (exists f, In f (glob env 0 "*.xyz" ++ glob env 1 "*.pdb") /\
             is_structure f) /\
  fst (main env init) = Ok 0.
Proof.
  cbv zeta. split; [intros t; reflexivity|]. split.
  - exists (joinpath structures_dir "water.xyz"). split.
    + vm_compute. left. reflexivity.
    + left. vm_compute. reflexivity.
  - rewrite (axiom_main_exit_signal
               (Scenarios.library [joinpath structures_dir "water.xyz"])).
    + vm_compute. reflexivity.
    + intros t. reflexivity.
    + exists (joinpath structures_dir "water.xyz"). split.
      * vm_compute. left. reflexivity.
      * left. vm_compute. reflexivity.
Defined.

End AxiomLibrary.

(** ** [direct_render_test.py]: the exit signal and the images of a test *)

Module DirectRenderImages.
Import DirectRenderTest.

Lemma direct_tests_total env :
  total (test_simple_water env) /\ total (test_rotation env) /\
  total (test_zoom env) /\ total (test_background_colors env).
Proof. repeat split; total_go. Qed.

(** X5. When the working directory can be changed and the report file
    opened, [main] returns, and the value it returns is 0 when every
    outcome of the session is [PASS] and 1 otherwise. *)
Theorem direct_main_returns_exit_signal env :
  chdir env 0 "/home/agent/projects/axiom" = inr tt ->
  (forall t,
     open_w env t (path_str DirectRenderReport.report_path) = inr tt) ->
  fst (main env init) =
  Ok (if bool_decide (Forall (fun t => result t = PASS)
                        (tests (self (snd (main env init)))))
      then 0 else 1).
Proof.
  intros Hchdir Hopen.
  pose proof (DirectRenderSession.direct_main_exit_signal env) as Hcode.
  unfold wp in Hcode.
  assert (exists code, fst (main env init) = Ok code) as [code Hret].
  { destruct (direct_tests_total env) as (Hw & Hr & Hz & Hb).
    unfold main. rewrite bind_unfold. unfold ext at 1.
    change (tick (st_world init)) with 0. rewrite Hchdir. cbn [fst snd].
    lazymatch goal with |- context [bind _ _ ?s] => set (s0 := s) end.
    rewrite bind_unfold. destruct (Hw s0) as [b1 ->].
    rewrite bind_unfold. destruct (Hr (snd (test_simple_water env s0))) as [b2 ->].
    rewrite bind_unfold.
    destruct (Hz (snd (test_rotation env (snd (test_simple_water env s0)))))
      as [b3 ->].
    rewrite bind_unfold.
    lazymatch goal with
    | |- context [test_background_colors env ?s] =>
        destruct (Hb s) as [b4 ->]; set (s4 := snd (test_background_colors env s))
    end.
    rewrite bind_unfold.
    destruct (DirectRenderReport.direct_generate_report_document env s4
                (Hopen _)) as (-> & _).
    eexists. reflexivity. }
  rewrite Hret in Hcode. rewrite Hret. f_equal. exact Hcode.
Qed.

Lemma direct_main_returns_exit_signal_witness :
  chdir Scenarios.broken_bindings 0 "/home/agent/projects/axiom" = inr tt /\
  (forall t,
     open_w Scenarios.broken_bindings t
       (path_str DirectRenderReport.report_path) = inr tt) /\
  fst (main Scenarios.broken_bindings init) = Ok 1.
Proof.
  split; [reflexivity|]. split; [intros t; reflexivity|].
  rewrite (direct_main_returns_exit_signal Scenarios.broken_bindings);
    [vm_compute; reflexivity | reflexivity | intros t; reflexivity].
Defined.

(** The names of the images recorded so far. *)
Definition image_names (st : state Self) : list string :=
  map render_name (renders (self st)).

Definition same_images : relation (state Self) :=
  fun st st' => renders (self st') = renders (self st).

Global Instance same_images_preorder : PreOrder same_images.
Proof.
  split; [intros st; reflexivity|].
  intros a b c Hab Hbc. unfold same_images in *. congruence.
Qed.

(** [m] records images under the first names of [names], in order, and
    under all of them when it returns. *)
Definition renders_prefix {A} (names : list string) (m : M Self A) : Prop :=
  forall st,
    exists k,
      k <= length names /\
      image_names (snd (m st)) = image_names st ++ take k names /\
      (forall a, fst (m st) = Ok a -> k = length names).

Lemma renders_prefix_none {A} (m : M Self A) :
  respects same_images m -> renders_prefix [] m.
Proof.
  intros Hm st. exists 0. split; [reflexivity|]. split; [|reflexivity].
  unfold image_names. rewrite (Hm st). simpl. rewrite app_nil_r. reflexivity.
Qed.

Lemma renders_prefix_bind {A B} names1 names2
    (m : M Self A) (k : A -> M Self B) :
  renders_prefix names1 m -> (forall a, renders_prefix names2 (k a)) ->
  renders_prefix (names1 ++ names2) (bind m k).
Proof.
  intros Hm Hk st. destruct (Hm st) as (k1 & Hle1 & Himg1 & Hall1).
  rewrite bind_unfold. destruct (fst (m st)) as [a|e] eqn:Hr.
  - specialize (Hall1 a eq_refl). subst k1.
    destruct (Hk a (snd (m st))) as (k2 & Hle2 & Himg2 & Hall2).
    exists (length names1 + k2). rewrite length_app. split; [lia|]. split.
    + rewrite Himg2, Himg1, take_app_add, firstn_all, <- app_assoc.
      reflexivity.
    + intros b Hb. rewrite (Hall2 b Hb). reflexivity.
  - exists k1. rewrite length_app. split; [lia|]. split.
    + simpl. rewrite Himg1, take_app_le by exact Hle1. reflexivity.
    + simpl. discriminate.
Qed.

Lemma renders_prefix_for_each {X} (f : X -> string) xs
    (body : X -> M Self unit) :
  (forall x, renders_prefix [f x] (body x)) ->
  renders_prefix (map f xs) (for_each xs body).
Proof.
  intros Hbody. induction xs as [|x xs IH]; cbn [for_each map].
  - apply renders_prefix_none. apply respects_ret; apply _.
  - apply (renders_prefix_bind [f x] (map f xs)); auto.
Qed.

Lemma save_and_record_prefix env output_file name description :
  renders_prefix [name] (save_and_record env output_file name description).
Proof.
  intros st. unfold save_and_record, bind, ext, append_render, modify.
  cbn [fst snd st_world self].
  destruct (save_image env _ _) as [msg|[]]; cbn.
  - exists 0. split; [lia|]. split; [|discriminate].
    unfold image_names. simpl. rewrite app_nil_r. reflexivity.
  - exists 1. split; [lia|]. split; [|reflexivity].
    unfold image_names. simpl. rewrite map_app. reflexivity.
Qed.

(** A step that records no image, in front of what records them. *)
Ltac skip_step :=
  lazymatch goal with
  | |- renders_prefix ?names (bind ?m ?k) =>
      apply (renders_prefix_bind [] names m k);
      [ apply renders_prefix_none; respects_go ltac:(reflexivity)
      | intros ? ]
  end.

Ltac last_steps :=
  apply renders_prefix_none; respects_go ltac:(reflexivity).

Lemma test_simple_water_body_prefix env name :
  renders_prefix ["water_default"] (test_simple_water_body env name).
Proof.
  unfold test_simple_water_body. repeat skip_step.
  apply (renders_prefix_bind ["water_default"] []);
    [apply save_and_record_prefix | intros _; last_steps].
Qed.

Lemma test_rotation_body_prefix env name :
  renders_prefix
    ["rotation_front"; "rotation_side"; "rotation_top"; "rotation_angle"]
    (test_rotation_body env name).
Proof.
  unfold test_rotation_body. do 8 skip_step.
  apply (renders_prefix_bind
           (map (fun a : string * vec => "rotation_" +:+ fst a) angles) []);
    [|intros _; last_steps].
  apply renders_prefix_for_each. intros view. cbv zeta. do 2 skip_step.
  apply save_and_record_prefix.
Qed.

Lemma test_zoom_body_prefix env name :
  renders_prefix ["zoom_far"; "zoom_normal"; "zoom_close"; "zoom_very_close"]
    (test_zoom_body env name).
Proof.
  unfold test_zoom_body. do 12 skip_step.
  apply (renders_prefix_bind
           (map (fun z : string * Q * string => "zoom_" +:+ fst (fst z))
                zooms) []);
    [|intros _; last_steps].
  apply renders_prefix_for_each. intros view. cbv zeta. do 2 skip_step.
  apply save_and_record_prefix.
Qed.

Lemma test_background_colors_body_prefix env name :
  renders_prefix ["bg_black"; "bg_white"; "bg_gray"]
    (test_background_colors_body env name).
Proof.
  unfold test_background_colors_body. do 4 skip_step.
  apply (renders_prefix_bind
           (map (fun b : string * (Q * Q * Q) => "bg_" +:+ fst b)
                backgrounds) []);
    [|intros _; last_steps].
  apply renders_prefix_for_each. intros [bg [[red green] blue]]. cbv zeta.
  cbn [fst snd]. do 3 skip_step.
  apply save_and_record_prefix.
Qed.

(** What a test keeps of its images: it returns; the images it recorded
    are those of the first [k] of its views; and [k] is the number of its
    views when it returns [True]. *)
Definition keeps_images (names : list string) (test : M Self bool) : Prop :=
  forall st,
    exists b k,
      fst (test st) = Ok b /\ k <= length names /\
      image_names (snd (test st)) = image_names st ++ take k names /\
      (b = true -> k = length names).

Lemma keeps_images_intro method names name body :
  renders_prefix names body -> no_interrupt body ->
  keeps_images names
    (enter method ;; try_except body (on_exception name)).
Proof.
  intros Hbody Hno st. rewrite bind_unfold. cbn [enter fst snd].
  set (st1 := State _ _). unfold try_except.
  destruct (Hbody st1) as (k & Hle & Himg & Hall).
  specialize (Hno st1).
  destruct (body st1) as [[b|[msg|]] st2] eqn:Hrun; cbn [fst snd] in *.
  - exists b, k. split; [reflexivity|]. split; [exact Hle|].
    split; [exact Himg|]. intros _. apply (Hall b). reflexivity.
  - exists false, k.
    unfold on_exception, bind, append_error, append_test, modify, ret.
    cbn. split; [reflexivity|]. split; [exact Hle|].
    split; [exact Himg | discriminate].
  - congruence.
Qed.

(** X6. Each test of [DirectRenderTest] returns, and the images it has
    recorded are those of the first views it went through, in order: all
    of its views when it returns [True], and the views rendered before the
    failure when a call to the bindings raised. *)
Theorem direct_tests_keep_rendered_images env :
  keeps_images ["water_default"] (test_simple_water env) /\
  keeps_images
    ["rotation_front"; "rotation_side"; "rotation_top"; "rotation_angle"]
    (test_rotation env) /\
  keeps_images ["zoom_far"; "zoom_normal"; "zoom_close"; "zoom_very_close"]
    (test_zoom env) /\
  keeps_images ["bg_black"; "bg_white"; "bg_gray"]
    (test_background_colors env).
Proof.
  repeat split.
  - apply keeps_images_intro;
      [apply test_simple_water_body_prefix | no_interrupt_go].
  - apply keeps_images_intro;
      [apply test_rotation_body_prefix | no_interrupt_go].
  - apply keeps_images_intro;
      [apply test_zoom_body_prefix | no_interrupt_go].
  - apply keeps_images_intro;
      [apply test_background_colors_body_prefix | no_interrupt_go].
Qed.

(** Bindings whose renderer has no [set_background]; everything else
    works. *)
Definition plain_renderer : Env :=
  {| now := fun _ => Scenarios.stamp;
     now_long := fun _ => Scenarios.stamp_long;
     chdir := fun _ _ => inr tt;
     Atoms := fun _ => inr tt;
     push := fun _ _ _ _ _ => inr tt;
     len_atoms := fun _ => inr 1;
     Renderer := fun _ _ _ => inr tt;
     set_camera := fun _ _ _ _ => inr tt;
     save_image := fun _ _ => inr tt;
     has_set_background := fun _ => false;
     set_background := fun _ _ _ _ => inl "no such method";
     open_w := fun _ _ => inr tt |}.

(** X7. With a renderer that has no [set_background] method,
    [test_background_colors] never calls it, and as long as the other
    calls to the bindings succeed it still records [PASS], with the three
    images, although no background was ever set. *)
Theorem background_test_passes_without_set_background env st :
  (forall t, has_set_background env t = false) ->
  (forall t, Atoms env t = inr tt) ->
  (forall t x y z e, push env t x y z e = inr tt) ->
  (forall t w h, Renderer env t w h = inr tt) ->
  (forall t p q u, set_camera env t p q u = inr tt) ->
  (forall t f, save_image env t f = inr tt) ->
  let st' := snd (test_background_colors env st) in
  fst (test_background_colors env st) = Ok true /\
  tests (self st') =
    tests (self st) ++
      [{| name := "Test Background Colors"; result := PASS |}] /\
  image_names st' = image_names st ++ ["bg_black"; "bg_white"; "bg_gray"] /\
  errors (self st') = errors (self st) /\
  called "renderer.set_background" st' = called "renderer.set_background" st.
Proof.
  intros Hhas HA HP HR HC HS. cbv zeta.
  change (wp (test_background_colors env)
            (fun r st' =>
               r = Ok true /\
               tests (self st') =
                 tests (self st) ++
                   [{| name := "Test Background Colors"; result := PASS |}] /\
               image_names st' =
                 image_names st ++ ["bg_black"; "bg_white"; "bg_gray"] /\
               errors (self st') = errors (self st) /\
               called "renderer.set_background" st' =
                 called "renderer.set_background" st) st).
  unfold test_background_colors, test_background_colors_body, backgrounds.
  cbn [for_each]. cbv zeta.
  repeat (wp_step;
          try match goal with
              | H : _ = inl _ |- _ =>
                  rewrite ?HA, ?HP, ?HR, ?HC, ?HS in H; discriminate H
              | H : has_set_background env _ = true |- _ =>
                  rewrite Hhas in H; discriminate H
              end).
  unfold image_names, called. cbn [self st_world events log advance renders
                                   tests errors].
  rewrite !map_app, <- !app_assoc. repeat split; try reflexivity.
  rewrite !count_event_app. count_eval. lia.
Qed.

Lemma background_test_passes_without_set_background_witness :
  let st' := snd (test_background_colors plain_renderer init) in
  fst (test_background_colors plain_renderer init) = Ok true /\
  tests (self st') =
    [{| name := "Test Background Colors"; result := PASS |}] /\
  image_names st' = ["bg_black"; "bg_white"; "bg_gray"] /\
  errors (self st') = [] /\
  called "renderer.set_background" st' = 0.
Proof.
  apply (background_test_passes_without_set_background plain_renderer init);
    intros; reflexivity.
Defined.

End DirectRenderImages.

(** ** [webdriver_visual_test.py]: screenshots, outcomes and bugs *)

Module WebDriverBooks.
Import Selenium WebDriverVisualTest.

(** A browser that cannot be created. *)
Definition no_chrome : Env :=
  {| now := fun _ => Scenarios.stamp;
     now_long := fun _ => Scenarios.stamp_long;
     Chrome := fun _ => inl "Message: unable to obtain driver for chrome";
     set_window_size := fun _ _ _ => inr tt;
     get := fun _ _ => inr tt;
     find_elements := fun _ _ _ => inr [];
     save_screenshot := fun _ _ => inr tt;
     page_source := fun _ => inr "";
     quit := fun _ => inr tt;
     text := fun _ _ => inr "";
     element_click := fun _ _ => inr tt;
     element_send_keys := fun _ _ _ => inr tt;
     perform := fun _ _ => inr tt;
     exists_ := fun _ _ => true;
     glob := fun _ _ => inr [];
     readline := fun _ _ => inr "";
     open_w := fun _ _ => inr tt |}.

(** X8. As long as quitting the browser does not raise, [main] returns 1
    when the driver cannot be set up (the browser cannot be created, or
    its window cannot be sized) and 0 in every other case: nothing that
    happens after the set-up changes the value. *)
Theorem webdriver_main_returns_one_only_without_driver env :
  (forall t, quit env t = inr tt) ->
  fst (main env init) =
  Ok (match Chrome env 0, set_window_size env 1 1920 1080 with
      | inr _, inr _ => 0
      | _, _ => 1
      end).
Proof.
  intros Hquit.
  rewrite (WebDriverSession.main_return_value env init Hquit).
  unfold WebDriverSession.started. change (tick (st_world init)) with 0.
  destruct (Chrome env 0); [reflexivity|].
  destruct (set_window_size env 1 1920 1080); reflexivity.
Qed.

Lemma webdriver_main_returns_one_only_without_driver_witness :
  (forall t, quit no_chrome t = inr tt) /\
  fst (main no_chrome init) = Ok 1.
Proof.
  split; [intros t; reflexivity|].
  apply (webdriver_main_returns_one_only_without_driver no_chrome).
  intros t. reflexivity.
Defined.

(** X9. [take_screenshot] of the WebDriver tester never raises.  With a
    driver whose [save_screenshot] succeeds it returns the path and
    records one screenshot under the file name; without a driver, or when
    [save_screenshot] raises, it returns [None] and records nothing. *)
Theorem webdriver_take_screenshot_total env name description st :
  let t := tick (st_world st) in
  let filename := now env t +:+ "_" +:+ name +:+ ".png" in
  let filepath := path_str (joinpath screenshots_dir filename) in
  let run := take_screenshot env name description st in
  match driver (self st), save_screenshot env (S t) filepath with
  | Some _, inr _ =>
      fst run = Ok (Some filepath) /\
      self (snd run) =
        {| driver := driver (self st);
           results :=
             {| tests := tests (results (self st));
                screenshots :=
                  screenshots (results (self st)) ++
                    [{| ss_name := name; ss_description := description;
                        ss_file := filename; ss_timestamp := now env t |}];
                bugs := bugs (results (self st)) |} |}
  | _, _ => fst run = Ok None /\ self (snd run) = self st
  end.
Proof.
  cbv zeta. unfold take_screenshot, try_except, driver_call, bind, observe,
    get_self, ext, raise, append_screenshot, modify, ret.
  cbn [fst snd st_world self tick log advance].
  destruct (driver (self st)) as [[]|] eqn:Hd; cbn;
    [destruct (save_screenshot env _ _) as [msg|[]]; cbn|];
    rewrite ?Hd; split; reflexivity.
Qed.

Definition same_books : relation (state Self) :=
  fun st st' =>
    tests (results (self st')) = tests (results (self st)) /\
    bugs (results (self st')) = bugs (results (self st)).

Global Instance same_books_preorder : PreOrder same_books.
Proof.
  split; [intros st; split; reflexivity|].
  intros a b c [? ?] [? ?]. unfold same_books in *. split; congruence.
Qed.

(** One outcome [e] has been recorded, and with it, when [with_bug] says
    so, one bug under the name of the test. *)
Definition recorded (st st' : state Self) (e : TestEntry) (with_bug : bool)
  : Prop :=
  tests (results (self st')) = tests (results (self st)) ++ [e] /\
  if with_bug
  then exists issue,
         bugs (results (self st')) =
         bugs (results (self st)) ++
           [{| bug_test := name e; bug_issue := issue |}]
  else bugs (results (self st')) = bugs (results (self st)).

(** [test] returns, having recorded one outcome whose status, together
    with whether a bug came with it, is one of [allowed]; it returns
    [True] exactly for the statuses [PASS] and [VISUAL]. *)
Definition books (allowed : list (Status * bool)) (test : M Self bool)
  : Prop :=
  forall st,
    exists b e with_bug,
      fst (test st) = Ok b /\
      recorded st (snd (test st)) e with_bug /\
      In (result e, with_bug) allowed /\
      (b = true <-> result e = PASS \/ result e = VISUAL).

Definition booked (allowed : list (Status * bool)) (st : state Self)
    (r : outcome bool) (st' : state Self) : Prop :=
  exists b e with_bug,
    r = Ok b /\ recorded st st' e with_bug /\
    In (result e, with_bug) allowed /\
    (b = true <-> result e = PASS \/ result e = VISUAL).

Lemma probe_buttons_same_books env buttons file_inputs :
  respects same_books (probe_buttons env buttons file_inputs).
Proof.
  induction buttons as [|btn rest IH]; cbn [probe_buttons].
  - apply respects_ret; apply _.
  - respects_go ltac:(split; reflexivity).
Qed.

Ltac booked_with wb H :=
  eexists _, _, wb; split; [reflexivity|];
  unfold recorded, same_books in *; cbn in *;
  destruct H as [-> ->];
  split; [split; [reflexivity | first [reflexivity | eexists; reflexivity]]|];
  split; [cbn; auto 10|];
  cbn; rewrite ?bool_decide_eq_true;
  solve [intuition (try discriminate; try congruence)].

Ltac booked_go :=
  let H := fresh "Hsame" in
  intros;
  wp_enter_try same_books H;
  pose proof probe_buttons_same_books;
  pose proof WebDriverIsolation.probe_buttons_no_interrupt;
  wp_frames same_books ltac:(split; reflexivity);
  wp_go; unfold booked;
  first [ booked_with false H | booked_with true H ].

Lemma test_gui_loads_booked env st :
  wp (test_gui_loads env)
    (booked [(PASS, false); (FAIL, true); (ERROR, true)] st) st.
Proof. booked_go. Qed.

Lemma test_controls_visible_booked env st :
  wp (test_controls_visible env) (booked [(PASS, false); (ERROR, false)] st) st.
Proof. booked_go. Qed.

Lemma test_load_structure_booked env file st :
  wp (test_load_structure env file)
    (booked [(PASS, false); (FAIL, true); (ERROR, false)] st) st.
Proof. booked_go. Qed.

Lemma test_rotation_booked env st :
  wp (test_rotation env) (booked [(VISUAL, false); (ERROR, false)] st) st.
Proof. booked_go. Qed.

Lemma books_intro allowed (test : M Self bool) :
  (forall st, wp test (booked allowed st) st) -> books allowed test.
Proof.
  intros Hwp st. destruct (Hwp st) as (b & e & wb & Hr & Hrest).
  exists b, e, wb. split; [exact Hr | exact Hrest].
Qed.

(** X10. Every test of the WebDriver tester returns, having recorded
    exactly one outcome, and returns [True] exactly when the status is
    [PASS] or [VISUAL].  [test_gui_loads] records [PASS], or [FAIL] or
    [ERROR] together with a bug; [test_load_structure] records [PASS],
    [FAIL] with a bug, or [ERROR] without one; [test_controls_visible]
    records [PASS] or [ERROR], never [FAIL], and no bug; [test_rotation]
    records [VISUAL] or [ERROR], never [PASS], and no bug. *)
Theorem webdriver_tests_outcomes_and_bugs env :
  books [(PASS, false); (FAIL, true); (ERROR, true)] (test_gui_loads env) /\
  books [(PASS, false); (ERROR, false)] (test_controls_visible env) /\
  (forall file,
     books [(PASS, false); (FAIL, true); (ERROR, false)]
       (test_load_structure env file)) /\
  books [(VISUAL, false); (ERROR, false)] (test_rotation env).
Proof.
  split; [|split; [|split]]; try intros file; apply books_intro; intros st.
  - apply test_gui_loads_booked.
  - apply test_controls_visible_booked.
  - apply test_load_structure_booked.
  - apply test_rotation_booked.
Qed.

(** [m] clicks on at most [n] elements. *)
Definition clicks_at_most {A} (n : nat) (m : M Self A) : Prop :=
  forall st,
    called "element.click" (snd (m st)) <= called "element.click" st + n.

Lemma clicks_none {A} (m : M Self A) :
  respects (same_count (Call "element.click")) m -> clicks_at_most 0 m.
Proof.
  intros Hm st. specialize (Hm st). unfold same_count, called in *. lia.
Qed.

Lemma clicks_weaken {A} n n' (m : M Self A) :
  clicks_at_most n m -> n <= n' -> clicks_at_most n' m.
Proof. intros Hm Hle st. specialize (Hm st). lia. Qed.

Lemma clicks_bind {A B} n1 n2 (m : M Self A) (k : A -> M Self B) :
  clicks_at_most n1 m -> (forall a, clicks_at_most n2 (k a)) ->
  clicks_at_most (n1 + n2) (bind m k).
Proof.
  intros Hm Hk st. rewrite bind_unfold. specialize (Hm st).
  destruct (fst (m st)) as [a|e]; simpl; [|lia].
  specialize (Hk a (snd (m st))). lia.
Qed.

Lemma clicks_try_except {A} n (body : M Self A) handler :
  clicks_at_most n body -> (forall e, clicks_at_most 0 (handler e)) ->
  clicks_at_most n (try_except body handler).
Proof.
  intros Hb Hh st. unfold try_except. specialize (Hb st).
  destruct (body st) as [[a|[msg|]] st1]; simpl in *; try lia.
  specialize (Hh msg st1). lia.
Qed.

Ltac no_click := apply clicks_none; respects_go count_leaf.

(** The loop over the buttons stops at the first one whose label mentions
    loading: it clicks on that one and on no other. *)
Lemma probe_buttons_clicks env buttons file_inputs :
  clicks_at_most 1 (probe_buttons env buttons file_inputs).
Proof.
  induction buttons as [|btn rest IH]; cbn [probe_buttons].
  - apply (clicks_weaken 0); [no_click | lia].
  - apply (clicks_bind 0 1); [no_click | intros label].
    cbv zeta.
    destruct (contains "load" (lower label) || contains "open" (lower label)
              || contains "file" (lower label)); [|exact IH].
    apply (clicks_bind 1 0); [|intros _; no_click].
    intros st. unfold ext, called. destruct (element_click env _ btn);
      cbn [fst snd st_world events log advance];
      rewrite count_event_app; count_eval; lia.
Qed.

(** X11. [test_load_structure] clicks on at most one button, whatever
    the page holds: the first button whose label mentions loading, and
    only when the page shows no file input. *)
Theorem load_structure_clicks_at_most_once env file st :
  called "element.click" (snd (test_load_structure env file st)) <=
  called "element.click" st + 1.
Proof.
  revert st. change (clicks_at_most 1 (test_load_structure env file)).
  unfold test_load_structure, test_load_structure_body. cbv zeta.
  apply (clicks_bind 0 1); [no_click | intros _].
  apply clicks_try_except; [|intros e; no_click].
  apply (clicks_bind 0 1); [no_click | intros file_inputs].
  apply (clicks_bind 1 0); [|intros found; no_click].
  destruct (negb (truthy file_inputs)).
  - apply (clicks_bind 0 1); [no_click | intros buttons].
    apply probe_buttons_clicks.
  - apply (clicks_weaken 0); [no_click | lia].
Qed.

(** A test that keeps the books adds one outcome to the session. *)
Lemma wp_one_more {B} allowed (test : M Self bool) (k : bool -> M Self B)
    Q st :
  (forall st, wp test (booked allowed st) st) ->
  (forall b st',
     length (tests (results (self st'))) =
       S (length (tests (results (self st)))) ->
     wp (k b) Q st') ->
  wp (bind test k) Q st.
Proof.
  intros Htest Hk. apply wp_bind.
  destruct (Htest st) as (b & e & wb & Hr & [Ht _] & _).
  unfold wp at 1. rewrite Hr. apply Hk. rewrite Ht, length_app. simpl. lia.
Qed.

Definition water : Path := joinpath structures_dir "water.xyz".
Definition methane : Path := joinpath structures_dir "methane.xyz".

(** The number of outcomes of a session that found the structure files
    [present] says are there. *)
Definition planned_outcomes (present : Path -> bool) : nat :=
  3 + (if present water then 1 else 0) + (if present methane then 1 else 0).

(** One turn of the loop of [main] over the structure files. *)
Definition load_if_present (env : Env) (struct_file : Path) : M Self unit :=
  present <- observe "Path.exists" (fun t => exists_ env t struct_file) ;;
  if present then test_load_structure env struct_file ;; ret tt else ret tt.

Lemma load_if_present_outcomes env present f st :
  (forall t p, exists_ env t p = present p) ->
  fst (load_if_present env f st) = Ok tt /\
  length (tests (results (self (snd (load_if_present env f st))))) =
  length (tests (results (self st))) + (if present f then 1 else 0).
Proof.
  intros Hpresent.
  change (wp (load_if_present env f)
            (fun r st' =>
               r = Ok tt /\
               length (tests (results (self st'))) =
               length (tests (results (self st))) +
               (if present f then 1 else 0)) st).
  unfold load_if_present. apply wp_bind. apply wp_observe.
  rewrite Hpresent. destruct (present f).
  - eapply wp_one_more; [apply test_load_structure_booked|].
    intros b st' H'. apply wp_ret. simpl in H'. split; [reflexivity | lia].
  - apply wp_ret. simpl. split; [reflexivity | lia].
Qed.

Lemma run_tests_outcomes env present st :
  (forall t p, exists_ env t p = present p) ->
  length (tests (results (self (snd (run_tests env st))))) =
  length (tests (results (self st))) +
  (if WebDriverSession.started env (tick (st_world st))
   then planned_outcomes present else 0).
Proof.
  intros Hpresent.
  change (wp (run_tests env)
            (fun _ st' =>
               length (tests (results (self st'))) =
               length (tests (results (self st))) +
               (if WebDriverSession.started env (tick (st_world st))
                then planned_outcomes present else 0)) st).
  unfold run_tests, WebDriverSession.started.
  repeat lazymatch goal with
         | |- wp (bind (test_gui_loads _) _) _ _ => fail
         | |- _ => first [ progress cbn [negb] | wp_step ]
         end.
  - cbn [tick log advance st_world] in *. rewrite H, H0.
    eapply wp_one_more; [apply test_gui_loads_booked | intros b1 st1 H1].
    eapply wp_one_more; [apply test_controls_visible_booked | intros b2 st2 H2].
    cbn [for_each]. fold water. fold methane.
    fold (load_if_present env water). fold (load_if_present env methane).
    apply wp_bind. apply wp_bind. unfold wp at 1.
    destruct (load_if_present_outcomes env present water st2 Hpresent)
      as [-> Hw].
    apply wp_bind. unfold wp at 1.
    destruct (load_if_present_outcomes env present methane
                (snd (load_if_present env water st2)) Hpresent) as [-> Hm].
    apply wp_ret.
    eapply wp_one_more; [apply test_rotation_booked | intros b3 st3 H3].
    apply wp_bind.
    apply (wp_respects same_self); [apply webdriver_report_keeps_session|].
    intros r st4 Hsame. unfold same_self in Hsame.
    destruct r; [apply wp_ret|]; rewrite Hsame; unfold planned_outcomes;
      cbn [self results tests] in *; lia.
  - cbn [tick log advance st_world] in *. rewrite H, H0.
    cbn [self results tests]. lia.
  - rewrite H. cbn [self results tests]. lia.
Qed.

(** X12. A session of the WebDriver script whose driver could be set up
    records exactly one outcome for each test it runs: three, and one
    more for each of [water.xyz] and [methane.xyz] that exists; a
    structure file that does not exist is skipped without a trace.  A
    session whose driver could not be set up records none. *)
Theorem webdriver_session_outcomes env present :
  (forall t p, exists_ env t p = present p) ->
  length (tests (results (self (snd (main env init))))) =
  match Chrome env 0, set_window_size env 1 1920 1080 with
  | inr _, inr _ =>
      3 + (if present water then 1 else 0)
      + (if present methane then 1 else 0)
  | _, _ => 0
  end.
Proof.
  intros Hpresent. rewrite WebDriverSession.main_state.
  assert (respects same_self (close_driver env)) as Hclose
    by (respects_go ltac:(reflexivity)).
  rewrite (Hclose (snd (run_tests env init))).
  rewrite (run_tests_outcomes env present init Hpresent).
  unfold WebDriverSession.started, planned_outcomes.
  change (tick (st_world init)) with 0.
  destruct (Chrome env 0); [reflexivity|].
  destruct (set_window_size env 1 1920 1080); reflexivity.
Qed.

Lemma webdriver_session_outcomes_witness :
  (forall t p, exists_ Scenarios.empty_page t p = true) /\
  length (tests (results (self (snd (main Scenarios.empty_page init))))) = 5.
Proof.
  split; [intros t p; reflexivity|].
  apply (webdriver_session_outcomes Scenarios.empty_page (fun _ => true)).
  intros t p. reflexivity.
Defined.

End WebDriverBooks.

(** ** [visual_validator.py]: screenshots and the books of a session *)

Module ValidatorBooks.
Import Selenium AxiomVisualValidator.

(** X13. [take_screenshot] of the validator has no handler of its own:
    without a driver, or when [save_screenshot] raises, the exception
    goes to the caller and no screenshot is recorded; otherwise it
    returns the path and records one screenshot under the full path. *)
Theorem validator_take_screenshot_propagates env name description st :
  let t := tick (st_world st) in
  let filename := now env t +:+ "_" +:+ name +:+ ".png" in
  let filepath := path_str (joinpath screenshots_dir filename) in
  let run := take_screenshot env name description st in
  match driver (self st), save_screenshot env (S t) filepath with
  | Some _, inr _ =>
      fst run = Ok filepath /\
      driver (self (snd run)) = driver (self st) /\
      results (self (snd run)) =
        {| tests_run := tests_run (results (self st));
           tests_passed := tests_passed (results (self st));
           tests_failed := tests_failed (results (self st));
           screenshots :=
             screenshots (results (self st)) ++
               [{| ss_name := name; ss_description := description;
                   ss_file := filepath; ss_timestamp := now env t |}];
           bugs := bugs (results (self st)) |}
  | Some _, inl msg =>
      fst run = Raise (Exception msg) /\ self (snd run) = self st
  | None, _ =>
      fst run =
        Raise (Exception
                 "'NoneType' object has no attribute 'save_screenshot'") /\
      self (snd run) = self st
  end.
Proof.
  cbv zeta. unfold take_screenshot, driver_call, bind, observe,
    get_self, ext, raise, append_screenshot, update, modify, ret.
  cbn [fst snd st_world self tick log advance].
  destruct (driver (self st)) as [[]|] eqn:Hd; cbn;
    [destruct (save_screenshot env _ _) as [msg|[]]; cbn|];
    rewrite ?Hd; repeat split; reflexivity.
Qed.

(** One more test has been tallied: one more run, one more pass or
    failure, and one more bug exactly with a failure. *)
Definition tallied (st st' : state Self) : Prop :=
  let r := results (self st) in
  let r' := results (self st') in
  tests_run r' = tests_run r + 1 /\
  tests_passed r' + tests_failed r' = tests_passed r + tests_failed r + 1 /\
  length (bugs r') + tests_failed r = length (bugs r) + tests_failed r'.

Lemma isolated_test_tallied method name body test st :
  ValidatorIsolation.isolates method name body test ->
  exists b, fst (test st) = Ok b /\ tallied st (snd (test st)).
Proof.
  intros Hiso. specialize (Hiso st).
  destruct (body _) as [[b|[msg|]] st1]; [| |contradiction].
  - destruct Hiso as [-> (Hr & Hp & Hf & Hb)]. exists b.
    split; [reflexivity|]. unfold tallied. cbn [fst snd].
    rewrite Hr, Hp, Hf, Hb. repeat split; lia.
  - destruct Hiso as (st' & -> & Hr & Hp & Hf & Hb). exists false.
    split; [reflexivity|]. unfold tallied. cbn [fst snd].
    rewrite Hr, Hp, Hf, Hb, length_app. simpl. repeat split; lia.
Qed.

Lemma wp_tallied {B} method name body (test : M Self bool)
    (k : bool -> M Self B) Q st :
  ValidatorIsolation.isolates method name body test ->
  (forall b st', tallied st st' -> wp (k b) Q st') ->
  wp (bind test k) Q st.
Proof.
  intros Hiso Hk. apply wp_bind.
  destruct (isolated_test_tallied method name body test st Hiso)
    as (b & Hr & Ht).
  unfold wp at 1. rewrite Hr. apply Hk. exact Ht.
Qed.

Lemma validator_report_keeps_session env :
  respects same_self (generate_report env).
Proof. respects_go ltac:(reflexivity). Qed.

Lemma stop_driver_keeps_session env : respects same_self (stop_driver env).
Proof. respects_go ltac:(reflexivity). Qed.

(** The books of a validator: counters that add up, and one bug for each
    failure. *)
Definition books (n : nat) (r : Results) : Prop :=
  tests_run r = n /\
  tests_run r = tests_passed r + tests_failed r /\
  length (bugs r) = tests_failed r.

Lemma run_tests_books env st :
  books 0 (results (self st)) ->
  books (if ValidatorSession.started env (tick (st_world st)) then 5 else 0)
    (results (self (snd (run_tests env st)))).
Proof.
  intros (Hrun & Hsum & Hbugs).
  change (wp (run_tests env)
            (fun _ st' =>
               books (if ValidatorSession.started env (tick (st_world st))
                      then 5 else 0) (results (self st'))) st).
  unfold run_tests, ValidatorSession.started.
  repeat lazymatch goal with
         | |- wp (bind (test_file_loading_xyz _) _) _ _ => fail
         | |- _ => wp_step
         end.
  - cbn [tick log advance st_world] in *. rewrite H, H0.
    eapply wp_tallied;
      [apply ValidatorIsolation.test_file_loading_xyz_isolates
      | intros b1 st1 (R1 & S1 & B1)].
    eapply wp_tallied;
      [apply ValidatorIsolation.validator_test_rotation_isolates
      | intros b2 st2 (R2 & S2 & B2)].
    eapply wp_tallied;
      [apply ValidatorIsolation.validator_test_zoom_isolates
      | intros b3 st3 (R3 & S3 & B3)].
    eapply wp_tallied;
      [apply ValidatorIsolation.validator_test_background_colors_isolates
      | intros b4 st4 (R4 & S4 & B4)].
    eapply wp_tallied;
      [apply ValidatorIsolation.test_rendering_controls_isolates
      | intros b5 st5 (R5 & S5 & B5)].
    apply wp_bind.
    apply (wp_respects same_self); [apply validator_report_keeps_session|].
    intros r st6 Hsame. unfold same_self in Hsame.
    cbn [self results] in *.
    destruct r; [apply wp_ret|]; unfold books; rewrite Hsame;
      repeat split; lia.
  - cbn [tick log advance st_world] in *. rewrite H, H0.
    cbn [self results]. repeat split; assumption.
  - rewrite H. cbn [self results]. repeat split; assumption.
Qed.

(** X14. Whatever the browser does, [main] of the validator ends with
    consistent books: five tests run when the browser could be started
    and none when it could not; [tests_run] is the sum of [tests_passed]
    and [tests_failed]; and the [bugs] list holds exactly one entry for
    each failed test. *)
Theorem validator_session_books env :
  let r := results (self (snd (main env init))) in
  tests_run r =
    match Chrome env 0, set_window_size env 1 1920 1080 with
    | inr _, inr _ => 5
    | _, _ => 0
    end /\
  tests_run r = tests_passed r + tests_failed r /\
  length (bugs r) = tests_failed r.
Proof.
  cbv zeta. unfold main. rewrite try_finally_snd.
  rewrite (stop_driver_keeps_session env (snd (run_tests env init))).
  assert (books 0 (results (self init))) as Hinit
    by (repeat split; reflexivity).
  pose proof (run_tests_books env init Hinit) as Hbooks.
  unfold ValidatorSession.started in Hbooks.
  change (tick (st_world init)) with 0 in Hbooks.
  destruct Hbooks as (Hrun & Hsum & Hbugs).
  split; [|split; assumption].
  rewrite Hrun. destruct (Chrome env 0); [reflexivity|].
  destruct (set_window_size env 1 1920 1080); reflexivity.
Qed.

End ValidatorBooks.

(** ** [simple_visual_test.py]: the captures and the release of the GUI *)

Module SimpleBooks.
Import SimpleVisualTest.

(** The names under which [run_visual_tests] captures the screen. *)
Definition capture_names : list string :=
  ["01_initial_state"; "02_after_5sec"; "03_current_state";
   "04_timed_capture"; "05_timed_capture"; "06_timed_capture";
   "07_timed_capture"; "08_timed_capture"; "09_timed_capture";
   "10_timed_capture"].

(** [m] returns, having added one record for each of [names], in
    order. *)
Definition records {A} (names : list string) (m : M Self A) : Prop :=
  forall st,
    (exists a, fst (m st) = Ok a) /\
    map name (results (self (snd (m st)))) =
      map name (results (self st)) ++ names /\
    gui_process (self (snd (m st))) = gui_process (self st).

Lemma records_ret {A} (a : A) : records [] (ret a).
Proof.
  intros st. split; [eexists; reflexivity|]. simpl.
  rewrite app_nil_r. split; reflexivity.
Qed.

Lemma records_bind {A B} names1 names2 (m : M Self A) (k : A -> M Self B) :
  records names1 m -> (forall a, records names2 (k a)) ->
  records (names1 ++ names2) (bind m k).
Proof.
  intros Hm Hk st. destruct (Hm st) as ([a Ha] & Hn & Hp).
  rewrite bind_unfold, Ha. destruct (Hk a (snd (m st))) as (Hr & Hn' & Hp').
  split; [exact Hr|]. rewrite Hn', Hn, Hp', Hp, app_assoc.
  split; reflexivity.
Qed.

Lemma take_screenshot_records env name description :
  records [name] (take_screenshot env name description).
Proof.
  intros st. unfold take_screenshot, try_except, bind, observe, ext,
    append_result, modify, ret.
  cbn [fst snd st_world self tick log advance].
  destruct (run_checked _ _ _) as [msg|[]]; cbn;
    rewrite map_app; (split; [eexists; reflexivity|]); split; reflexivity.
Qed.

Lemma records_names {A} names names' (m : M Self A) :
  records names m -> names = names' -> records names' m.
Proof. intros Hm <-. exact Hm. Qed.

Lemma run_visual_tests_records env :
  records capture_names (run_visual_tests env).
Proof.
  unfold run_visual_tests. cbn [for_each seq].
  eapply records_names.
  - repeat first
      [ apply records_ret
      | apply take_screenshot_records
      | lazymatch goal with
        | |- records _ (bind (sleep _) _) =>
            apply (records_bind []); [apply records_ret | intros ?]
        | |- records _ (bind _ _) => eapply records_bind; [|intros ?]
        end ].
  - vm_compute. reflexivity.
Qed.

Lemma run_visual_tests_leaves_records env st :
  fst (run_visual_tests env st) = Ok tt /\
  map name (results (self (snd (run_visual_tests env st)))) =
    map name (results (self st)) ++ capture_names /\
  length (results (self (snd (run_visual_tests env st)))) =
    length (results (self st)) + 10.
Proof.
  destruct (run_visual_tests_records env st) as ([[] Hr] & Hn & _).
  split; [exact Hr|]. split; [exact Hn|].
  rewrite <- (length_map name), Hn, length_app, length_map. reflexivity.
Qed.

(** X16. [run_visual_tests] always returns, and whatever the capture
    utility does it leaves exactly ten records, one for each capture, in
    order, from [01_initial_state] to [10_timed_capture]. *)
Theorem run_visual_tests_leaves_ten_records env st :
  fst (run_visual_tests env st) = Ok tt /\
  map name (results (self (snd (run_visual_tests env st)))) =
    map name (results (self st)) ++ capture_names /\
  length (results (self (snd (run_visual_tests env st)))) =
    length (results (self st)) + 10.
Proof. exact (run_visual_tests_leaves_records env st). Qed.

(** X17. [stop_gui] does nothing without a process.  With one it
    terminates it; it kills it when, and only when, the wait of five
    seconds times out; and a failure of [terminate], of the wait, or of
    [kill] goes to the caller. *)
Theorem stop_gui_kills_only_on_timeout env st :
  let t := tick (st_world st) in
  let run := stop_gui env st in
  let terminated n :=
    called "gui_process.terminate" (snd run) =
    called "gui_process.terminate" st + n in
  let killed n :=
    called "gui_process.kill" (snd run) = called "gui_process.kill" st + n in
  match gui_process (self st) with
  | None => fst run = Ok tt /\ terminated 0 /\ killed 0
  | Some _ =>
      terminated 1 /\
      match terminate env t with
      | inl msg => fst run = Raise (Exception msg) /\ killed 0
      | inr _ =>
          match wait env (S t) with
          | Exited => fst run = Ok tt /\ killed 0
          | WaitFailed msg => fst run = Raise (Exception msg) /\ killed 0
          | WaitTimedOut =>
              killed 1 /\
              fst run = match kill env (S (S t)) with
                        | inl msg => Raise (Exception msg)
                        | inr _ => Ok tt
                        end
          end
      end
  end.
Proof.
  cbv zeta. unfold stop_gui, bind, enter, get_self, ext, observe, ret, raise,
    called.
  cbn [fst snd st_world self tick log advance events].
  destruct (gui_process (self st)); cbn [fst snd st_world self tick log
                                         advance events].
  - destruct (terminate env (tick (st_world st))) as [msg|[]];
      cbn [fst snd st_world self tick log advance events];
      [|destruct (wait env (S (tick (st_world st)))) as [| |msg];
        cbn [fst snd st_world self tick log advance events];
        [|destruct (kill env (S (S (tick (st_world st))))) as [msg|[]];
          cbn [fst snd st_world self tick log advance events]|]];
      rewrite !count_event_app; count_eval; repeat split; lia.
  - rewrite !count_event_app; count_eval; repeat split; lia.
Qed.

Lemma simple_generate_report_entered env st :
  entered "generate_report" (snd (generate_report env st)) =
  S (entered "generate_report" st).
Proof.
  rewrite <- (entered_enter "generate_report" st).
  unfold generate_report. cbv zeta.
  lazymatch goal with
  | |- context [bind (enter ?n) ?k] =>
      apply (respects_tail (same_count (Enter "generate_report")) (enter n) k st)
  end.
  intros _. respects_go count_leaf.
Qed.

Lemma run_visual_tests_total env : total (run_visual_tests env).
Proof.
  intros st. destruct (run_visual_tests_records env st) as [Hr _].
  exact Hr.
Qed.

Lemma simple_run_tests_reports_once env st :
  entered "generate_report" (snd (run_tests env st)) =
  entered "generate_report" st +
  match Popen env (tick (st_world st)) with inr _ => 1 | inl _ => 0 end.
Proof.
  change (wp (run_tests env)
            (fun _ st' =>
               entered "generate_report" st' =
               entered "generate_report" st +
               match Popen env (tick (st_world st)) with
               | inr _ => 1
               | inl _ => 0
               end) st).
  unfold run_tests.
  repeat lazymatch goal with
         | |- wp (bind (run_visual_tests _) _) _ _ => fail
         | |- _ => wp_step
         end.
  - rewrite H.
    lazymatch goal with
    | |- wp _ _ ?s =>
        assert (same_count (Enter "generate_report") s s) as Hsame
          by reflexivity
    end.
    pose proof (run_visual_tests_total env).
    wp_totals (@same_count Self (Enter "generate_report")) count_leaf.
    lazymatch goal with
    | |- wp (bind (generate_report env) _) _ ?s =>
        apply wp_bind; unfold wp at 1;
        pose proof (simple_generate_report_entered env s) as Hgen;
        unfold same_count in Hsame; unfold entered in *;
        cbn [st_world events log advance] in Hsame;
        rewrite !count_event_app in Hsame; cbn in Hsame;
        destruct (fst (generate_report env s)); [wp_go|]; lia
    end.
  - rewrite H. unfold entered. cbn [st_world events log advance self].
    rewrite !count_event_app. count_eval. lia.
Qed.

Definition report_path : Path :=
  joinpath base_dir "SIMPLE_VALIDATION_REPORT.md".

Definition title : string :=
  "# Axiom GUI Simple Visual Validation" +:+ nl +:+ nl.

Definition generated_line (generated : string) : string :=
  "Generated: " +:+ generated +:+ nl +:+ nl.

(** The summary of the report: the captures that succeeded out of the
    captures that were tried. *)
Definition summary (succeeded tried : nat) : list string :=
  ["## Summary" +:+ nl +:+ nl;
   "- Screenshots Captured: " +:+ pretty succeeded +:+ "/" +:+ pretty tried
     +:+ nl +:+ nl].

Lemma simple_report_keeps_session env :
  respects same_self (generate_report env).
Proof. respects_go ltac:(reflexivity). Qed.

(** The summary is on file before the structures directory is read,
    whatever happens then. *)
Lemma simple_report_summary env st :
  open_w env (tick (st_world st)) (path_str report_path) = inr tt ->
  exists rest,
    report (st_world (snd (generate_report env st))) =
    Some (title :: generated_line (now_long env (S (tick (st_world st))))
          :: summary (length (List.filter success (results (self st))))
                     (length (results (self st))) ++ rest).
Proof.
  intros Hopen.
  change (wp (generate_report env)
            (fun _ st' =>
               exists rest,
                 report (st_world st') =
                 Some (title
                       :: generated_line
                            (now_long env (S (tick (st_world st))))
                       :: summary
                            (length (List.filter success (results (self st))))
                            (length (results (self st))) ++ rest)) st).
  unfold generate_report. cbv zeta.
  wp_step. wp_step. apply wp_bind. apply wp_fopen_w;
    [intros _ | intros msg Hmsg; cbn [tick log st_world] in Hmsg;
                unfold report_path in Hopen; congruence].
  do 12 wp_step_flat. rewrite sum_1_if_filter.
  apply (wp_respects extends_report).
  - respects_go extends_leaf.
  - intros r st' Hext. apply (Hext _ eq_refl).
Qed.

Definition same_report : relation (state Self) :=
  fun st st' =>
    report (st_world st') = report (st_world st) /\ self st' = self st.

Global Instance same_report_preorder : PreOrder same_report.
Proof.
  split; [intros st; split; reflexivity|].
  intros a b c [? ?] [? ?]. unfold same_report in *. split; congruence.
Qed.

Lemma stop_gui_keeps_report env : respects same_report (stop_gui env).
Proof. respects_go ltac:(split; reflexivity). Qed.

(** X19. In a session whose application could be launched and whose
    report file could be opened, the report starts with a summary that
    reads [k/10]: ten captures were tried, whatever became of them, and
    [k] is the number of records of the session marked as successful. *)
Theorem simple_session_summary env :
  Popen env 0 = inr tt ->
  (forall t, open_w env t (path_str report_path) = inr tt) ->
  let st' := snd (main env init) in
  let k := length (List.filter success (results (self st'))) in
  length (results (self st')) = 10 /\ k <= 10 /\
  exists date rest,
    report (st_world st') =
    Some (title :: generated_line date
          :: ("## Summary" +:+ nl +:+ nl)
          :: ("- Screenshots Captured: " +:+ pretty k +:+ "/10"
              +:+ nl +:+ nl)
          :: rest).
Proof.
  intros Hpopen Hopen. cbv zeta. unfold main. rewrite try_finally_snd.
  destruct (stop_gui_keeps_report env (snd (run_tests env init)))
    as [Hrep Hself].
  rewrite Hrep, Hself.
  unfold run_tests. rewrite bind_unfold.
  assert (start_gui env init =
          (Ok tt, State (advance (log (Call "subprocess.Popen") world0))
                        {| gui_process := Some tt; results := [] |})) as ->.
  { unfold start_gui, bind, ext, set_gui_process, modify, sleep, ret.
    change (tick (st_world init)) with 0. rewrite Hpopen. reflexivity. }
  cbn [fst snd]. set (st1 := State _ _).
  rewrite bind_unfold.
  destruct (run_visual_tests_leaves_records env st1) as (Hr & _ & Hlen).
  rewrite Hr. set (st2 := snd (run_visual_tests env st1)) in *.
  change (results (self st1)) with (@nil Result) in Hlen. simpl in Hlen.
  rewrite bind_unfold.
  destruct (simple_report_summary env st2 (Hopen _)) as [rest Hsum].
  pose proof (simple_report_keeps_session env st2) as Hsame.
  unfold same_self in Hsame.
  assert (self (snd (match fst (generate_report env st2) with
                     | Ok a => ret tt (snd (generate_report env st2))
                     | Raise e => (Raise e, snd (generate_report env st2))
                     end)) = self st2 /\
          report (st_world
                    (snd (match fst (generate_report env st2) with
                          | Ok a => ret tt (snd (generate_report env st2))
                          | Raise e =>
                              (Raise e, snd (generate_report env st2))
                          end))) =
          report (st_world (snd (generate_report env st2)))) as [-> ->]
    by (destruct (fst (generate_report env st2)); split; assumption || reflexivity).
  rewrite Hsum, Hlen. split; [reflexivity|]. split.
  - rewrite <- Hlen. apply List.filter_length_le.
  - eexists _, _. unfold summary. cbn [app]. reflexivity.
Qed.

Lemma simple_session_summary_witness :
  Popen Scenarios.display_ok 0 = inr tt /\
  (forall t, open_w Scenarios.display_ok t (path_str report_path) = inr tt) /\
  length (results (self (snd (main Scenarios.display_ok init)))) = 10.
Proof.
  split; [reflexivity|]. split; [intros t; reflexivity|].
  apply (simple_session_summary Scenarios.display_ok);
    [reflexivity | intros t; reflexivity].
Defined.

End SimpleBooks.

(** ** Sessions that cannot start, and the reports of the other scripts *)

Lemma stop_gui_keeps_report_count env :
  respects (same_count (Enter "generate_report"))
    (SimpleVisualTest.stop_gui env).
Proof. respects_go count_leaf. Qed.

Lemma axiom_generate_report_entered env st :
  entered "generate_report" (snd (AxiomRenderTest.generate_report env st)) =
  S (entered "generate_report" st).
Proof.
  rewrite <- (entered_enter "generate_report" st).
  unfold AxiomRenderTest.generate_report. cbv zeta.
  lazymatch goal with
  | |- context [bind (enter ?n) ?k] =>
      apply (respects_tail (same_count (Enter "generate_report")) (enter n) k st)
  end.
  intros _. respects_go count_leaf.
Qed.

Lemma axiom_main_reports_once env st :
  entered "generate_report" (snd (AxiomRenderTest.main env st)) =
  S (entered "generate_report" st).
Proof.
  change (wp (AxiomRenderTest.main env)
            (fun _ st' =>
               entered "generate_report" st' =
               S (entered "generate_report" st)) st).
  unfold AxiomRenderTest.main. cbv zeta.
  assert (same_count (Enter "generate_report") st st) as Hsame
    by reflexivity.
  wp_totals (@same_count AxiomRenderTest.Results (Enter "generate_report"))
    count_leaf.
  lazymatch goal with
  | |- wp (bind (AxiomRenderTest.generate_report env) _) _ ?s =>
      apply wp_bind; unfold wp at 1;
      pose proof (axiom_generate_report_entered env s) as Hgen;
      unfold same_count in Hsame; unfold entered in *;
      destruct (fst (AxiomRenderTest.generate_report env s)); [wp_go|]; lia
  end.
Qed.

Lemma bind_raises {Self A B} (m : M Self A) (k : A -> M Self B) st e st' :
  m st = (Raise e, st') -> bind m k st = (Raise e, st').
Proof. intros Hm. unfold bind. rewrite Hm. reflexivity. Qed.

(** X15. The validator and the simple script have no handler around
    their session: when the browser, or the application, cannot be
    created, the exception leaves [main] as it is, after the release
    path found nothing to release; no test has run and no report was
    written. *)
Theorem startup_failure_escapes_main :
  (forall env msg,
     AxiomVisualValidator.Chrome env 0 = inl msg ->
     let run := AxiomVisualValidator.main env AxiomVisualValidator.init in
     fst run = Raise (Exception msg) /\
     self (snd run) = self AxiomVisualValidator.init /\
     report (st_world (snd run)) = None) /\
  (forall env msg,
     SimpleVisualTest.Popen env 0 = inl msg ->
     let run := SimpleVisualTest.main env SimpleVisualTest.init in
     fst run = Raise (Exception msg) /\
     self (snd run) = self SimpleVisualTest.init /\
     report (st_world (snd run)) = None).
Proof.
  split; intros env msg Hfail; cbv zeta.
  - assert (AxiomVisualValidator.run_tests env AxiomVisualValidator.init =
            (Raise (Exception msg),
             State (advance (log (Call "webdriver.Chrome") world0))
                   (self AxiomVisualValidator.init))) as Hrun.
    { unfold AxiomVisualValidator.run_tests,
        AxiomVisualValidator.start_driver.
      apply bind_raises. apply bind_raises. unfold ext.
      change (tick (st_world AxiomVisualValidator.init)) with 0.
      rewrite Hfail. reflexivity. }
    unfold AxiomVisualValidator.main, try_finally. rewrite Hrun.
    repeat split; reflexivity.
  - assert (SimpleVisualTest.run_tests env SimpleVisualTest.init =
            (Raise (Exception msg),
             State (advance (log (Call "subprocess.Popen") world0))
                   (self SimpleVisualTest.init))) as Hrun.
    { unfold SimpleVisualTest.run_tests, SimpleVisualTest.start_gui.
      apply bind_raises. apply bind_raises. unfold ext.
      change (tick (st_world SimpleVisualTest.init)) with 0.
      rewrite Hfail. reflexivity. }
    unfold SimpleVisualTest.main, try_finally. rewrite Hrun.
    repeat split; reflexivity.
Qed.

Lemma startup_failure_escapes_main_witness :
  let env := Scenarios.validator_browser (inl "chrome not reachable") in
  AxiomVisualValidator.Chrome env 0 = inl "chrome not reachable" /\
  fst (AxiomVisualValidator.main env AxiomVisualValidator.init) =
    Raise (Exception "chrome not reachable") /\
  self (snd (AxiomVisualValidator.main env AxiomVisualValidator.init)) =
    self AxiomVisualValidator.init /\
  report (st_world
            (snd (AxiomVisualValidator.main env AxiomVisualValidator.init)))
    = None.
Proof.
  cbv zeta. split; [reflexivity|].
  apply (proj1 startup_failure_escapes_main
           (Scenarios.validator_browser (inl "chrome not reachable"))).
  reflexivity.
Defined.

(** X18. The simple script generates its report exactly once when the
    application could be launched and not at all when it could not; the
    library script, which has nothing to launch, generates its report
    exactly once in every run. *)
Theorem simple_and_axiom_report_once :
  (forall env,
     entered "generate_report"
       (snd (SimpleVisualTest.main env SimpleVisualTest.init)) =
     match SimpleVisualTest.Popen env 0 with inr _ => 1 | inl _ => 0 end) /\
  (forall env,
     entered "generate_report"
       (snd (AxiomRenderTest.main env AxiomRenderTest.init)) = 1).
Proof.
  split; intros env.
  - unfold SimpleVisualTest.main. rewrite try_finally_snd.
    pose proof (stop_gui_keeps_report_count env
                  (snd (SimpleVisualTest.run_tests env SimpleVisualTest.init)))
      as Hstop.
    pose proof (SimpleBooks.simple_run_tests_reports_once env
                  SimpleVisualTest.init) as Hrun.
    unfold same_count, entered in *. rewrite Hstop, Hrun. reflexivity.
  - apply (axiom_main_reports_once env AxiomRenderTest.init).
Qed.

(** ** The report of the library script on a session with outcomes *)

Module AxiomLibraryReport.
Import AxiomRenderTest.

Definition title : string := "# Axiom Library Test Report" +:+ nl +:+ nl.

Definition generated_line (generated : string) : string :=
  "Generated: " +:+ generated +:+ nl +:+ nl.

(** The summary, its counts written as the sizes of the collections of
    the session, and the rate as the binding of [format] gives it for the
    two counts. *)
Definition summary (env : Env) (r : Results) : list string :=
  let passed := length (List.filter (has_result PASS) (tests r)) in
  ["## Summary" +:+ nl +:+ nl;
   "- Total Tests: " +:+ pretty (length (tests r)) +:+ nl;
   "- Passed: " +:+ pretty passed +:+ nl;
   "- Failed: "
     +:+ pretty (length (List.filter (has_result FAIL) (tests r))) +:+ nl;
   "- Success Rate: " +:+ percent_1f env passed (length (tests r)) +:+ "%"
     +:+ nl +:+ nl].



End AxiomLibraryReport.
